(** * Calendar application: month grid, event list and REST event store

    A shallow embedding of [script.js] (the browser calendar) and of the
    Express/MongoDB event server, with the properties of the grid layout,
    the per-day event filter, the conflict flags, the navigation handlers,
    the add-event form and the three REST handlers.

    Conventions.
    - JavaScript numbers that hold integers are [Z]; every integer the
      handlers compute is far below 2^53 in magnitude, where double
      arithmetic is exact.  A number that may be [NaN] is an [option Z]
      with [None] for [NaN].
    - [Date] follows the ECMAScript algorithms (DayFromYear, YearFromTime,
      MonthFromTime, DateFromTime, WeekDay, MakeDay, MakeDate, LocalTime,
      UTC, TimeClip and the two-digit-year rule of the constructor).  The
      local time zone and the locale texts belong to the host and are
      parameters of the model.
    - The DOM is a tree of records: a cell carries its class list, its day
      number, its [data-date] and click target, and its event boxes.  What
      the script reads from the markup of the page, which is not part of
      the script, is a parameter too. *)

From stdpp Require Import base list strings sorting pretty.
From Stdlib Require Import ZArith Lia.

Local Open Scope Z_scope.

(** ** ECMAScript [Date] *)

Module JsDate.

Definition msPerDay : Z := 86400000.

(** Day number and time within the day of a time value. *)
Definition Day (t : Z) : Z := t / msPerDay.
Definition TimeWithinDay (t : Z) : Z := t mod msPerDay.

Definition DaysInYear (y : Z) : Z :=
  if negb (y mod 4 =? 0) then 365
  else if negb (y mod 100 =? 0) then 366
  else if negb (y mod 400 =? 0) then 365
  else 366.

(** Day number of the first day of year [y]. *)
Definition DayFromYear (y : Z) : Z :=
  365 * (y - 1970) + (y - 1969) / 4 - (y - 1901) / 100 + (y - 1601) / 400.

Definition TimeFromYear (y : Z) : Z := msPerDay * DayFromYear y.

(** ECMAScript defines YearFromTime(t) as the largest [y] with
    [TimeFromYear y <= t].  It is computed here from the mean year length
    (146097 days in 400 years) and adjusted by at most one year; lemma
    [YearFromDay_largest] below shows that this is that largest [y]. *)
Definition YearFromDay (d : Z) : Z :=
  let e := 1970 + (d * 400) / 146097 in
  if DayFromYear (e + 1) <=? d then e + 1
  else if DayFromYear e <=? d then e
  else e - 1.

Definition YearFromTime (t : Z) : Z := YearFromDay (Day t).

Definition InLeapYear (t : Z) : Z :=
  if DaysInYear (YearFromTime t) =? 366 then 1 else 0.

Definition DayWithinYear (t : Z) : Z := Day t - DayFromYear (YearFromTime t).

Definition MonthFromTime (t : Z) : Z :=
  let w := DayWithinYear t in
  let l := InLeapYear t in
  if w <? 31 then 0
  else if w <? 59 + l then 1
  else if w <? 90 + l then 2
  else if w <? 120 + l then 3
  else if w <? 151 + l then 4
  else if w <? 181 + l then 5
  else if w <? 212 + l then 6
  else if w <? 243 + l then 7
  else if w <? 273 + l then 8
  else if w <? 304 + l then 9
  else if w <? 334 + l then 10
  else 11.

Definition DateFromTime (t : Z) : Z :=
  let w := DayWithinYear t in
  let l := InLeapYear t in
  match MonthFromTime t with
  | 0 => w + 1
  | 1 => w - 30
  | 2 => w - 58 - l
  | 3 => w - 89 - l
  | 4 => w - 119 - l
  | 5 => w - 150 - l
  | 6 => w - 180 - l
  | 7 => w - 211 - l
  | 8 => w - 242 - l
  | 9 => w - 272 - l
  | 10 => w - 303 - l
  | _ => w - 333 - l
  end.

Definition WeekDay (t : Z) : Z := (Day t + 4) mod 7.

(** Days of year [y] that precede month [mn] (0-based). *)
Definition DaysBeforeMonth (y mn : Z) : Z :=
  let l := if DaysInYear y =? 366 then 1 else 0 in
  match mn with
  | 0 => 0
  | 1 => 31
  | 2 => 59 + l
  | 3 => 90 + l
  | 4 => 120 + l
  | 5 => 151 + l
  | 6 => 181 + l
  | 7 => 212 + l
  | 8 => 243 + l
  | 9 => 273 + l
  | 10 => 304 + l
  | _ => 334 + l
  end.

(** MakeDay: months outside 0..11 carry into the year; the day of the
    month is an offset from the first of the month, so that day 0 is the
    last day of the month before. *)
Definition MakeDay (year month date : Z) : Z :=
  let ym := year + month / 12 in
  let mn := month mod 12 in
  DayFromYear ym + DaysBeforeMonth ym mn + date - 1.

Definition MakeDate (day time : Z) : Z := day * msPerDay + time.

(** TimeClip: a time value further than 8.64e15 ms from the epoch is NaN. *)
Definition TimeClip (t : Z) : option Z :=
  if Z.abs t <=? 8640000000000000 then Some t else None.

(** A Date object is its time value; [None] is an invalid Date. *)
Definition Date : Type := option Z.

(** The year the Date constructor takes [year] to mean: a year in 0..99
    means 1900 + year. *)
Definition two_digit_rule (year : Z) : Z :=
  if (0 <=? year) && (year <=? 99) then 1900 + year else year.

(** The years all of whose months lie inside the range of Date (which
    runs from 20 April -271821 to 13 September 275760). *)
Definition year_in_Date_range (year : Z) : Prop := -271820 <= year <= 275759.

(** What ECMAScript leaves to the host of the script: the local time
    zone and the locale texts.  [LocalTZA t true] is the offset of local
    time from UTC, in milliseconds, at the time value [t]; [LocalTZA t
    false] is the offset by which the local time [t] is read as a time
    value (for a local time that a change of the clocks skips, the offset
    of before the change).  An offset is less than a day.
    [DateTimeFormat t] is the text that the en-US formatter for a long
    month and a numeric year gives for the time value [t]. *)
Class Host : Type := mkHost {
  LocalTZA : Z → bool → Z;
  LocalTZA_bound : ∀ t isUTC, - msPerDay < LocalTZA t isUTC < msPerDay;
  DateTimeFormat : Z → string
}.

Section Local.
Context {host : Host}.

Definition LocalTime (t : Z) : Z := t + LocalTZA t true.

(** The time value of a local time. *)
Definition UTC (t : Z) : Z := t - LocalTZA t false.

(** [new Date(year, month, date)]: the arguments are local time. *)
Definition new_Date (year month date : Z) : Date :=
  let yr := two_digit_rule year in
  TimeClip (UTC (MakeDate (MakeDay yr month date) 0)).

(** The getters read the time value in local time. *)
Definition getDay (d : Date) : option Z := (λ t, WeekDay (LocalTime t)) <$> d.
Definition getDate (d : Date) : option Z :=
  (λ t, DateFromTime (LocalTime t)) <$> d.
Definition getMonth (d : Date) : option Z :=
  (λ t, MonthFromTime (LocalTime t)) <$> d.
Definition getFullYear (d : Date) : option Z :=
  (λ t, YearFromTime (LocalTime t)) <$> d.

(** [d.toLocaleDateString("en-US", { month: "long", year: "numeric" })]. *)
Definition toLocaleDateString (d : Date) : string :=
  match d with Some t => DateTimeFormat t | None => "Invalid Date" end.

End Local.

(** A zone whose calendar skips no whole day: a local time is read as a
    time value whose local time is the same or, when a change of the
    clocks skips it, later by less than a day.  The zones that crossed
    the date line (the Line Islands at the end of 1994, Samoa at the end
    of 2011) do skip a day. *)
Definition skips_no_day (host : Host) : Prop :=
  ∀ t, 0 <= LocalTime (UTC t) - t < msPerDay.

End JsDate.

(** ** JavaScript arithmetic on numbers that may be NaN *)

Module JsNum.

Definition num : Type := option Z.

Definition add (a b : num) : num :=
  x ← a; y ← b; Some (x + y).
Definition sub (a b : num) : num :=
  x ← a; y ← b; Some (x - y).
(** [%] truncates toward zero: the result has the sign of the dividend. *)
Definition rem (a b : num) : num :=
  x ← a; y ← b; if y =? 0 then None else Some (Z.rem x y).
(** Comparisons with NaN are false. *)
Definition lt (a b : num) : bool :=
  match a, b with Some x, Some y => x <? y | _, _ => false end.
Definition le (a b : num) : bool :=
  match a, b with Some x, Some y => x <=? y | _, _ => false end.

End JsNum.

(** ** The three counts of the month grid ([renderCalendar], step 3 and 6) *)

Section Counts.
Context {host : JsDate.Host}.

Definition firstDayOfMonth (currentYear currentMonth : Z) : JsNum.num :=
  JsDate.getDay (JsDate.new_Date currentYear currentMonth 1).

Definition daysInMonth (currentYear currentMonth : Z) : JsNum.num :=
  JsDate.getDate (JsDate.new_Date currentYear (currentMonth + 1) 0).

Definition daysInPrevMonth (currentYear currentMonth : Z) : JsNum.num :=
  JsDate.getDate (JsDate.new_Date currentYear currentMonth 0).

Definition totalCells (currentYear currentMonth : Z) : JsNum.num :=
  JsNum.add (firstDayOfMonth currentYear currentMonth)
            (daysInMonth currentYear currentMonth).

Definition nextMonthDaysNeeded (currentYear currentMonth : Z) : JsNum.num :=
  JsNum.rem (JsNum.sub (Some 42) (totalCells currentYear currentMonth)) (Some 7).

End Counts.

(** ** The browser calendar ([script.js]) *)

Module Calendar.

(** An entry of [staticEvents]. *)
Record Event : Type := mkEvent {
  title : string;
  date : string;
  time : string;
  duration : string
}.

Definition sampleEvents : list Event :=
  [ mkEvent "Project Kickoff" "2025-11-25" "10:00" "1h";
    mkEvent "Team Review" "2025-11-25" "11:00" "30m";
    mkEvent "Client Presentation" "2025-11-25" "14:00" "2h";
    mkEvent "Quarterly Planning" "2025-12-05" "09:30" "2h";
    mkEvent "Holiday Party" "2025-12-24" "18:00" "4h";
    mkEvent "Bug Bash" "2025-11-01" "09:00" "3h" ].

(** *** Strings *)

(** [Number.prototype.toString] on an integer, ["NaN"] for NaN. *)
Definition toString (n : JsNum.num) : string :=
  match n with Some z => pretty z | None => "NaN" end.

(** The [n] characters that [padStart] puts in front: the pad string
    repeated and cut to length ([cur] is what is left of the current
    copy of the pad string). *)
Fixpoint padding (n : nat) (padString cur : string) : string :=
  match n with
  | O => EmptyString
  | S n' =>
      match cur with
      | String c cs => String c (padding n' padString cs)
      | EmptyString =>
          match padString with
          | String c cs => String c (padding n' padString cs)
          | EmptyString => EmptyString
          end
      end
  end.

Definition padStart (targetLength : nat) (padString s : string) : string :=
  padding (targetLength - String.length s) padString padString +:+ s.

Definition formatDate (year month : Z) (day : JsNum.num) : string :=
  let m := padStart 2 "0" (toString (Some (month + 1))) in
  let d := padStart 2 "0" (toString day) in
  toString (Some year) +:+ "-" +:+ m +:+ "-" +:+ d.

(** *** The document *)

(** A [div.event] inside a date cell. *)
Record EventDiv : Type := mkEventDiv {
  ev_classes : list string;
  ev_textContent : string;
  ev_title : string
}.

(** A [div.date-cell]: [onclick] is the date string its click listener
    puts into the form, when it has a listener. *)
Record Cell : Type := mkCell {
  classes : list string;
  dayNumber : JsNum.num;
  dataset_date : option string;
  onclick : option string;
  children : list EventDiv
}.

(** The values of the four inputs of the add-event form. *)
Record Form : Type := mkForm {
  event_title : string;
  event_date : string;
  event_time : string;
  event_duration : string
}.

(** What the script finds in the markup of the page, which is not part
    of the script: the values of the form inputs, which [reset] restores;
    the inline display of the modal; the text of the header before the
    first render; and what the [#event-date] input holds once a string is
    assigned to its value (the string itself for a text input; for a date
    input, the string when it is a valid date string and the empty string
    otherwise). *)
Record Markup : Type := mkMarkup {
  input_values : Form;
  modal_style_display : string;
  header_textContent : string;
  event_date_assign : string → string
}.

(** Modelled from the spec: the check of the required fields of the
    add-event form, which the page does before it fires the submit event
    and which is in the markup of the page, not in [script.js].  The spec
    requires date and title to be non-empty before a submission proceeds:
    the form is valid when neither is empty. *)
Definition checkValidity (f : Form) : bool :=
  negb (String.eqb (event_date f) EmptyString)
  && negb (String.eqb (event_title f) EmptyString).

(** The mutable globals of the script and the parts of the page it
    writes.  [today] is the time value of the Date [today]. *)
Record State : Type := mkState {
  staticEvents : list Event;
  currentYear : Z;
  currentMonth : Z;
  today : Z;
  calendarGrid : list Cell;
  currentMonthYearDisplay : string;
  modal_display : string;
  form : Form;
  markup : Markup
}.

Definition set_grid (g : list Cell) (st : State) : State :=
  mkState (staticEvents st) (currentYear st) (currentMonth st) (today st)
          g (currentMonthYearDisplay st) (modal_display st) (form st)
          (markup st).

Definition set_header (text : string) (st : State) : State :=
  mkState (staticEvents st) (currentYear st) (currentMonth st) (today st)
          (calendarGrid st) text (modal_display st) (form st) (markup st).

Definition set_view (y m : Z) (st : State) : State :=
  mkState (staticEvents st) y m (today st)
          (calendarGrid st) (currentMonthYearDisplay st) (modal_display st)
          (form st) (markup st).

Definition set_modal (d : string) (st : State) : State :=
  mkState (staticEvents st) (currentYear st) (currentMonth st) (today st)
          (calendarGrid st) (currentMonthYearDisplay st) d (form st)
          (markup st).

Definition set_form (f : Form) (st : State) : State :=
  mkState (staticEvents st) (currentYear st) (currentMonth st) (today st)
          (calendarGrid st) (currentMonthYearDisplay st) (modal_display st) f
          (markup st).

Definition set_events (evs : list Event) (st : State) : State :=
  mkState evs (currentYear st) (currentMonth st) (today st)
          (calendarGrid st) (currentMonthYearDisplay st) (modal_display st)
          (form st) (markup st).

(** *** Helper functions *)

Definition hasConflict (dayEvents : list Event) : Z :=
  Z.of_nat (length dayEvents).

(** The class added to an event box for a given [conflictCount]. *)
Definition conflictClass (conflictCount : Z) : list string :=
  if conflictCount =? 2 then ["conflict-level-2"]
  else if 3 <=? conflictCount then ["conflict-level-3"]
  else [].

Definition eventDiv (conflictCount : Z) (event : Event) : EventDiv :=
  mkEventDiv
    ("event" :: conflictClass conflictCount)
    (time event +:+ " - " +:+ title event)
    (title event +:+ " (" +:+ time event +:+ ", " +:+ duration event +:+ ")").

(** The cell that [createDateCell] builds. *)
Definition dateCell (currentYear currentMonth : Z) (day : JsNum.num)
    (isInactive isPrevMonth isToday : bool) (events : list Event) : Cell :=
  let dateString := formatDate currentYear currentMonth day in
  mkCell
    (["date-cell"]
       ++ (if isInactive then ["inactive-month"] else [])
       ++ (if isToday then ["current-day"] else []))
    day
    (if isInactive then None else Some dateString)
    (if isInactive then None else Some dateString)
    (if (0 <? Z.of_nat (length events)) && negb isInactive
     then let conflictCount := hasConflict events in
          eventDiv conflictCount <$> events
     else []).

Definition createDateCell (day : JsNum.num)
    (isInactive isPrevMonth isToday : bool) (events : list Event)
    (st : State) : State :=
  set_grid (calendarGrid st ++
            [dateCell (currentYear st) (currentMonth st) day
                      isInactive isPrevMonth isToday events]) st.

(** The events of one day: [staticEvents.filter(e => e.date === dateString)]. *)
Definition eventsOn (dateString : string) (events : list Event) : list Event :=
  filter (λ e, date e = dateString) events.

(** The values a [for] loop counter takes from [from] while it is below
    [bound] (no value when the bound is NaN). *)
Definition range_lt (from : Z) (bound : JsNum.num) : list Z :=
  match bound with Some b => seqZ from (b - from) | None => [] end.

Definition range_le (from : Z) (bound : JsNum.num) : list Z :=
  match bound with Some b => seqZ from (b + 1 - from) | None => [] end.

(** The listener of an active cell: the input keeps of the date string
    what the markup lets it keep. *)
Definition cell_click (dateString : string) (st : State) : State :=
  let f := form st in
  set_modal "block"
    (set_form (mkForm (event_title f)
                      (event_date_assign (markup st) dateString)
                      (event_time f) (event_duration f)) st).

Definition closeBtn_click (st : State) : State := set_modal "none" st.

(** The listener on [window]: [onModal] tells whether the click hit the
    modal backdrop itself. *)
Definition window_click (onModal : bool) (st : State) : State :=
  if onModal then set_modal "none" st else st.

(** What the user can do. *)
Inductive Action : Type :=
| PREV
| NEXT
| OPEN_PROMPT (dateString : string)
| CLOSE
| CLICK_WINDOW (onModal : bool)
| TYPE (f : Form)
| SUBMIT.

Section Script.
Context {host : JsDate.Host}.

(** [day === today.getDate() && currentMonth === today.getMonth() &&
    currentYear === today.getFullYear()]. *)
Definition isToday (st : State) (day : Z) : bool :=
  (day =? JsDate.DateFromTime (JsDate.LocalTime (today st)))
  && (currentMonth st =? JsDate.MonthFromTime (JsDate.LocalTime (today st)))
  && (currentYear st =? JsDate.YearFromTime (JsDate.LocalTime (today st))).

(** *** Rendering *)

Definition renderCalendar (st : State) : State :=
  let y := currentYear st in
  let m := currentMonth st in
  let st := set_grid [] st in
  let dateTitle := JsDate.new_Date y m 1 in
  let st := set_header (JsDate.toLocaleDateString dateTitle) st in
  let first := firstDayOfMonth y m in
  let dim := daysInMonth y m in
  let dprev := daysInPrevMonth y m in
  let st :=
    foldl (λ st i,
             let prevMonthDay :=
               JsNum.add (JsNum.add (JsNum.sub dprev first) (Some i)) (Some 1) in
             createDateCell prevMonthDay true true false [] st)
          st (range_lt 0 first) in
  let st :=
    foldl (λ st day,
             let dateString := formatDate y m (Some day) in
             let dayEvents := eventsOn dateString (staticEvents st) in
             createDateCell (Some day) false false (isToday st day) dayEvents st)
          st (range_le 1 dim) in
  foldl (λ st i, createDateCell (Some i) true false false [] st)
        st (range_le 1 (nextMonthDaysNeeded y m)).

(** The three runs of cells of a render, each as one list: the cells
    before the month, the cells of the month, the cells after it. *)
Definition leadingCells (st : State) : list Cell :=
  let y := currentYear st in
  let m := currentMonth st in
  (λ i, dateCell y m
          (JsNum.add (JsNum.add (JsNum.sub (daysInPrevMonth y m)
                                           (firstDayOfMonth y m))
                                (Some i)) (Some 1))
          true true false [])
    <$> range_lt 0 (firstDayOfMonth y m).

Definition activeCells (st : State) : list Cell :=
  let y := currentYear st in
  let m := currentMonth st in
  (λ day, dateCell y m (Some day) false false (isToday st day)
            (eventsOn (formatDate y m (Some day)) (staticEvents st)))
    <$> range_le 1 (daysInMonth y m).

Definition trailingCells (st : State) : list Cell :=
  let y := currentYear st in
  let m := currentMonth st in
  (λ i, dateCell y m (Some i) true false false [])
    <$> range_le 1 (nextMonthDaysNeeded y m).

(** The header text of a render. *)
Definition headerText (st : State) : string :=
  JsDate.toLocaleDateString
    (JsDate.new_Date (currentYear st) (currentMonth st) 1).

(** *** Handlers *)

Definition prevMonth_click (st : State) : State :=
  let m := currentMonth st - 1 in
  let st := if m <? 0 then set_view (currentYear st - 1) 11 st
            else set_view (currentYear st) m st in
  renderCalendar st.

Definition nextMonth_click (st : State) : State :=
  let m := currentMonth st + 1 in
  let st := if 11 <? m then set_view (currentYear st + 1) 0 st
            else set_view (currentYear st) m st in
  renderCalendar st.

(** The listener of the form's submit event; [reset] puts the values of
    the markup back into the inputs. *)
Definition addEventForm_submit (st : State) : State :=
  let f := form st in
  let newEvent :=
    mkEvent (event_title f) (event_date f) (event_time f) (event_duration f) in
  let st := set_events (staticEvents st ++ [newEvent]) st in
  let st := set_form (input_values (markup st)) st in
  let st := set_modal "none" st in
  renderCalendar st.

(** The page after the script has run on the markup [mk]; the clock is
    read three times, for the year, for the month and for [today]. *)
Definition load (now1 now2 now3 : Z) (mk : Markup) : State :=
  renderCalendar
    (mkState sampleEvents
             (JsDate.YearFromTime (JsDate.LocalTime now1))
             (JsDate.MonthFromTime (JsDate.LocalTime now2))
             now3 [] (header_textContent mk) (modal_style_display mk)
             (input_values mk) mk).

(** A submission fires the submit event, and so runs the listener, when
    the form is valid. *)
Definition step (a : Action) (st : State) : State :=
  match a with
  | PREV => prevMonth_click st
  | NEXT => nextMonth_click st
  | OPEN_PROMPT ds => cell_click ds st
  | CLOSE => closeBtn_click st
  | CLICK_WINDOW b => window_click b st
  | TYPE f => set_form f st
  | SUBMIT =>
      if checkValidity (form st) then addEventForm_submit st
      else st
  end.

Definition run (acts : list Action) (st : State) : State :=
  foldl (λ st a, step a st) st acts.

End Script.

End Calendar.

(** ** The event server (Express handlers over a MongoDB collection) *)

Module Server.

(** The values a parsed JSON body can put in a field, and [undefined]
    for a field that is not there.  Numbers are the integral ones; a
    fractional number is non-zero and is treated by the handlers as any
    non-zero number. *)
#[warnings="-register-all"]
Inductive jsval : Type :=
| VUndefined
| VNull
| VBool (b : bool)
| VNum (n : Z)
| VStr (s : string)
| VArr (elems : list jsval)
| VObj (fields : list (string * jsval)).

(** ToBoolean: an array and an object are truthy, empty ones too. *)
Definition truthy (v : jsval) : bool :=
  match v with
  | VUndefined | VNull => false
  | VBool b => b
  | VNum n => negb (n =? 0)
  | VStr s => negb (String.eqb s EmptyString)
  | VArr _ | VObj _ => true
  end.

(** [a || b]. *)
Definition or_else (a b : jsval) : jsval := if truthy a then a else b.

(** *** ObjectId *)

(** The twelve bytes of an ObjectId, as a number. *)
Definition ObjectId : Type := N.

Definition hexDigit (c : Ascii.ascii) : option N :=
  let n := Ascii.N_of_ascii c in
  if ((48 <=? n) && (n <=? 57))%N then Some (n - 48)%N
  else if ((65 <=? n) && (n <=? 70))%N then Some (n - 55)%N
  else if ((97 <=? n) && (n <=? 102))%N then Some (n - 87)%N
  else None.

Fixpoint fromHex (s : string) (acc : N) : option N :=
  match s with
  | EmptyString => Some acc
  | String c cs => d ← hexDigit c; fromHex cs (16 * acc + d)%N
  end.

(** [new ObjectId(id)] on a string: it must be 24 hexadecimal digits,
    otherwise the constructor throws ([None]).  (Older releases of the
    library also took any string of 12 characters; the properties below
    are stated on what the constructor returns and hold for those too.) *)
Definition new_ObjectId (id : string) : option ObjectId :=
  if (String.length id =? 24)%nat then fromHex id 0%N else None.

(** *** Documents and the collection *)

(** A stored event, following the schema comment of the server. *)
Record Doc : Type := mkDoc {
  _id : ObjectId;
  date : jsval;
  title : jsval;
  description : jsval;
  createdAt : Z
}.

(** The [events] collection, in insertion order. *)
Definition Collection : Type := list Doc.

Definition ids (c : Collection) : list ObjectId := _id <$> c.

(** The query [{ date: d }] with a string [d] selects the documents
    whose date is the string [d], and those whose date is an array with
    the string [d] among its elements. *)
Definition is_string (d : string) (v : jsval) : bool :=
  match v with VStr s => String.eqb s d | _ => false end.

Definition matches_string (d : string) (v : jsval) : bool :=
  match v with
  | VArr elems => existsb (is_string d) elems
  | _ => is_string d v
  end.

(** The order MongoDB compares values in.  Values of different types
    compare by type: null (and a missing field), numbers, strings,
    objects, arrays, booleans.  Numbers compare by value, strings byte by
    byte, [false] is below [true]; arrays compare element by element and
    objects field by field, the type of the value first, then the name of
    the field, then the value, and what ends first is the smaller. *)
Definition bson_rank (v : jsval) : Z :=
  match v with
  | VUndefined | VNull => 5
  | VNum _ => 10
  | VStr _ => 15
  | VObj _ => 20
  | VArr _ => 25
  | VBool _ => 40
  end.

(** One comparison after another: the second decides when the first
    finds no difference. *)
Definition and_then (c : comparison) (rest : comparison) : comparison :=
  match c with Eq => rest | _ => c end.

Definition compare_elems (cmp : jsval → jsval → comparison)
    : list jsval → list jsval → comparison :=
  fix elems l l' :=
    match l, l' with
    | [], [] => Eq
    | [], _ :: _ => Lt
    | _ :: _, [] => Gt
    | x :: l, y :: l' => and_then (cmp x y) (elems l l')
    end.

Definition compare_fields (cmp : jsval → jsval → comparison)
    : list (string * jsval) → list (string * jsval) → comparison :=
  fix fields f f' :=
    match f, f' with
    | [], [] => Eq
    | [], _ :: _ => Lt
    | _ :: _, [] => Gt
    | (k, x) :: f, (k', y) :: f' =>
        and_then (bson_rank x ?= bson_rank y)
          (and_then (String.compare k k')
             (and_then (cmp x y) (fields f f')))
    end.

Definition compare_bool (x y : bool) : comparison :=
  match x, y with
  | false, true => Lt
  | true, false => Gt
  | _, _ => Eq
  end.

Fixpoint bson_compare (a b : jsval) {struct a} : comparison :=
  match a, b with
  | VNum x, VNum y => x ?= y
  | VStr x, VStr y => String.compare x y
  | VBool x, VBool y => compare_bool x y
  | VArr l, VArr l' => compare_elems bson_compare l l'
  | VObj f, VObj f' => compare_fields bson_compare f f'
  | _, _ => bson_rank a ?= bson_rank b
  end.

(** The value an ascending sort takes for a field: of an array its
    smallest element, and an empty array comes before everything. *)
Definition least (x : jsval) (l : list jsval) : jsval :=
  foldl (λ m y, match bson_compare y m with Lt => y | _ => m end) x l.

Definition sort_key (v : jsval) : option jsval :=
  match v with
  | VArr [] => None
  | VArr (x :: l) => Some (least x l)
  | _ => Some v
  end.

Definition key_leb (a b : option jsval) : bool :=
  match a, b with
  | None, _ => true
  | Some _, None => false
  | Some x, Some y =>
      match bson_compare x y with Gt => false | _ => true end
  end.

Definition date_le (a b : Doc) : Prop :=
  key_leb (sort_key (date a)) (sort_key (date b)) = true.

#[global] Instance date_le_dec : RelDecision date_le.
Proof. intros a b. unfold date_le. apply _. Defined.

(** What the request finds of its surroundings: the clock, the
    identifier the driver generates for an insert, and whether the
    driver call succeeds (the connection is up) or rejects. *)
Record Env : Type := mkEnv {
  now : Z;
  generatedId : ObjectId;
  driver_up : bool
}.

(** [eventsCollection.find(query).sort({ date: 1 }).toArray()], where
    [query] is [{ date }] for [Some date] and [{}] for [None].  The order
    among documents of equal date is not fixed by the store. *)
Definition find_sort_toArray (env : Env) (c : Collection)
    (query : option string) : option (list Doc) :=
  if driver_up env then
    let found := match query with
                 | Some d => filter (λ doc, matches_string d (date doc) = true) c
                 | None => c
                 end in
    Some (merge_sort date_le found)
  else None.

(** [eventsCollection.insertOne(doc)]: the document gets the generated
    identifier; the unique index on [_id] rejects one that is taken. *)
Definition insertOne (env : Env) (c : Collection)
    (date title description : jsval) (createdAt : Z)
    : option (Collection * Doc) :=
  if driver_up env then
    if bool_decide (generatedId env ∈ ids c) then None
    else let doc := mkDoc (generatedId env) date title description createdAt in
         Some (c ++ [doc], doc)
  else None.

(** The collection without the first document of identifier [oid], and
    the number of documents removed. *)
Fixpoint remove_first (oid : ObjectId) (c : Collection) : Collection * Z :=
  match c with
  | [] => ([], 0)
  | doc :: c' =>
      if bool_decide (_id doc = oid) then (c', 1)
      else let '(r, n) := remove_first oid c' in (doc :: r, n)
  end.

(** [eventsCollection.deleteOne({ _id })]. *)
Definition deleteOne (env : Env) (c : Collection) (oid : ObjectId)
    : option (Collection * Z) :=
  if driver_up env then Some (remove_first oid c) else None.

(** *** Requests and responses *)

Inductive Json : Type :=
| JError (error : string)
| JMessage (message : string)
| JEvents (events : list Doc)
| JEvent (event : Doc).

Record Response : Type := mkResponse {
  status : Z;
  body : Json
}.

(** The fields the POST handler reads from [req.body], when the request
    has a body that the JSON parser took: an object, or an array, which
    has none of the three fields. *)
Record Body : Type := mkBody {
  body_date : jsval;
  body_title : jsval;
  body_description : jsval
}.

(** GET /events: [date] is [req.query.date], given once or not at all. *)
Definition get_events (date : option string) (env : Env) (c : Collection)
    : Response * Collection :=
  let query := match date with
               | Some d => if truthy (VStr d) then Some d else None
               | None => None
               end in
  match find_sort_toArray env c query with
  | Some events => (mkResponse 200 (JEvents events), c)
  | None => (mkResponse 500 (JError "Failed to fetch events"), c)
  end.

(** POST /events: [req_body] is [req.body], [None] when it is
    [undefined] (a request without a JSON body, where the framework
    leaves it so); reading the fields of [undefined] throws, inside the
    [try]. *)
Definition post_events (req_body : option Body) (env : Env) (c : Collection)
    : Response * Collection :=
  match req_body with
  | None => (mkResponse 500 (JError "Failed to add event"), c)
  | Some b =>
      if negb (truthy (body_date b)) || negb (truthy (body_title b)) then
        (mkResponse 400 (JError "date and title are required"), c)
      else
        match insertOne env c (body_date b) (body_title b)
                        (or_else (body_description b) (VStr EmptyString))
                        (now env) with
        | Some (c', doc) => (mkResponse 201 (JEvent doc), c')
        | None => (mkResponse 500 (JError "Failed to add event"), c)
        end
  end.

(** DELETE /events/:id: [id] is [req.params.id]. *)
Definition delete_event (id : string) (env : Env) (c : Collection)
    : Response * Collection :=
  match new_ObjectId id with
  | None => (mkResponse 500 (JError "Failed to delete event"), c)
  | Some oid =>
      match deleteOne env c oid with
      | None => (mkResponse 500 (JError "Failed to delete event"), c)
      | Some (c', deletedCount) =>
          if deletedCount =? 0
          then (mkResponse 404 (JError "Event not found"), c')
          else (mkResponse 200 (JMessage "Event deleted"), c')
      end
  end.

Inductive Request : Type :=
| GET (date : option string)
| POST (req_body : option Body)
| DELETE (id : string).

Definition handle (r : Request) (env : Env) (c : Collection)
    : Response * Collection :=
  match r with
  | GET date => get_events date env c
  | POST b => post_events b env c
  | DELETE id => delete_event id env c
  end.

(** The collections the server can hold: empty at first, then changed by
    requests only. *)
Inductive reachable : Collection → Prop :=
| reachable_empty : reachable []
| reachable_step r env c :
    reachable c → reachable (handle r env c).2.

End Server.

(** ** The calendar the spec speaks of

    The spec describes the grid counts in words: the weekday of the first
    day of the month and the number of days in the month.  These
    definitions say what the words mean, without the Date machinery: a
    month has its usual length, a year is the sum of its months, and
    weekdays go round every seven days from Thursday 1 January 1970. *)

Module SpecCalendar.

Definition is_leap_year (y : Z) : bool :=
  ((y mod 4 =? 0) && negb (y mod 100 =? 0)) || (y mod 400 =? 0).

Definition year_length (y : Z) : Z := if is_leap_year y then 366 else 365.

Definition month_length (y m : Z) : Z :=
  match m with
  | 0 | 2 | 4 | 6 | 7 | 9 | 11 => 31
  | 3 | 5 | 8 | 10 => 30
  | 1 => if is_leap_year y then 29 else 28
  | _ => 0
  end.

(** The days of the [n] years from year [from] on. *)
Fixpoint days_of_years (from : Z) (n : nat) : Z :=
  match n with
  | O => 0
  | S n' => year_length from + days_of_years (from + 1) n'
  end.

(** The days of the first [n] months of year [y]. *)
Fixpoint days_of_months (y : Z) (n : nat) : Z :=
  match n with
  | O => 0
  | S n' => days_of_months y n' + month_length y (Z.of_nat n')
  end.

(** Days from 1 January 1970 to the first of month [m] of year [y];
    negative before 1970. *)
Definition days_since_epoch (y m : Z) : Z :=
  (if 1970 <=? y then days_of_years 1970 (Z.to_nat (y - 1970))
   else - days_of_years y (Z.to_nat (1970 - y)))
  + days_of_months y (Z.to_nat m).

(** Weekday of the first of the month, 0 = Sunday. *)
Definition weekday_of_first (y m : Z) : Z := (4 + days_since_epoch y m) mod 7.



End SpecCalendar.

(** ** Hosts and a page for the examples *)

Definition month_names : list string :=
  [ "January"; "February"; "March"; "April"; "May"; "June"; "July";
    "August"; "September"; "October"; "November"; "December" ].

(** The en-US text of the month and year of a local time, for a year of
    the common era: "November 2025". *)
Definition month_year (localTime : Z) : string :=
  default EmptyString
    (month_names !! Z.to_nat (JsDate.MonthFromTime localTime))
  +:+ " " +:+ pretty (JsDate.YearFromTime localTime).

(** A host whose local time is UTC. *)
Definition utc : JsDate.Host :=
  JsDate.mkHost (λ _ _, 0) (λ _ _, conj eq_refl eq_refl) month_year.

(** A host in a zone that crossed the date line: ten hours behind UTC
    until the end of the local day before the day number [skipped],
    fourteen hours ahead of it from then on.  The clocks went from the
    end of one day to the beginning of the day after the next, at 10:00
    UTC of the day [skipped], and the local day [skipped] did not take
    place. *)
Definition crossing_instant (skipped : Z) : Z :=
  JsDate.MakeDate skipped 36000000.

Definition before_crossing (skipped t : Z) (isUTC : bool) : bool :=
  if isUTC then t <? crossing_instant skipped
  else t <? crossing_instant skipped + 50400000.

Definition crossing_offset (skipped t : Z) (isUTC : bool) : Z :=
  if before_crossing skipped t isUTC then -36000000 else 50400000.

Definition date_line_host (skipped : Z) : JsDate.Host :=
  JsDate.mkHost
    (crossing_offset skipped)
    (λ t isUTC,
       match before_crossing skipped t isUTC as b
             return - JsDate.msPerDay < (if b then -36000000 else 50400000)
                    < JsDate.msPerDay
       with
       | true => conj eq_refl eq_refl
       | false => conj eq_refl eq_refl
       end)
    (λ t, month_year (t + crossing_offset skipped t true)).

(** The Line Islands (Pacific/Kiritimati), as the zone has been since
    October 1979, skipped 31 December 1994; Samoa (Pacific/Apia), on its
    summer time of 2011, skipped 30 December 2011. *)
Definition line_islands : JsDate.Host :=
  date_line_host (JsDate.MakeDay 1994 11 31).

Definition samoa : JsDate.Host :=
  date_line_host (JsDate.MakeDay 2011 11 30).

(** A page for the examples: empty inputs, the modal hidden by an inline
    style, an empty header, and a date field that keeps the string it is
    given. *)
Definition page_markup : Calendar.Markup :=
  Calendar.mkMarkup
    (Calendar.mkForm EmptyString EmptyString EmptyString EmptyString)
    "none" EmptyString (λ s, s).

(** That page, loaded on the UTC host on 24 November 2025 at 16:00, the
    three readings of the clock a millisecond apart, with the prompt
    opened on 30 November 2025 and nothing typed into the title. *)
Definition prompt_without_title : Calendar.State :=
  Calendar.run (host:=utc) [Calendar.OPEN_PROMPT "2025-11-30"]
    (Calendar.load (host:=utc) 1764000000000 1764000000001 1764000000002
                   page_markup).

Section Statements.
Context {host : JsDate.Host}.

(** ** Statements about the grid counts *)

(** The three counts are numbers, they add up to whole rows of seven, and
    the trailing count is less than a row. *)
Definition fills_whole_rows (year month : Z) : Prop :=
  ∃ leadingCount dim trailingCount,
    firstDayOfMonth year month = Some leadingCount
    ∧ daysInMonth year month = Some dim
    ∧ nextMonthDaysNeeded year month = Some trailingCount
    ∧ (7 | leadingCount + dim + trailingCount)
    ∧ trailingCount < 7.

(** The three counts are what the spec says of month [month] of year
    [specYear]: the weekday of its first day, its length, and the rest of
    the last row. *)
Definition counts_as_specified (specYear year month : Z) : Prop :=
  let leadingCount := SpecCalendar.weekday_of_first specYear month in
  let dim := SpecCalendar.month_length specYear month in
  firstDayOfMonth year month = Some leadingCount
  ∧ daysInMonth year month = Some dim
  ∧ nextMonthDaysNeeded year month = Some ((42 - (leadingCount + dim)) mod 7).

(** ** Statements about the page *)

(** Submitting a form with an empty date or title changes nothing:
    nothing is added to the event list, the inputs keep their values and
    the modal stays as it is. *)
Definition rejects_incomplete_form (st : Calendar.State) : Prop :=
  Calendar.event_date (Calendar.form st) = EmptyString
  ∨ Calendar.event_title (Calendar.form st) = EmptyString →
  let st' := Calendar.step Calendar.SUBMIT st in
  Calendar.staticEvents st' = Calendar.staticEvents st
  ∧ Calendar.form st' = Calendar.form st
  ∧ Calendar.modal_display st' = Calendar.modal_display st.

End Statements.

(** An event with a date and a title. *)
Definition has_date_and_title (e : Calendar.Event) : Prop :=
  Calendar.date e ≠ EmptyString ∧ Calendar.title e ≠ EmptyString.

(** What a handler does not touch when it only moves the view. *)
Definition same_outside_view (st st' : Calendar.State) : Prop :=
  Calendar.staticEvents st' = Calendar.staticEvents st
  ∧ Calendar.today st' = Calendar.today st
  ∧ Calendar.modal_display st' = Calendar.modal_display st
  ∧ Calendar.form st' = Calendar.form st
  ∧ Calendar.markup st' = Calendar.markup st.

(** ** Statements about the server *)

(** A field that is not there, is null, or is the empty string. *)
Definition absent_or_empty (v : Server.jsval) : Prop :=
  v = Server.VUndefined ∨ v = Server.VNull ∨ v = Server.VStr EmptyString.

(** The date and the title of a request: absent when the request has no
    body. *)
Definition req_date (req_body : option Server.Body) : Server.jsval :=
  match req_body with
  | Some b => Server.body_date b
  | None => Server.VUndefined
  end.

Definition req_title (req_body : option Server.Body) : Server.jsval :=
  match req_body with
  | Some b => Server.body_title b
  | None => Server.VUndefined
  end.

(** POST answers 400 exactly when the date or the title is absent or
    empty. *)
Definition rejects_exactly_absent_or_empty
    (req_body : option Server.Body) (env : Server.Env)
    (c : Server.Collection) : Prop :=
  Server.status (Server.post_events req_body env c).1 = 400
  ↔ absent_or_empty (req_date req_body) ∨ absent_or_empty (req_title req_body).

(** The identifier is that of a stored event. *)
Definition resolves (id : string) (c : Server.Collection) : Prop :=
  ∃ oid, Server.new_ObjectId id = Some oid ∧ oid ∈ Server.ids c.

(** DELETE answers 404 for an identifier that resolves to no stored event,
    and keeps the number of events. *)
Definition reports_not_found
    (id : string) (env : Server.Env) (c : Server.Collection) : Prop :=
  ¬ resolves id c →
  (Server.delete_event id env c).1
  = Server.mkResponse 404 (Server.JError "Event not found")
  ∧ length (Server.delete_event id env c).2 = length c.

(** GET with a date answers 200 with the events of exactly that date:
    those whose date is that string. *)
Definition restricts_to_date
    (d : string) (env : Server.Env) (c : Server.Collection) : Prop :=
  ∃ events,
    (Server.get_events (Some d) env c).1
    = Server.mkResponse 200 (Server.JEvents events)
    ∧ events ≡ₚ filter (λ doc, Server.is_string d (Server.date doc) = true) c.

(** A stored event has a description field. *)
Definition has_description (doc : Server.Doc) : Prop :=
  Server.description doc ≠ Server.VUndefined.

(** What the handlers keep true of the collection: identifiers are
    unique, and every event has a truthy date and title and a
    description. *)
Definition well_formed (c : Server.Collection) : Prop :=
  NoDup (Server.ids c)
  ∧ Forall (λ doc, Server.truthy (Server.date doc) = true
                   ∧ Server.truthy (Server.title doc) = true
                   ∧ has_description doc) c.

(** A request environment with the store up, and a collection holding the
    one event that the spec creates in its examples. *)
Definition env_up : Server.Env := Server.mkEnv 1764000000000 255%N true.

Definition standup : Server.Doc :=
  Server.mkDoc 255%N (Server.VStr "2025-12-01") (Server.VStr "Standup")
               (Server.VStr EmptyString) 1764000000000.

(** The body [{"date": 0, "title": "Standup"}], and the body of the
    spec's example, which has no description. *)
Definition body_with_zero_date : Server.Body :=
  Server.mkBody (Server.VNum 0) (Server.VStr "Standup") Server.VUndefined.

Definition standup_body : Server.Body :=
  Server.mkBody (Server.VStr "2025-12-01") (Server.VStr "Standup")
                Server.VUndefined.

(** An event stored from the body
    [{"date": ["2025-12-01", "2025-12-02"], "title": "Offsite"}]. *)
Definition offsite : Server.Doc :=
  Server.mkDoc 254%N
    (Server.VArr [Server.VStr "2025-12-01"; Server.VStr "2025-12-02"])
    (Server.VStr "Offsite") (Server.VStr EmptyString) 1764000000000.

(** What makes comparisons an order, on three values: [a], [b], [d] and
    [e] are the comparisons of the first with the second, of the second
    with the third, of the first with the third, and of the second with
    the first. *)
Definition ordered (a b d e : comparison) : Prop :=
  e = CompOpp a
  ∧ (a = Eq → d = b)
  ∧ (a = Lt → b = Lt → d = Lt)
  ∧ (a = Lt → b = Eq → d = Lt).

(** ** Statements of further properties *)

(** The action is a submission of the form. *)
Definition is_submit (a : Calendar.Action) : bool :=
  match a with Calendar.SUBMIT => true | _ => false end.

(** A stored description is the empty string or a truthy value. *)
Definition description_settled (doc : Server.Doc) : Prop :=
  Server.description doc = Server.VStr EmptyString
  ∨ Server.truthy (Server.description doc) = true.

(** A request environment with the store down. *)
Definition env_down : Server.Env := Server.mkEnv 1764000000000 255%N false.

(** * Properties *)

(** ** Date arithmetic *)

Section DateArithmetic.
Import JsDate.

Lemma DayFromYear_epoch : DayFromYear 1970 = 0.
Proof. reflexivity. Qed.

Lemma DaysInYear_cases y : DaysInYear y = 365 ∨ DaysInYear y = 366.
Proof. unfold DaysInYear. repeat case_match; auto. Qed.

Lemma DayFromYear_succ y : DayFromYear (y + 1) = DayFromYear y + DaysInYear y.
Proof.
  unfold DayFromYear, DaysInYear.
  repeat match goal with
         | |- context [?a =? ?b] => destruct (Z.eqb_spec a b)
         end; cbn [negb];
    Z.to_euclidean_division_equations; lia.
Qed.

Lemma DayFromYear_lt y y' : y < y' → DayFromYear y < DayFromYear y'.
Proof. unfold DayFromYear. intros. Z.to_euclidean_division_equations. lia. Qed.

Lemma DayFromYear_le y y' : y <= y' → DayFromYear y <= DayFromYear y'.
Proof.
  intros H. destruct (decide (y = y')) as [->|]; [lia|].
  apply Z.lt_le_incl, DayFromYear_lt. lia.
Qed.

(** [YearFromDay d] is a year that begins on or before day [d] and whose
    successor begins after it. *)
Lemma YearFromDay_spec d :
  DayFromYear (YearFromDay d) <= d < DayFromYear (YearFromDay d + 1).
Proof.
  unfold YearFromDay. cbv zeta.
  destruct (Z.leb_spec (DayFromYear (1970 + d * 400 / 146097 + 1)) d);
    [|destruct (Z.leb_spec (DayFromYear (1970 + d * 400 / 146097)) d)];
    unfold DayFromYear in *; Z.to_euclidean_division_equations; lia.
Qed.

(** It is the largest such year, which is how ECMAScript defines
    YearFromTime. *)
Lemma YearFromDay_largest d y :
  DayFromYear y <= d ↔ y <= YearFromDay d.
Proof.
  pose proof (YearFromDay_spec d) as [Hlo Hhi]. split; intros H.
  - destruct (Z.le_gt_cases y (YearFromDay d)) as [|Hgt]; [done|].
    assert (DayFromYear (YearFromDay d + 1) <= DayFromYear y)
      by (apply DayFromYear_le; lia).
    lia.
  - pose proof (DayFromYear_le _ _ H). lia.
Qed.

Lemma YearFromDay_unique d y :
  DayFromYear y <= d < DayFromYear (y + 1) → YearFromDay d = y.
Proof.
  intros [Hlo Hhi].
  apply YearFromDay_largest in Hlo.
  destruct (Z.le_gt_cases (YearFromDay d) y) as [|Hgt]; [lia|].
  assert (y + 1 <= YearFromDay d) as Hle by lia.
  apply YearFromDay_largest in Hle. lia.
Qed.

Lemma YearFromDay_in_year y k :
  0 <= k < DaysInYear y → YearFromDay (DayFromYear y + k) = y.
Proof.
  intros Hk. apply YearFromDay_unique. rewrite DayFromYear_succ. lia.
Qed.

Lemma Day_MakeDate d : Day (MakeDate d 0) = d.
Proof.
  unfold Day, MakeDate, msPerDay. rewrite Z.add_0_r.
  apply Z.div_mul. lia.
Qed.

Lemma WeekDay_range t : 0 <= WeekDay t <= 6.
Proof. unfold WeekDay. pose proof (Z.mod_pos_bound (Day t + 4) 7). lia. Qed.

Lemma MonthFromTime_range t : 0 <= MonthFromTime t <= 11.
Proof. unfold MonthFromTime. cbv zeta. repeat case_match; lia. Qed.

(** Case analysis on a month number known to lie in 0..12. *)
Ltac month_cases m :=
  let H := fresh "Hc" in
  assert (H : m = 0 ∨ m = 1 ∨ m = 2 ∨ m = 3 ∨ m = 4 ∨ m = 5 ∨ m = 6
              ∨ m = 7 ∨ m = 8 ∨ m = 9 ∨ m = 10 ∨ m = 11 ∨ m = 12) by lia;
  repeat (destruct H as [H | H]); subst m; try lia.

Lemma leap_agree y : (DaysInYear y =? 366) = SpecCalendar.is_leap_year y.
Proof.
  unfold DaysInYear, SpecCalendar.is_leap_year.
  destruct (y mod 4 =? 0) eqn:E4, (y mod 100 =? 0) eqn:E100,
    (y mod 400 =? 0) eqn:E400; try reflexivity.
  (* divisible by 400 but not by 100 or not by 4: impossible *)
  all: exfalso; apply Z.eqb_eq in E400.
  all: repeat match goal with
              | H : (_ =? _) = false |- _ => apply Z.eqb_neq in H
              end.
  all: Z.to_euclidean_division_equations; lia.
Qed.

Lemma DaysInYear_year_length y : DaysInYear y = SpecCalendar.year_length y.
Proof.
  unfold SpecCalendar.year_length. rewrite <- leap_agree.
  destruct (DaysInYear_cases y) as [-> | ->]; reflexivity.
Qed.

Lemma DaysBeforeMonth_months y m :
  0 <= m <= 12 →
  SpecCalendar.days_of_months y (Z.to_nat m)
  = if m =? 12 then DaysInYear y else DaysBeforeMonth y m.
Proof.
  intros Hm.
  unfold DaysBeforeMonth. rewrite leap_agree, DaysInYear_year_length.
  unfold SpecCalendar.year_length.
  month_cases m;
    match goal with
    | |- context [Z.to_nat ?k] =>
        let n := eval vm_compute in (Z.to_nat k) in change (Z.to_nat k) with n
    end;
    cbn; unfold SpecCalendar.month_length;
    destruct (SpecCalendar.is_leap_year y); reflexivity.
Qed.

Lemma DaysBeforeMonth_next y m :
  0 <= m <= 10 →
  DaysBeforeMonth y (m + 1) = DaysBeforeMonth y m + SpecCalendar.month_length y m.
Proof.
  intros Hm.
  pose proof (DaysBeforeMonth_months y (m + 1)) as H1.
  pose proof (DaysBeforeMonth_months y m) as H0.
  destruct (Z.eqb_spec (m + 1) 12), (Z.eqb_spec m 12); try lia.
  rewrite <- H1, <- H0 by lia.
  replace (Z.to_nat (m + 1)) with (S (Z.to_nat m)) by lia.
  cbn [SpecCalendar.days_of_months]. by rewrite Z2Nat.id by lia.
Qed.

Lemma DaysBeforeMonth_december y :
  DaysInYear y = DaysBeforeMonth y 11 + SpecCalendar.month_length y 11.
Proof.
  pose proof (DaysBeforeMonth_months y 12 ltac:(lia)) as H1.
  pose proof (DaysBeforeMonth_months y 11 ltac:(lia)) as H0.
  change (12 =? 12) with true in H1. change (11 =? 12) with false in H0.
  cbv iota in H1, H0. rewrite <- H1, <- H0.
  change (Z.to_nat 12) with (S (Z.to_nat 11)).
  cbn [SpecCalendar.days_of_months]. reflexivity.
Qed.

Lemma month_length_range y m :
  0 <= m <= 11 → 28 <= SpecCalendar.month_length y m <= 31.
Proof.
  intros Hm.
  month_cases m; unfold SpecCalendar.month_length;
    try destruct (SpecCalendar.is_leap_year y); lia.
Qed.

Lemma DaysBeforeMonth_range y m :
  0 <= m <= 11 → 0 <= DaysBeforeMonth y m <= 335.
Proof.
  intros Hm. unfold DaysBeforeMonth. cbv zeta.
  destruct (DaysInYear y =? 366); repeat case_match; lia.
Qed.

(** MakeDay on the first of a month and on day 0 of the month after. *)
Lemma MakeDay_first y m :
  0 <= m <= 11 → MakeDay y m 1 = DayFromYear y + DaysBeforeMonth y m.
Proof.
  intros Hm. unfold MakeDay. cbv zeta.
  rewrite Z.div_small, Z.mod_small by lia.
  rewrite Z.add_0_r. lia.
Qed.

Lemma MakeDay_last y m :
  0 <= m <= 11 →
  MakeDay y (m + 1) 0
  = DayFromYear y + DaysBeforeMonth y m + SpecCalendar.month_length y m - 1.
Proof.
  intros Hm. destruct (decide (m = 11)) as [-> | Hne].
  - unfold MakeDay. change (11 + 1) with 12.
    change (12 / 12) with 1. change (12 mod 12) with 0. cbv zeta.
    change (DaysBeforeMonth (y + 1) 0) with 0.
    rewrite DayFromYear_succ, DaysBeforeMonth_december. lia.
  - unfold MakeDay. cbv zeta.
    rewrite Z.div_small, Z.mod_small by lia.
    rewrite !Z.add_0_r, DaysBeforeMonth_next by lia. lia.
Qed.

(** The day [k] days into month [m] of year [y] reads back as year [y],
    month [m], date [k + 1]: MakeDay finds the time value that ECMAScript
    asks for. *)
Lemma read_back y m k :
  0 <= m <= 11 → 0 <= k < SpecCalendar.month_length y m →
  let t := MakeDate (DayFromYear y + DaysBeforeMonth y m + k) 0 in
  YearFromTime t = y ∧ MonthFromTime t = m ∧ DateFromTime t = k + 1.
Proof.
  intros Hm Hk t.
  assert (Hin : 0 <= DaysBeforeMonth y m + k < DaysInYear y).
  { pose proof (DaysBeforeMonth_range y m Hm).
    destruct (decide (m = 11)) as [-> | Hne].
    - rewrite DaysBeforeMonth_december. lia.
    - pose proof (DaysBeforeMonth_next y m ltac:(lia)).
      assert (DaysBeforeMonth y (m + 1) <= 334 + (DaysInYear y - 365)).
      { unfold DaysBeforeMonth. cbv zeta.
        destruct (DaysInYear_cases y) as [-> | ->]; cbn;
          repeat case_match; lia. }
      lia. }
  assert (Hy : YearFromTime t = y).
  { unfold YearFromTime, t. rewrite Day_MakeDate, <- Z.add_assoc.
    by apply YearFromDay_in_year. }
  split; [done|].
  assert (Hw : DayWithinYear t = DaysBeforeMonth y m + k).
  { unfold DayWithinYear. rewrite Hy. unfold t. rewrite Day_MakeDate. lia. }
  unfold DateFromTime, MonthFromTime, InLeapYear. cbv zeta.
  rewrite Hw, Hy. clear Hin Hy Hw t.
  revert Hk. unfold SpecCalendar.month_length, DaysBeforeMonth.
  rewrite <- leap_agree. cbv zeta.
  month_cases m; destruct (DaysInYear y =? 366); cbn; intros Hk;
    repeat match goal with
           | |- context [?a <? ?b] => destruct (Z.ltb_spec a b); try lia
           end; split; lia.
Qed.

Lemma DayFromYear_in_range y :
  year_in_Date_range y → -99999744 <= DayFromYear y <= 99999379.
Proof.
  unfold year_in_Date_range, DayFromYear. intros.
  Z.to_euclidean_division_equations. lia.
Qed.

Lemma two_digit_rule_range year :
  year_in_Date_range year → year_in_Date_range (two_digit_rule year).
Proof.
  unfold year_in_Date_range, two_digit_rule. intros.
  destruct (Z.leb_spec 0 year), (Z.leb_spec year 99); cbn; lia.
Qed.

Lemma two_digit_rule_outside year :
  ¬ (0 <= year <= 99) → two_digit_rule year = year.
Proof.
  intros H. unfold two_digit_rule.
  destruct (Z.leb_spec 0 year), (Z.leb_spec year 99); cbn; lia.
Qed.

(** The day of a month of a year of the Date range, the day before the
    month (day 0) and the days after it included, is well inside the
    hundred million days of Date. *)
Lemma MakeDay_in_range year m d :
  year_in_Date_range year → 0 <= m <= 12 → 0 <= d <= 31 →
  -99999999 <= MakeDay year m d <= 99999999.
Proof.
  intros Hy Hm Hd. unfold MakeDay. cbv zeta.
  destruct (decide (m = 12)) as [-> | Hne].
  - change (12 / 12) with 1. change (12 mod 12) with 0.
    change (DaysBeforeMonth (year + 1) 0) with 0.
    rewrite DayFromYear_succ.
    pose proof (DayFromYear_in_range year Hy).
    destruct (DaysInYear_cases year) as [-> | ->]; lia.
  - rewrite Z.div_small, Z.mod_small by lia. rewrite Z.add_0_r.
    pose proof (DayFromYear_in_range year Hy).
    pose proof (DaysBeforeMonth_range year m ltac:(lia)). lia.
Qed.

(** The getters read the day number only. *)
Lemma getters_of_Day t t' :
  Day t = Day t' →
  WeekDay t = WeekDay t' ∧ YearFromTime t = YearFromTime t'
  ∧ MonthFromTime t = MonthFromTime t' ∧ DateFromTime t = DateFromTime t'.
Proof.
  intros H.
  unfold WeekDay, DateFromTime, MonthFromTime, InLeapYear, DayWithinYear,
    YearFromTime.
  by rewrite H.
Qed.

Lemma Day_of_midnight_plus d delta :
  0 <= delta < msPerDay → Day (MakeDate d 0 + delta) = d.
Proof.
  intros H. unfold Day, MakeDate, msPerDay in *.
  Z.to_euclidean_division_equations. lia.
Qed.

(** The date of a time value is a day of its month. *)
Lemma DateFromTime_in_month t :
  1 <= DateFromTime t
  <= SpecCalendar.month_length (YearFromTime t) (MonthFromTime t).
Proof.
  pose proof (YearFromDay_spec (Day t)) as [Hlo Hhi].
  rewrite DayFromYear_succ in Hhi.
  unfold DateFromTime, MonthFromTime, InLeapYear, DayWithinYear, YearFromTime.
  cbv zeta.
  set (y := YearFromDay (Day t)) in *.
  set (w := Day t - DayFromYear y).
  assert (Hw : 0 <= w < DaysInYear y) by (unfold w; lia).
  clearbody w. clear Hlo Hhi.
  unfold SpecCalendar.month_length. rewrite <- leap_agree.
  destruct (DaysInYear_cases y) as [Hd | Hd]; rewrite Hd in *; cbn;
    repeat match goal with
           | |- context [?a <? ?b] => destruct (Z.ltb_spec a b); try lia
           end.
Qed.

Lemma DateFromTime_range t : 1 <= DateFromTime t <= 31.
Proof.
  pose proof (DateFromTime_in_month t) as H.
  pose proof (MonthFromTime_range t) as Hm.
  pose proof (month_length_range (YearFromTime t) _ Hm). lia.
Qed.

End DateArithmetic.

(** ** Local time *)

Section LocalTime.
Import JsDate.
Context {host : Host}.

Lemma UTC_near t : t - msPerDay < UTC t < t + msPerDay.
Proof. unfold UTC. pose proof (LocalTZA_bound t false). lia. Qed.

(** A local midnight within the hundred million days, less one, is a
    time value of the range of Date, wherever the zone is. *)
Lemma TimeClip_local d :
  -99999999 <= d <= 99999999 →
  TimeClip (UTC (MakeDate d 0)) = Some (UTC (MakeDate d 0)).
Proof.
  intros Hd. pose proof (UTC_near (MakeDate d 0)) as H.
  unfold TimeClip. unfold MakeDate, msPerDay in *.
  destruct (Z.leb_spec (Z.abs (UTC (d * 86400000 + 0))) 8640000000000000);
    [done|lia].
Qed.

(** And a local midnight further than a hundred million days and one
    from the epoch is not. *)
Lemma TimeClip_local_far d :
  100000001 <= Z.abs d → TimeClip (UTC (MakeDate d 0)) = None.
Proof.
  intros Hd. pose proof (UTC_near (MakeDate d 0)) as H.
  unfold TimeClip. unfold MakeDate, msPerDay in *.
  destruct (Z.leb_spec (Z.abs (UTC (d * 86400000 + 0))) 8640000000000000);
    [lia|done].
Qed.

Lemma new_Date_in_range year m d :
  year_in_Date_range year → 0 <= m <= 12 → 0 <= d <= 31 →
  let y := two_digit_rule year in
  new_Date year m d = Some (UTC (MakeDate (MakeDay y m d) 0)).
Proof.
  intros Hy Hm Hd y. unfold new_Date. cbv zeta. fold y.
  apply TimeClip_local, MakeDay_in_range; [|done..].
  by apply two_digit_rule_range.
Qed.

(** Where no day is skipped, the time value of a local midnight is a
    time of that same local day. *)
Lemma local_midnight_Day d :
  skips_no_day host → Day (LocalTime (UTC (MakeDate d 0))) = d.
Proof.
  intros Hskip. specialize (Hskip (MakeDate d 0)).
  replace (LocalTime (UTC (MakeDate d 0)))
    with (MakeDate d 0 + (LocalTime (UTC (MakeDate d 0)) - MakeDate d 0))
    by lia.
  by apply Day_of_midnight_plus.
Qed.

Lemma local_midnight_getters d :
  skips_no_day host →
  let t := LocalTime (UTC (MakeDate d 0)) in
  WeekDay t = WeekDay (MakeDate d 0)
  ∧ YearFromTime t = YearFromTime (MakeDate d 0)
  ∧ MonthFromTime t = MonthFromTime (MakeDate d 0)
  ∧ DateFromTime t = DateFromTime (MakeDate d 0).
Proof.
  intros Hskip t. apply getters_of_Day.
  unfold t. by rewrite local_midnight_Day, Day_MakeDate.
Qed.

End LocalTime.

(** UTC skips no day, and a zone that crossed the date line skips one. *)
Lemma utc_skips_no_day : JsDate.skips_no_day utc.
Proof.
  intros t. unfold JsDate.LocalTime, JsDate.UTC, JsDate.msPerDay. cbn. lia.
Qed.

Lemma line_islands_skips_a_day : ¬ JsDate.skips_no_day line_islands.
Proof.
  intros H.
  specialize (H (JsDate.MakeDate (JsDate.MakeDay 1994 11 31) 0)).
  vm_compute in H. destruct H as [_ H]. discriminate H.
Qed.

(** The model on dates that are known: the epoch is a Thursday, 2024 has
    a 29 February, and the range of Date ends on 13 September 275760 and
    begins on 20 April -271821, a hundred million days either side of the
    epoch.  In the Line Islands, the day after 30 December 1994 is
    1 January 1995. *)
Example Date_known_days :
  JsDate.getDay (host:=utc) (JsDate.new_Date (host:=utc) 1970 0 1) = Some 4
  ∧ JsDate.getDate (host:=utc) (JsDate.new_Date (host:=utc) 2024 2 0) = Some 29
  ∧ JsDate.getMonth (host:=utc) (JsDate.new_Date (host:=utc) 2024 2 0) = Some 1
  ∧ JsDate.getFullYear (host:=utc) (JsDate.new_Date (host:=utc) 2025 12 1)
    = Some 2026
  ∧ JsDate.getFullYear (host:=utc) (JsDate.new_Date (host:=utc) 99 0 1)
    = Some 1999.
Proof. by vm_compute. Qed.

Example Date_range_ends :
  JsDate.new_Date (host:=utc) 275760 8 13 = Some 8640000000000000
  ∧ JsDate.new_Date (host:=utc) 275760 8 14 = None
  ∧ JsDate.new_Date (host:=utc) (-271821) 3 20 = Some (-8640000000000000)
  ∧ JsDate.new_Date (host:=utc) (-271821) 3 19 = None.
Proof. by vm_compute. Qed.

Example Date_line_islands :
  JsDate.getDate (host:=line_islands)
    (JsDate.new_Date (host:=line_islands) 1994 11 30) = Some 30
  ∧ JsDate.getDate (host:=line_islands)
      (JsDate.new_Date (host:=line_islands) 1994 11 31) = Some 1
  ∧ JsDate.getMonth (host:=line_islands)
      (JsDate.new_Date (host:=line_islands) 1994 11 31) = Some 0
  ∧ JsDate.getFullYear (host:=line_islands)
      (JsDate.new_Date (host:=line_islands) 1994 11 31) = Some 1995
  ∧ JsDate.getDate (host:=line_islands)
      (JsDate.new_Date (host:=line_islands) 1995 0 1) = Some 1
  ∧ daysInMonth (host:=line_islands) 1994 11 = Some 1
  ∧ daysInPrevMonth (host:=line_islands) 1995 0 = Some 1.
Proof. by vm_compute. Qed.

(** In Samoa, December 2011 begins on a Thursday, so that the cell of
    day 30 is in column (4 + 29) mod 7 = 5, while the Date of day 30 is
    read as 31 December, a Saturday. *)
Example Date_samoa :
  firstDayOfMonth (host:=samoa) 2011 11 = Some 4
  ∧ daysInMonth (host:=samoa) 2011 11 = Some 31
  ∧ JsDate.getDay (host:=samoa) (JsDate.new_Date (host:=samoa) 2011 11 30)
    = Some 6
  ∧ JsDate.getDate (host:=samoa) (JsDate.new_Date (host:=samoa) 2011 11 30)
    = Some 31.
Proof. by vm_compute. Qed.

Example formatDate_pads :
  Calendar.formatDate 2025 10 (Some 5) = "2025-11-05"
  ∧ Calendar.formatDate 2025 0 (Some 31) = "2025-01-31".
Proof. by vm_compute. Qed.

Example header_of_november :
  Calendar.currentMonthYearDisplay prompt_without_title = "November 2025".
Proof. by vm_compute. Qed.

(** ** The grid counts *)

Section GridCounts.
Import JsDate.
Context {host : Host}.

Lemma days_of_years_DayFromYear n from :
  SpecCalendar.days_of_years from n
  = DayFromYear (from + Z.of_nat n) - DayFromYear from.
Proof.
  revert from. induction n as [|n IH]; intros from.
  - cbn. rewrite Z.add_0_r. lia.
  - cbn [SpecCalendar.days_of_years]. rewrite IH.
    rewrite <- DaysInYear_year_length.
    replace (from + 1 + Z.of_nat n) with (from + Z.of_nat (S n)) by lia.
    rewrite (DayFromYear_succ from). lia.
Qed.

(** The spec's day count to the first of a month is MakeDay's. *)
Lemma days_since_epoch_MakeDay y m :
  0 <= m <= 11 →
  SpecCalendar.days_since_epoch y m = DayFromYear y + DaysBeforeMonth y m.
Proof.
  intros Hm. unfold SpecCalendar.days_since_epoch.
  pose proof (DaysBeforeMonth_months y m ltac:(lia)) as ->.
  destruct (Z.eqb_spec m 12); [lia|].
  rewrite !days_of_years_DayFromYear, DayFromYear_epoch.
  destruct (Z.leb_spec 1970 y).
  - rewrite Z2Nat.id by lia. f_equal. replace (1970 + (y - 1970)) with y by lia. lia.
  - rewrite Z2Nat.id by lia.
    replace (y + (1970 - y)) with 1970 by lia. rewrite DayFromYear_epoch. lia.
Qed.

(** Whatever the zone, on a year of the Date range the counts are
    numbers: a weekday, a day of a month, and what is left of the last
    row. *)
Lemma grid_counts_numbers year month :
  0 <= month <= 11 → year_in_Date_range year →
  ∃ first dim,
    firstDayOfMonth year month = Some first
    ∧ daysInMonth year month = Some dim
    ∧ nextMonthDaysNeeded year month = Some ((42 - (first + dim)) mod 7)
    ∧ 0 <= first <= 6 ∧ 1 <= dim <= 31.
Proof.
  intros Hm Hy.
  unfold nextMonthDaysNeeded, totalCells, firstDayOfMonth, daysInMonth.
  rewrite (new_Date_in_range year month 1) by (done || lia).
  rewrite (new_Date_in_range year (month + 1) 0) by (done || lia).
  cbv zeta. cbn [getDay getDate fmap option_fmap option_map].
  set (first := WeekDay _). set (dim := DateFromTime _).
  assert (0 <= first <= 6) by apply WeekDay_range.
  assert (1 <= dim <= 31) by apply DateFromTime_range.
  exists first, dim. split; [done|]. split; [done|]. split; [|done].
  cbn. f_equal. apply Z.rem_mod_nonneg; lia.
Qed.

(** Where no day is skipped, the counts are those of the month of the
    year the constructor reads. *)
Lemma grid_counts_two_digit year month :
  skips_no_day host → 0 <= month <= 11 → year_in_Date_range year →
  counts_as_specified (two_digit_rule year) year month.
Proof.
  intros Hskip Hm Hy. unfold counts_as_specified. cbv zeta.
  set (y := two_digit_rule year).
  pose proof (month_length_range y month Hm) as Hml.
  assert (Hfirst : firstDayOfMonth year month
                   = Some (SpecCalendar.weekday_of_first y month)).
  { unfold firstDayOfMonth. rewrite new_Date_in_range by (done || lia).
    cbv zeta. fold y. cbn [getDay fmap option_fmap option_map]. f_equal.
    destruct (local_midnight_getters (MakeDay y month 1) Hskip) as (-> & _).
    unfold WeekDay, SpecCalendar.weekday_of_first.
    rewrite Day_MakeDate, MakeDay_first, days_since_epoch_MakeDay by done.
    f_equal. lia. }
  assert (Hdim : daysInMonth year month
                 = Some (SpecCalendar.month_length y month)).
  { unfold daysInMonth. rewrite new_Date_in_range by (done || lia).
    cbv zeta. fold y. cbn [getDate fmap option_fmap option_map]. f_equal.
    destruct (local_midnight_getters (MakeDay y (month + 1) 0) Hskip)
      as (_ & _ & _ & ->).
    rewrite MakeDay_last by done.
    replace (DayFromYear y + DaysBeforeMonth y month
             + SpecCalendar.month_length y month - 1)
      with (DayFromYear y + DaysBeforeMonth y month
            + (SpecCalendar.month_length y month - 1)) by lia.
    destruct (read_back y month (SpecCalendar.month_length y month - 1))
      as (_ & _ & ->); lia. }
  split; [done|]. split; [done|].
  unfold nextMonthDaysNeeded, totalCells. rewrite Hfirst, Hdim.
  cbn. f_equal. apply Z.rem_mod_nonneg; [|lia].
  unfold SpecCalendar.weekday_of_first.
  pose proof (Z.mod_pos_bound (4 + SpecCalendar.days_since_epoch y month) 7).
  lia.
Qed.

(** Past the range of Date the counts are NaN, whatever the zone. *)
Lemma grid_counts_nan year month :
  0 <= month <= 11 → year < -271821 ∨ 275760 < year →
  firstDayOfMonth year month = None
  ∧ daysInMonth year month = None
  ∧ nextMonthDaysNeeded year month = None.
Proof.
  intros Hm Hy.
  assert (Hrule : two_digit_rule year = year)
    by (apply two_digit_rule_outside; lia).
  pose proof (DaysBeforeMonth_range year month Hm) as Hb.
  pose proof (month_length_range year month Hm) as Hml.
  assert (Hfar : DayFromYear year <= -100000474
                 ∨ 100000109 < DayFromYear year).
  { unfold DayFromYear. Z.to_euclidean_division_equations. lia. }
  assert (Hfirst : firstDayOfMonth year month = None).
  { unfold firstDayOfMonth, new_Date. cbv zeta.
    rewrite Hrule, MakeDay_first, TimeClip_local_far by (done || lia). done. }
  assert (Hdim : daysInMonth year month = None).
  { unfold daysInMonth, new_Date. cbv zeta.
    rewrite Hrule, MakeDay_last, TimeClip_local_far by (done || lia). done. }
  split; [done|]. split; [done|].
  unfold nextMonthDaysNeeded, totalCells. by rewrite Hfirst.
Qed.

(** C1 (amended to the years whose months all lie in the range of Date):
    for every month 0..11 of every year from -271820 to 275759, in
    whatever time zone the host is, the three counts that
    [renderCalendar] computes, the weekday index of the first of the
    month, the days in the month and the trailing count, are numbers
    whose sum is a multiple of 7, and the trailing count is below 7. *)
Theorem grid_fills_whole_rows year month :
  0 <= month <= 11 → JsDate.year_in_Date_range year →
  fills_whole_rows year month.
Proof.
  intros Hm Hy.
  destruct (grid_counts_numbers year month Hm Hy)
    as (l & d & Hl & Hd & Ht & ? & ?).
  exists l, d, ((42 - (l + d)) mod 7).
  split; [exact Hl|]. split; [exact Hd|]. split; [exact Ht|].
  pose proof (Z.mod_pos_bound (42 - (l + d)) 7 ltac:(lia)).
  split; [|lia].
  apply Z.mod_divide; [lia|].
  Z.to_euclidean_division_equations. lia.
Qed.


End GridCounts.

Lemma grid_fills_whole_rows_witness :
  0 <= 10 <= 11 ∧ JsDate.year_in_Date_range 2025
  ∧ fills_whole_rows (host:=line_islands) 2025 10.
Proof.
  assert (H1 : 0 <= 10 <= 11) by lia.
  assert (H2 : JsDate.year_in_Date_range 2025)
    by (unfold JsDate.year_in_Date_range; lia).
  exact (conj H1 (conj H2 (grid_fills_whole_rows (host:=line_islands)
                             2025 10 H1 H2))).
Defined.

(** C1 as stated, for every year, fails: in January 275761 the first of
    the month is past the last day a Date can hold, all three counts are
    NaN, and NaN is neither a multiple of 7 nor below 7.  (It is so in
    every time zone; the host here is on UTC.) *)
Lemma grid_counts_nan_past_Date_range :
  0 <= 0 <= 11 ∧ ¬ fills_whole_rows (host:=utc) 275761 0.
Proof.
  split; [lia|]. intros (l & d & t & Hl & _).
  vm_compute in Hl. discriminate Hl.
Qed.



(** ** The rendered grid *)

(** Reads the fields of a state that the setters built. *)
Ltac state_fields :=
  unfold Calendar.leadingCells, Calendar.activeCells, Calendar.trailingCells,
    Calendar.headerText, Calendar.isToday, Calendar.set_grid,
    Calendar.set_header, Calendar.set_view, Calendar.set_modal,
    Calendar.set_form, Calendar.set_events;
  cbn [Calendar.staticEvents Calendar.currentYear Calendar.currentMonth
       Calendar.today Calendar.calendarGrid Calendar.currentMonthYearDisplay
       Calendar.modal_display Calendar.form Calendar.markup].

Section Rendering.
Import Calendar.
Context {host : JsDate.Host}.

Lemma set_grid_set_grid g g' st : set_grid g' (set_grid g st) = set_grid g' st.
Proof. reflexivity. Qed.

(** A loop that appends one cell per value appends the cells of all the
    values, as long as the cell does not depend on the grid so far. *)
Lemma foldl_append_cells {A} (mk : State → A → Cell) (l : list A) st :
  (∀ g st x, mk (set_grid g st) x = mk st x) →
  foldl (λ st x, set_grid (calendarGrid st ++ [mk st x]) st) st l
  = set_grid (calendarGrid st ++ (mk st <$> l)) st.
Proof.
  intros Hmk. revert st. induction l as [|x l IH]; intros st.
  - cbn. rewrite app_nil_r. by destruct st.
  - cbn [foldl fmap list_fmap]. rewrite IH, set_grid_set_grid.
    cbn [calendarGrid set_grid]. rewrite <- app_assoc. cbn [app].
    f_equal. f_equal. f_equal. apply list_fmap_ext. intros _ y _. apply Hmk.
Qed.

(** The page after a render: the header of the month, and a grid made
    of the leading cells, the cells of the month and the trailing cells,
    with nothing of the grid before. *)
Lemma renderCalendar_grid st :
  renderCalendar st
  = set_grid (leadingCells st ++ activeCells st ++ trailingCells st)
             (set_header (headerText st) st).
Proof.
  unfold renderCalendar, createDateCell. cbv zeta.
  rewrite (foldl_append_cells
             (λ st i, dateCell (currentYear st) (currentMonth st)
                        (JsNum.add (JsNum.add
                           (JsNum.sub
                              (daysInPrevMonth (currentYear _) (currentMonth _))
                              (firstDayOfMonth (currentYear _) (currentMonth _)))
                           (Some i)) (Some 1)) true true false []))
    by done.
  rewrite (foldl_append_cells
             (λ st' day, dateCell (currentYear st') (currentMonth st') (Some day)
                          false false (isToday st' day)
                          (eventsOn (formatDate (currentYear st) (currentMonth st)
                                                (Some day))
                                    (staticEvents st'))))
    by done.
  rewrite (foldl_append_cells
             (λ st' i, dateCell (currentYear st') (currentMonth st') (Some i)
                         true false false []))
    by done.
  rewrite !set_grid_set_grid. cbn [calendarGrid set_grid set_header app].
  state_fields. by rewrite <- app_assoc.
Qed.

(** What a render keeps. *)
Lemma renderCalendar_fields st :
  staticEvents (renderCalendar st) = staticEvents st
  ∧ currentYear (renderCalendar st) = currentYear st
  ∧ currentMonth (renderCalendar st) = currentMonth st
  ∧ today (renderCalendar st) = today st
  ∧ modal_display (renderCalendar st) = modal_display st
  ∧ form (renderCalendar st) = form st
  ∧ markup (renderCalendar st) = markup st.
Proof. rewrite renderCalendar_grid. by repeat split. Qed.

(** The cells and the header of a render depend on the view, the event
    list and today only. *)
Lemma cells_same st st' :
  staticEvents st' = staticEvents st → currentYear st' = currentYear st →
  currentMonth st' = currentMonth st → today st' = today st →
  leadingCells st' = leadingCells st ∧ activeCells st' = activeCells st
  ∧ trailingCells st' = trailingCells st ∧ headerText st' = headerText st.
Proof.
  intros He Hy Hm Ht.
  unfold leadingCells, activeCells, trailingCells, headerText, isToday.
  by rewrite He, Hy, Hm, Ht.
Qed.

Lemma leadingCells_view st st' :
  currentYear st' = currentYear st → currentMonth st' = currentMonth st →
  leadingCells st' = leadingCells st.
Proof. intros Hy Hm. unfold leadingCells. by rewrite Hy, Hm. Qed.

Lemma renderCalendar_calendarGrid st :
  calendarGrid (renderCalendar st)
  = leadingCells st ++ activeCells st ++ trailingCells st.
Proof. rewrite renderCalendar_grid. reflexivity. Qed.

(** The two ranges are the values for which the loop condition holds. *)
Lemma range_lt_spec from bound i :
  i ∈ range_lt from bound ↔ from <= i ∧ JsNum.lt (Some i) bound = true.
Proof.
  destruct bound as [b|]; cbn.
  - rewrite elem_of_seqZ, Z.ltb_lt. lia.
  - rewrite elem_of_nil. intuition discriminate.
Qed.

Lemma range_le_spec from bound i :
  i ∈ range_le from bound ↔ from <= i ∧ JsNum.le (Some i) bound = true.
Proof.
  destruct bound as [b|]; cbn.
  - rewrite elem_of_seqZ, Z.leb_le. lia.
  - rewrite elem_of_nil. intuition discriminate.
Qed.

Lemma grid_length st first dim trailing :
  firstDayOfMonth (currentYear st) (currentMonth st) = Some first →
  daysInMonth (currentYear st) (currentMonth st) = Some dim →
  nextMonthDaysNeeded (currentYear st) (currentMonth st) = Some trailing →
  0 <= first → 0 <= dim → 0 <= trailing →
  Z.of_nat (length (calendarGrid (renderCalendar st))) = first + dim + trailing.
Proof.
  intros Hl Hd Ht ???.
  rewrite renderCalendar_calendarGrid.
  unfold leadingCells, activeCells, trailingCells.
  rewrite !length_app, !length_fmap, Hl, Hd, Ht. cbn [range_lt range_le].
  rewrite !length_seqZ. lia.
Qed.

End Rendering.

(** ** Events of a day and their flags *)

Section DayEvents.
Import Calendar.

Lemma eventsOn_all (dateString : string) (events : list Event) :
  Forall (λ e, date e = dateString) events → eventsOn dateString events = events.
Proof.
  induction 1 as [|e l He _ IH]; [done|].
  unfold eventsOn in *. rewrite filter_cons_True by done. by rewrite IH.
Qed.

Lemma eventsOn_app (dateString : string) (l1 l2 : list Event) :
  eventsOn dateString (l1 ++ l2) = eventsOn dateString l1 ++ eventsOn dateString l2.
Proof. apply filter_app. Qed.

Lemma eventsOn_sublist (dateString : string) (l events : list Event) :
  l `sublist_of` events →
  eventsOn dateString l `sublist_of` eventsOn dateString events.
Proof.
  unfold eventsOn. induction 1 as [|x l1 l2 _ IH|x l1 l2 _ IH]; [done|..].
  - destruct (decide (date x = dateString)).
    + rewrite !filter_cons_True by done. by apply sublist_skip.
    + by rewrite !filter_cons_False by done.
  - destruct (decide (date x = dateString)).
    + rewrite filter_cons_True by done. by apply sublist_cons.
    + by rewrite filter_cons_False by done.
Qed.

(** C7. For every event list and date string, [eventsOn] returns exactly
    the events whose date is the date string, in their order in the list:
    the result is a subsequence of the list, it holds only events of that
    date, and every subsequence of the list made of events of that date is
    a subsequence of the result; with no such event the result is the
    empty list; on the sample data, the events on 2025-12-24 are the
    Holiday Party and nothing else. *)
Theorem eventsOn_exact (events : list Event) (dateString : string) :
  eventsOn dateString events `sublist_of` events
  ∧ (∀ e, e ∈ eventsOn dateString events ↔ e ∈ events ∧ date e = dateString)
  ∧ (∀ l, l `sublist_of` events → Forall (λ e, date e = dateString) l →
          l `sublist_of` eventsOn dateString events)
  ∧ ((∀ e, e ∈ events → date e ≠ dateString) ↔ eventsOn dateString events = [])
  ∧ eventsOn "2025-12-24" sampleEvents
    = [mkEvent "Holiday Party" "2025-12-24" "18:00" "4h"].
Proof.
  split; [apply sublist_filter|].
  split; [intros e; unfold eventsOn; rewrite list_elem_of_filter; tauto|].
  split.
  { intros l Hsub Hall. rewrite <- (eventsOn_all dateString l Hall).
    by apply eventsOn_sublist. }
  split; [|reflexivity].
  split.
  - intros Hno. unfold eventsOn. induction events as [|e l IH]; [done|].
    rewrite filter_cons_False.
    + apply IH. intros e' He'. apply Hno. by right.
    + apply Hno. by left.
  - intros Hnil e He Hd.
    assert (e ∈ eventsOn dateString events) as Hin
      by (unfold eventsOn; rewrite list_elem_of_filter; done).
    rewrite Hnil in Hin. by apply elem_of_nil in Hin.
Qed.

End DayEvents.

(** ** Conflict flags *)

Section ConflictFlags.
Import Calendar.
Context {host : JsDate.Host}.

Lemma dateCell_children y m day isPrevMonth isToday (events : list Event) :
  children (dateCell y m day false isPrevMonth isToday events)
  = eventDiv (hasConflict events) <$> events.
Proof. by destruct events. Qed.

Lemma inactive_cell_bare y m day isPrevMonth isToday (events : list Event) :
  let cell := dateCell y m day true isPrevMonth isToday events in
  dataset_date cell = None ∧ children cell = [].
Proof. cbn. by rewrite andb_false_r. Qed.

(** A rendered cell that carries a date is the cell of that day, with one
    box per event of the day. *)
Lemma dated_cell_children st cell dateString :
  cell ∈ calendarGrid (renderCalendar st) →
  dataset_date cell = Some dateString →
  let dayEvents := eventsOn dateString (staticEvents st) in
  children cell = eventDiv (hasConflict dayEvents) <$> dayEvents.
Proof.
  rewrite renderCalendar_calendarGrid.
  rewrite !elem_of_app.
  unfold leadingCells, activeCells, trailingCells.
  intros [Hin | [Hin | Hin]] Hdate;
    apply list_elem_of_fmap in Hin as (x & -> & _); [done| |done].
  cbn in Hdate. injection Hdate as <-.
  cbv zeta. apply dateCell_children.
Qed.

Lemma conflictClass_by_count (n : nat) :
  conflictClass (Z.of_nat n)
  = match n with
    | 0%nat | 1%nat => []
    | 2%nat => ["conflict-level-2"]
    | _ => ["conflict-level-3"]
    end.
Proof.
  destruct n as [|[|[|n]]]; try reflexivity.
  unfold conflictClass.
  destruct (Z.eqb_spec (Z.of_nat (S (S (S n)))) 2); [lia|].
  destruct (Z.leb_spec 3 (Z.of_nat (S (S (S n))))); [done|lia].
Qed.

(** C3. The flag on the events of a day depends on the number of events
    of that day only: in a rendered grid, the cell of a day has one box
    per event of the day; with no or one event the boxes carry no flag,
    with exactly two events every box carries the level-2 flag, and with
    three or more every box carries the level-3 flag.  The three sample
    events on 2025-11-25 all get the level-3 flag. *)
Theorem conflict_flag_by_count st cell dateString :
  cell ∈ calendarGrid (renderCalendar st) →
  dataset_date cell = Some dateString →
  let count := length (eventsOn dateString (staticEvents st)) in
  length (children cell) = count
  ∧ ((count ≤ 1)%nat →
     Forall (λ d, ev_classes d = ["event"]) (children cell))
  ∧ (count = 2%nat →
     Forall (λ d, ev_classes d = ["event"; "conflict-level-2"]) (children cell))
  ∧ ((3 ≤ count)%nat →
     Forall (λ d, ev_classes d = ["event"; "conflict-level-3"]) (children cell))
  ∧ length (eventsOn "2025-11-25" sampleEvents) = 3%nat
  ∧ Forall (λ d, ev_classes d = ["event"; "conflict-level-3"])
           (children (dateCell 2025 10 (Some 25) false false false
                               (eventsOn "2025-11-25" sampleEvents))).
Proof.
  intros Hin Hdate count.
  rewrite (dated_cell_children st cell dateString Hin Hdate).
  cbv zeta. unfold hasConflict, eventDiv. fold count.
  rewrite conflictClass_by_count, length_fmap.
  split; [done|].
  repeat split.
  - intros Hc. apply Forall_fmap, Forall_true. intros e. cbn.
    by destruct count as [|[|?]]; [..|lia].
  - intros ->. apply Forall_fmap, Forall_true. by intros e.
  - intros Hc. apply Forall_fmap, Forall_true. intros e. cbn.
    by destruct count as [|[|[|?]]]; [lia..|].
  - repeat constructor.
Qed.

End ConflictFlags.

Lemma conflict_flag_by_count_witness :
  ∃ cell,
    Calendar.calendarGrid
      (Calendar.renderCalendar (host:=utc) prompt_without_title) !! 30%nat
    = Some cell
    ∧ Calendar.dataset_date cell = Some "2025-11-25"
    ∧ length (Calendar.children cell) = 3%nat
    ∧ Forall (λ d, Calendar.ev_classes d = ["event"; "conflict-level-3"])
             (Calendar.children cell).
Proof.
  set (cell := Calendar.dateCell 2025 10 (Some 25) false false false
                 (Calendar.eventsOn "2025-11-25" Calendar.sampleEvents)).
  assert (Hlook : Calendar.calendarGrid
                    (Calendar.renderCalendar (host:=utc) prompt_without_title)
                    !! 30%nat = Some cell)
    by (vm_compute; reflexivity).
  assert (Hin : cell ∈ Calendar.calendarGrid
                         (Calendar.renderCalendar (host:=utc)
                                                  prompt_without_title))
    by (apply list_elem_of_lookup; by exists 30%nat).
  assert (Hdate : Calendar.dataset_date cell = Some "2025-11-25")
    by reflexivity.
  pose proof (conflict_flag_by_count (host:=utc) prompt_without_title cell
                "2025-11-25" Hin Hdate)
    as (Hlen & _ & _ & H3 & _).
  exists cell. split; [exact Hlook|]. split; [exact Hdate|].
  split; [exact Hlen|]. apply H3. vm_compute. lia.
Defined.

(** ** Navigation and the form *)

Section Handlers.
Import Calendar.
Context {host : JsDate.Host}.

Lemma renderCalendar_same st :
  same_outside_view st (renderCalendar st)
  ∧ currentYear (renderCalendar st) = currentYear st
  ∧ currentMonth (renderCalendar st) = currentMonth st.
Proof.
  destruct (renderCalendar_fields st) as (? & ? & ? & ? & ? & ? & ?).
  by repeat split.
Qed.

Lemma prevMonth_view st :
  currentYear (prevMonth_click st)
  = (if currentMonth st - 1 <? 0 then currentYear st - 1 else currentYear st)
  ∧ currentMonth (prevMonth_click st)
    = (if currentMonth st - 1 <? 0 then 11 else currentMonth st - 1).
Proof.
  unfold prevMonth_click. cbv zeta.
  destruct (renderCalendar_same
              (if currentMonth st - 1 <? 0 then set_view (currentYear st - 1) 11 st
               else set_view (currentYear st) (currentMonth st - 1) st))
    as (_ & -> & ->).
  by destruct (currentMonth st - 1 <? 0).
Qed.

Lemma nextMonth_view st :
  currentYear (nextMonth_click st)
  = (if 11 <? currentMonth st + 1 then currentYear st + 1 else currentYear st)
  ∧ currentMonth (nextMonth_click st)
    = (if 11 <? currentMonth st + 1 then 0 else currentMonth st + 1).
Proof.
  unfold nextMonth_click. cbv zeta.
  destruct (renderCalendar_same
              (if 11 <? currentMonth st + 1 then set_view (currentYear st + 1) 0 st
               else set_view (currentYear st) (currentMonth st + 1) st))
    as (_ & -> & ->).
  by destruct (11 <? currentMonth st + 1).
Qed.

Lemma navigation_same_outside_view st :
  same_outside_view st (prevMonth_click st)
  ∧ same_outside_view st (nextMonth_click st).
Proof.
  unfold prevMonth_click, nextMonth_click. cbv zeta.
  split;
    match goal with
    | |- context [renderCalendar ?s] =>
        destruct (renderCalendar_fields s) as (? & _ & _ & ? & ? & ? & ?)
    end;
    [destruct (currentMonth st - 1 <? 0) | destruct (11 <? currentMonth st + 1)];
    by repeat split.
Qed.

Lemma addEventForm_submit_unfold st :
  addEventForm_submit st
  = renderCalendar
      (set_modal "none"
         (set_form (input_values (markup st))
            (set_events
               (staticEvents st
                ++ [mkEvent (event_title (form st)) (event_date (form st))
                            (event_time (form st)) (event_duration (form st))])
               st))).
Proof. reflexivity. Qed.

(** What the submit listener does, whatever the inputs hold: it has no
    check of its own. *)
Lemma addEventForm_submit_adds st :
  let f := form st in
  let newEvent :=
    mkEvent (event_title f) (event_date f) (event_time f) (event_duration f) in
  let st' := addEventForm_submit st in
  staticEvents st' = staticEvents st ++ [newEvent]
  ∧ form st' = input_values (markup st)
  ∧ modal_display st' = "none"
  ∧ currentYear st' = currentYear st
  ∧ currentMonth st' = currentMonth st
  ∧ calendarGrid st' = leadingCells st' ++ activeCells st' ++ trailingCells st'.
Proof.
  cbv zeta. rewrite addEventForm_submit_unfold.
  set (s := set_modal _ _).
  destruct (renderCalendar_fields s) as (He & Hy & Hm & Ht & Hmod & Hf & _).
  rewrite He, Hy, Hm, Hmod, Hf.
  do 5 (split; [reflexivity|]).
  destruct (cells_same s (renderCalendar s) He Hy Hm Ht) as (-> & -> & -> & _).
  apply renderCalendar_calendarGrid.
Qed.

Lemma addEventForm_submit_keeps st :
  today (addEventForm_submit st) = today st
  ∧ markup (addEventForm_submit st) = markup st.
Proof.
  rewrite addEventForm_submit_unfold.
  match goal with
  | |- context [renderCalendar ?s] =>
      destruct (renderCalendar_fields s) as (_ & _ & _ & -> & _ & _ & ->)
  end.
  by split.
Qed.

(** Opening the prompt and typing into the form touch the modal and the
    form only. *)
Lemma prompt_then_type ds f st :
  let st1 := step (OPEN_PROMPT ds) st in
  let st2 := step (TYPE f) st1 in
  modal_display st1 = "block"
  ∧ event_date (form st1) = event_date_assign (markup st) ds
  ∧ staticEvents st2 = staticEvents st
  ∧ currentYear st2 = currentYear st
  ∧ currentMonth st2 = currentMonth st
  ∧ today st2 = today st
  ∧ markup st2 = markup st
  ∧ form st2 = f.
Proof. by repeat split. Qed.

Lemma checkValidity_spec f :
  checkValidity f = true
  ↔ event_date f ≠ EmptyString ∧ event_title f ≠ EmptyString.
Proof.
  unfold checkValidity.
  rewrite andb_true_iff, !negb_true_iff, !String.eqb_neq. done.
Qed.

Lemma submit_valid st :
  event_date (form st) ≠ EmptyString → event_title (form st) ≠ EmptyString →
  step SUBMIT st = addEventForm_submit st.
Proof.
  intros Hd Ht. cbn [step].
  by rewrite (proj2 (checkValidity_spec (form st)) (conj Hd Ht)).
Qed.

(** Every handler keeps the month within 0..11. *)
Lemma step_month_range a st :
  0 <= currentMonth st <= 11 → 0 <= currentMonth (step a st) <= 11.
Proof.
  intros Hm. destruct a; cbn [step].
  - destruct (prevMonth_view st) as [_ ->].
    destruct (Z.ltb_spec (currentMonth st - 1) 0); lia.
  - destruct (nextMonth_view st) as [_ ->].
    destruct (Z.ltb_spec 11 (currentMonth st + 1)); lia.
  - done.
  - done.
  - by destruct onModal.
  - done.
  - destruct (checkValidity (form st)); [|done].
    by destruct (addEventForm_submit_adds st) as (_ & _ & _ & _ & -> & _).
Qed.

Lemma run_snoc acts a st : run (acts ++ [a]) st = step a (run acts st).
Proof. unfold run. by rewrite foldl_app. Qed.

Lemma reachable_month_range now1 now2 now3 mk acts :
  0 <= currentMonth (run acts (load now1 now2 now3 mk)) <= 11.
Proof.
  induction acts as [|a acts IH] using rev_ind.
  - unfold load. cbn [run foldl].
    match goal with
    | |- context [renderCalendar ?s] =>
        destruct (renderCalendar_same s) as (_ & _ & ->)
    end.
    apply MonthFromTime_range.
  - rewrite run_snoc. by apply step_month_range.
Qed.

(** C9. In every state the page can reach from its load, by any sequence
    of user actions, the month is within 0..11; from such a state PREV
    takes the month down by one, or from 0 to 11 with the year down by
    one, NEXT takes the month up by one, or from 11 to 0 with the year up
    by one, the year is otherwise unchanged, and neither changes the event
    list, the form, the modal or the date of today. *)
Theorem navigation_wraps now1 now2 now3 mk acts :
  let st := run acts (load now1 now2 now3 mk) in
  0 <= currentMonth st <= 11
  ∧ (currentYear (step PREV st), currentMonth (step PREV st))
    = (if currentMonth st =? 0 then (currentYear st - 1, 11)
       else (currentYear st, currentMonth st - 1))
  ∧ (currentYear (step NEXT st), currentMonth (step NEXT st))
    = (if currentMonth st =? 11 then (currentYear st + 1, 0)
       else (currentYear st, currentMonth st + 1))
  ∧ 0 <= currentMonth (step PREV st) <= 11
  ∧ 0 <= currentMonth (step NEXT st) <= 11
  ∧ same_outside_view st (step PREV st)
  ∧ same_outside_view st (step NEXT st).
Proof.
  intros st. pose proof (reachable_month_range now1 now2 now3 mk acts) as Hm.
  fold st in Hm. split; [done|].
  split.
  { cbn [step]. destruct (prevMonth_view st) as [-> ->].
    destruct (Z.ltb_spec (currentMonth st - 1) 0),
      (Z.eqb_spec (currentMonth st) 0); (reflexivity || lia). }
  split.
  { cbn [step]. destruct (nextMonth_view st) as [-> ->].
    destruct (Z.ltb_spec 11 (currentMonth st + 1)),
      (Z.eqb_spec (currentMonth st) 11); (reflexivity || lia). }
  split; [by apply step_month_range|].
  split; [by apply step_month_range|].
  apply navigation_same_outside_view.
Qed.

(** What an action does to the event list: nothing, or, for a
    submission of a valid form, it adds the event of the form. *)
Lemma step_events a st :
  staticEvents (step a st) = staticEvents st
  ∨ (is_submit a = true ∧ checkValidity (form st) = true
     ∧ staticEvents (step a st)
       = staticEvents st
         ++ [mkEvent (event_title (form st)) (event_date (form st))
                     (event_time (form st)) (event_duration (form st))]).
Proof.
  destruct a; cbn [step].
  - left. by destruct (navigation_same_outside_view st) as [(-> & _) _].
  - left. by destruct (navigation_same_outside_view st) as [_ (-> & _)].
  - by left.
  - by left.
  - left. by destruct onModal.
  - by left.
  - destruct (checkValidity (form st)); [|by left].
    right. split; [done|]. split; [done|].
    by destruct (addEventForm_submit_adds st) as (-> & _).
Qed.

Lemma run_has_date_and_title acts st :
  Forall has_date_and_title (staticEvents st) →
  Forall has_date_and_title (staticEvents (run acts st)).
Proof.
  intros Hall. induction acts as [|a acts IH] using rev_ind; [done|].
  rewrite run_snoc.
  destruct (step_events a (run acts st)) as [-> | (_ & Hvalid & ->)]; [done|].
  apply Forall_app. split; [done|]. apply Forall_singleton.
  by apply checkValidity_spec in Hvalid.
Qed.

Lemma sampleEvents_have_date_and_title :
  Forall has_date_and_title sampleEvents.
Proof. repeat constructor; discriminate. Qed.

(** C4.  A submission of the form with an empty date or an empty title
    is not carried out: the state of the page is what it was, so no event
    is added to the list, the inputs keep their values and the modal
    stays open.  With a date and a title the submission runs the submit
    listener.  So, whatever the user does from the load of the page on,
    every event of the list has a date and a title.  (The listener itself
    checks nothing; the check is that of the required fields, which the
    page does before it fires the submit event.) *)
Theorem submit_needs_date_and_title st :
  rejects_incomplete_form st
  ∧ (event_date (form st) = EmptyString ∨ event_title (form st) = EmptyString →
     step SUBMIT st = st)
  ∧ (event_date (form st) ≠ EmptyString → event_title (form st) ≠ EmptyString →
     step SUBMIT st = addEventForm_submit st)
  ∧ (∀ acts, Forall has_date_and_title (staticEvents st) →
             Forall has_date_and_title (staticEvents (run acts st)))
  ∧ (∀ now1 now2 now3 mk acts,
       Forall has_date_and_title
              (staticEvents (run acts (load now1 now2 now3 mk)))).
Proof.
  assert (Hempty : event_date (form st) = EmptyString
                   ∨ event_title (form st) = EmptyString →
                   step SUBMIT st = st).
  { intros Hor. cbn [step].
    destruct (checkValidity (form st)) eqn:Hv; [|done].
    apply checkValidity_spec in Hv. tauto. }
  split; [|split; [exact Hempty|split; [|split]]].
  - intros Hor. cbv zeta. by rewrite (Hempty Hor).
  - intros Hd Ht. cbn [step].
    by rewrite (proj2 (checkValidity_spec (form st)) (conj Hd Ht)).
  - intros acts. apply run_has_date_and_title.
  - intros now1 now2 now3 mk acts. apply run_has_date_and_title.
    unfold load.
    match goal with
    | |- context [renderCalendar ?s] =>
        destruct (renderCalendar_same s) as ((-> & _) & _)
    end.
    apply sampleEvents_have_date_and_title.
Qed.

End Handlers.

Lemma submit_needs_date_and_title_witness :
  Calendar.event_title (Calendar.form prompt_without_title) = EmptyString
  ∧ Calendar.modal_display prompt_without_title = "block"
  ∧ Calendar.step (host:=utc) Calendar.SUBMIT prompt_without_title
    = prompt_without_title.
Proof.
  assert (Ht : Calendar.event_title (Calendar.form prompt_without_title)
               = EmptyString) by reflexivity.
  split; [exact Ht|]. split; [reflexivity|].
  exact (proj1 (proj2 (submit_needs_date_and_title (host:=utc)
                         prompt_without_title))
               (or_intror Ht)).
Defined.

(** ** The store *)

Section Order.
Import Server.

(** Induction on a value, with the elements of an array and the fields
    of an object. *)
Lemma jsval_nested_ind (P : jsval → Prop) :
  P VUndefined → P VNull → (∀ b, P (VBool b)) → (∀ n, P (VNum n)) →
  (∀ s, P (VStr s)) →
  (∀ l, Forall P l → P (VArr l)) →
  (∀ f, Forall (λ kv, P kv.2) f → P (VObj f)) →
  ∀ v, P v.
Proof.
  intros Hu Hn Hb Hz Hs Ha Ho. fix IH 1. intros [| |b|n|s|l|f].
  - exact Hu.
  - exact Hn.
  - apply Hb.
  - apply Hz.
  - apply Hs.
  - apply Ha. induction l as [|x l IHl]; constructor; [apply IH | exact IHl].
  - apply Ho. induction f as [|[k x] f IHf]; constructor; [apply IH | exact IHf].
Qed.

Lemma ordered_and_then a b d e a' b' d' e' :
  ordered a b d e → ordered a' b' d' e' →
  ordered (and_then a a') (and_then b b') (and_then d d') (and_then e e').
Proof.
  intros (-> & H1 & H2 & H3) (-> & H1' & H2' & H3').
  destruct a; cbn.
  - rewrite H1 by done. destruct b; cbn; repeat split; auto; try done.
  - destruct b; cbn.
    + rewrite H3 by done. repeat split; auto; done.
    + rewrite H2 by done. repeat split; auto; done.
    + repeat split; auto; done.
  - repeat split; auto; done.
Qed.

Lemma ordered_Z x y z : ordered (x ?= y) (y ?= z) (x ?= z) (y ?= x).
Proof.
  repeat split.
  - apply Z.compare_antisym.
  - intros ->%Z.compare_eq. done.
  - rewrite !Z.compare_lt_iff. lia.
  - intros H ->%Z.compare_eq. done.
Qed.

Lemma String_compare_lt_trans x y z :
  String.compare x y = Lt → String.compare y z = Lt → String.compare x z = Lt.
Proof.
  revert y z. induction x as [|a x IH]; intros [|b y] [|c z]; cbn; try done.
  unfold Ascii.compare.
  destruct (N.compare_spec (Ascii.N_of_ascii a) (Ascii.N_of_ascii b)) as [Hab|Hab|Hab],
    (N.compare_spec (Ascii.N_of_ascii b) (Ascii.N_of_ascii c)) as [Hbc|Hbc|Hbc],
    (N.compare_spec (Ascii.N_of_ascii a) (Ascii.N_of_ascii c)) as [Hac|Hac|Hac];
    try done; try lia.
  apply IH.
Qed.

Lemma ordered_string x y z :
  ordered (String.compare x y) (String.compare y z) (String.compare x z)
          (String.compare y x).
Proof.
  repeat split.
  - apply String.compare_antisym.
  - intros ->%String.compare_eq_iff. done.
  - apply String_compare_lt_trans.
  - intros H ->%String.compare_eq_iff. done.
Qed.

Lemma ordered_bool x y z :
  ordered (compare_bool x y) (compare_bool y z) (compare_bool x z)
          (compare_bool y x).
Proof. by destruct x, y, z. Qed.

Lemma ordered_rank a b d :
  ordered (bson_rank a ?= bson_rank b) (bson_rank b ?= bson_rank d)
          (bson_rank a ?= bson_rank d) (bson_rank b ?= bson_rank a).
Proof. apply ordered_Z. Qed.

Lemma ordered_elems cmp l :
  Forall (λ x, ∀ y z, ordered (cmp x y) (cmp y z) (cmp x z) (cmp y x)) l →
  ∀ l' l'',
    ordered (compare_elems cmp l l') (compare_elems cmp l' l'')
            (compare_elems cmp l l'') (compare_elems cmp l' l).
Proof.
  induction 1 as [|x l Hx _ IH]; intros [|y l'] [|z l'']; cbn;
    try (repeat split; intros; congruence).
  - destruct (ordered_and_then _ _ _ _ _ _ _ _ (Hx y y) (IH l' l')) as [He _].
    repeat split; intros; congruence.
  - by apply ordered_and_then.
Qed.

Lemma ordered_fields cmp f :
  Forall (λ kv, ∀ y z, ordered (cmp kv.2 y) (cmp y z) (cmp kv.2 z) (cmp y kv.2)) f →
  ∀ f' f'',
    ordered (compare_fields cmp f f') (compare_fields cmp f' f'')
            (compare_fields cmp f f'') (compare_fields cmp f' f).
Proof.
  assert (Hstep : ∀ k x k' y k'' z a b d e,
             (∀ y z, ordered (cmp x y) (cmp y z) (cmp x z) (cmp y x)) →
             ordered a b d e →
             ordered
               (and_then (bson_rank x ?= bson_rank y)
                  (and_then (String.compare k k') (and_then (cmp x y) a)))
               (and_then (bson_rank y ?= bson_rank z)
                  (and_then (String.compare k' k'') (and_then (cmp y z) b)))
               (and_then (bson_rank x ?= bson_rank z)
                  (and_then (String.compare k k'') (and_then (cmp x z) d)))
               (and_then (bson_rank y ?= bson_rank x)
                  (and_then (String.compare k' k) (and_then (cmp y x) e)))).
  { intros k x k' y k'' z a b d e Hx Hrest.
    apply ordered_and_then; [apply ordered_rank|].
    apply ordered_and_then; [apply ordered_string|].
    by apply ordered_and_then. }
  induction 1 as [|[k x] f Hx _ IH]; intros [|[k' y] f'] [|[k'' z] f''];
    cbn; try (repeat split; intros; congruence).
  - destruct (Hstep k x k' y k' y _ _ _ _ Hx (IH f' f')) as [He _].
    repeat split; intros; congruence.
  - by apply Hstep.
Qed.

(** The comparison of values is an order. *)
Lemma ordered_bson a :
  ∀ b d, ordered (bson_compare a b) (bson_compare b d) (bson_compare a d)
                 (bson_compare b a).
Proof.
  induction a as [| |x|x|x|l IH|f IH] using jsval_nested_ind;
    intros [| |y|y|y|l'|f'] [| |z|z|z|l''|f'']; cbn [bson_compare];
    try (by apply ordered_Z); try (by apply ordered_string);
    try (by apply ordered_bool); try (by apply ordered_elems);
    try (by apply ordered_fields);
    try (cbn; repeat split; intros; congruence);
    (* the first two of one type, the third of another: the comparison
       with the third is that of the types *)
    first [ destruct (ordered_Z x y y) as [He _]
          | destruct (ordered_string x y y) as [He _]
          | destruct (ordered_bool x y y) as [He _]
          | destruct (ordered_elems bson_compare l IH l' l') as [He _]
          | destruct (ordered_fields bson_compare f IH f' f') as [He _] ];
    cbn; repeat split; intros; congruence.
Qed.

End Order.

#[global] Instance date_le_total : Total Server.date_le.
Proof.
  intros a b. unfold Server.date_le, Server.key_leb.
  destruct (Server.sort_key (Server.date a)) as [x|],
    (Server.sort_key (Server.date b)) as [y|]; auto.
  destruct (ordered_bson x y y) as [He _]. rewrite He.
  destruct (Server.bson_compare x y); cbn; auto.
Qed.

#[global] Instance date_le_trans : Transitive Server.date_le.
Proof.
  intros a b c. unfold Server.date_le, Server.key_leb.
  destruct (Server.sort_key (Server.date a)) as [x|],
    (Server.sort_key (Server.date b)) as [y|],
    (Server.sort_key (Server.date c)) as [z|]; try done.
  destruct (ordered_bson x y z) as (_ & Heq & Hlt & Hle).
  destruct (Server.bson_compare x y) eqn:Hxy; [|clear Heq|done].
  - by rewrite Heq.
  - destruct (Server.bson_compare y z) eqn:Hyz; [| |done].
    + by rewrite Hle.
    + by rewrite Hlt.
Qed.

Section Store.
Import Server.

Lemma truthy_false v :
  truthy v = false
  ↔ v = VUndefined ∨ v = VNull ∨ v = VBool false ∨ v = VNum 0
    ∨ v = VStr EmptyString.
Proof.
  split.
  - destruct v as [| |[]|n|s|l|f]; cbn; intros H; try discriminate; auto.
    + apply negb_false_iff, Z.eqb_eq in H. subst. auto.
    + apply negb_false_iff, String.eqb_eq in H. subst. auto 6.
  - intros [->|[->|[->|[->| ->]]]]; reflexivity.
Qed.

Lemma absent_or_empty_falsy v : absent_or_empty v → truthy v = false.
Proof. intros [->|[->| ->]]; reflexivity. Qed.

Lemma or_else_defined a : or_else a (VStr EmptyString) ≠ VUndefined.
Proof.
  unfold or_else. by destruct a as [| |[]|n|s|l|f]; cbn; try case_match.
Qed.

(** What the query for a date selects. *)
Lemma is_string_spec d v : is_string d v = true ↔ v = VStr d.
Proof.
  destruct v as [| |b|n|s|l|f]; cbn; try (split; [discriminate|discriminate]).
  rewrite String.eqb_eq. split; [by intros ->|by intros [= ->]].
Qed.

Lemma matches_string_spec d v :
  matches_string d v = true
  ↔ v = VStr d ∨ ∃ elems, v = VArr elems ∧ VStr d ∈ elems.
Proof.
  destruct v as [| |b|n|s|l|f]; cbn [matches_string];
    try (rewrite is_string_spec; split; [by left|];
         intros [H|(l' & H & _)]; [done|discriminate H]).
  rewrite existsb_exists. split.
  - intros (x & Hin%list_elem_of_In & Hx%is_string_spec). subst x.
    right. by exists l.
  - intros [H|(l' & [= <-] & Hin)]; [discriminate H|].
    exists (VStr d). split; [by apply list_elem_of_In|by apply is_string_spec].
Qed.

(** On dates that are strings the order of the sort is the order of
    the strings, byte by byte. *)
Lemma date_le_strings a b s s' :
  date a = VStr s → date b = VStr s' →
  date_le a b ↔ String.leb s s' = true.
Proof.
  intros Ha Hb. unfold date_le. rewrite Ha, Hb. cbn. unfold String.leb.
  by destruct (String.compare s s').
Qed.

(** Removing the first event of an identifier. *)
Lemma remove_first_absent oid c : oid ∉ ids c → remove_first oid c = (c, 0).
Proof.
  induction c as [|doc c IH]; [done|]. cbn. intros Hnot.
  apply not_elem_of_cons in Hnot as [Hne Hnot].
  rewrite bool_decide_eq_false_2 by done. by rewrite IH.
Qed.

Lemma remove_first_present oid c :
  oid ∈ ids c →
  (remove_first oid c).2 = 1
  ∧ S (length (remove_first oid c).1) = length c
  ∧ (remove_first oid c).1 `sublist_of` c.
Proof.
  induction c as [|doc c IH]; [by intros ?%elem_of_nil|].
  cbn [ids fmap list_fmap remove_first]. intros Hin.
  destruct (decide (_id doc = oid)) as [Heq|Hne].
  - rewrite bool_decide_eq_true_2 by done. cbn.
    split; [done|]. split; [done|]. by apply sublist_cons.
  - rewrite bool_decide_eq_false_2 by done.
    apply elem_of_cons in Hin as [?|Hin]; [done|].
    destruct (IH Hin) as (Hn & Hlen & Hsub).
    destruct (remove_first oid c) as [r n]. cbn in *.
    split; [done|]. split; [by rewrite Hlen|]. by apply sublist_skip.
Qed.

Lemma filter_keeps_all {A} (P : A → Prop) `{!∀ x, Decision (P x)} (l : list A) :
  Forall P l → filter P l = l.
Proof.
  induction 1 as [|x l Hx _ IH]; [done|].
  rewrite filter_cons_True by done. by rewrite IH.
Qed.

Lemma Forall_of_sublist {A} (P : A → Prop) (l1 l2 : list A) :
  l1 `sublist_of` l2 → Forall P l2 → Forall P l1.
Proof.
  induction 1 as [|x l1 l2 _ IH|x l1 l2 _ IH]; [done|..];
    intros [Hx Hl]%Forall_cons; [apply Forall_cons|]; auto.
Qed.

Lemma remove_first_filter oid c :
  NoDup (ids c) → (remove_first oid c).1 = filter (λ doc, _id doc ≠ oid) c.
Proof.
  induction c as [|doc c IH]; [done|].
  cbn [ids fmap list_fmap remove_first]. intros [Hnot Hnd]%NoDup_cons.
  destruct (decide (_id doc = oid)) as [Heq|Hne].
  - rewrite bool_decide_eq_true_2 by done. cbn [fst].
    rewrite (filter_cons_False (λ d, _id d ≠ oid) doc c)
      by (intros Hx; apply Hx, Heq).
    symmetry. apply filter_keeps_all, Forall_forall. intros d Hd Hid.
    apply Hnot. rewrite Heq, <- Hid. by apply list_elem_of_fmap_2.
  - rewrite bool_decide_eq_false_2 by done.
    rewrite (filter_cons_True (λ d, _id d ≠ oid) doc c) by done.
    specialize (IH Hnd).
    destruct (remove_first oid c) as [r n]. cbn [fst] in *. by rewrite IH.
Qed.

Lemma ids_filter_not oid c : oid ∉ ids (filter (λ doc, _id doc ≠ oid) c).
Proof.
  intros (doc & -> & Hin)%list_elem_of_fmap.
  apply list_elem_of_filter in Hin as [Hne _]. done.
Qed.

(** *** What the handlers keep *)

Lemma post_events_unfold b env c :
  post_events (Some b) env c
  = if negb (truthy (body_date b)) || negb (truthy (body_title b))
    then (mkResponse 400 (JError "date and title are required"), c)
    else if driver_up env && negb (bool_decide (generatedId env ∈ ids c))
    then let doc := mkDoc (generatedId env) (body_date b) (body_title b)
                          (or_else (body_description b) (VStr EmptyString))
                          (now env) in
         (mkResponse 201 (JEvent doc), c ++ [doc])
    else (mkResponse 500 (JError "Failed to add event"), c).
Proof.
  unfold post_events, insertOne.
  destruct (negb (truthy (body_date b)) || negb (truthy (body_title b)));
    [done|].
  destruct (driver_up env); [|done]. cbn [andb].
  by destruct (bool_decide (generatedId env ∈ ids c)).
Qed.

Lemma post_events_created req_body env c :
  status (post_events req_body env c).1 = 201 →
  ∃ b, req_body = Some b
       ∧ let doc := mkDoc (generatedId env) (body_date b) (body_title b)
                          (or_else (body_description b) (VStr EmptyString))
                          (now env) in
         post_events req_body env c = (mkResponse 201 (JEvent doc), c ++ [doc])
         ∧ (generatedId env ∉ ids c)
         ∧ truthy (body_date b) = true ∧ truthy (body_title b) = true.
Proof.
  destruct req_body as [b|]; [|done]. intros H. exists b. split; [done|].
  revert H. rewrite post_events_unfold.
  destruct (truthy (body_date b)), (truthy (body_title b)); cbn; try done.
  destruct (driver_up env); cbn; [|done].
  by destruct (bool_decide_reflect (generatedId env ∈ ids c)).
Qed.

Lemma post_events_not_created req_body env c :
  status (post_events req_body env c).1 ≠ 201 →
  (post_events req_body env c).2 = c.
Proof.
  destruct req_body as [b|]; [|done]. rewrite post_events_unfold.
  destruct (negb (truthy (body_date b)) || negb (truthy (body_title b)));
    [done|].
  by destruct (driver_up env && negb (bool_decide (generatedId env ∈ ids c))).
Qed.

Lemma delete_event_unfold id env c :
  delete_event id env c
  = match new_ObjectId id with
    | None => (mkResponse 500 (JError "Failed to delete event"), c)
    | Some oid =>
        if driver_up env then
          if bool_decide (oid ∈ ids c)
          then (mkResponse 200 (JMessage "Event deleted"), (remove_first oid c).1)
          else (mkResponse 404 (JError "Event not found"), c)
        else (mkResponse 500 (JError "Failed to delete event"), c)
    end.
Proof.
  unfold delete_event, deleteOne.
  destruct (new_ObjectId id) as [oid|]; [|done].
  destruct (driver_up env); [|done].
  destruct (bool_decide_reflect (oid ∈ ids c)) as [Hin|Hnot].
  - destruct (remove_first_present oid c Hin) as (Hn & _).
    destruct (remove_first oid c) as [r n]. cbn in Hn. by subst n.
  - by rewrite remove_first_absent.
Qed.

Lemma get_events_unfold q env c :
  get_events q env c
  = if driver_up env then
      (mkResponse 200
         (JEvents (merge_sort date_le
                     (match q with
                      | Some d =>
                          if truthy (VStr d)
                          then filter (λ doc, matches_string d (date doc) = true) c
                          else c
                      | None => c
                      end))), c)
    else (mkResponse 500 (JError "Failed to fetch events"), c).
Proof.
  unfold get_events, find_sort_toArray.
  destruct (driver_up env); [|done].
  by destruct q as [d|]; [destruct (truthy (VStr d))|].
Qed.

(** What a request does to the collection: nothing, or it adds the
    event of a body with a truthy date and title, or it removes events. *)
Lemma handle_events_sub r env c :
  (handle r env c).2 = c
  ∨ (∃ b, truthy (body_date b) = true ∧ truthy (body_title b) = true
          ∧ (generatedId env ∉ ids c)
          ∧ (handle r env c).2
            = c ++ [mkDoc (generatedId env) (body_date b) (body_title b)
                          (or_else (body_description b) (VStr EmptyString))
                          (now env)])
  ∨ (handle r env c).2 `sublist_of` c.
Proof.
  destruct r as [q|req_body|id]; cbn [handle].
  - left. rewrite get_events_unfold. by destruct (driver_up env).
  - destruct (Z.eq_dec (status (post_events req_body env c).1) 201) as [H201|Hne].
    + right. left.
      destruct (post_events_created req_body env c H201)
        as (b & _ & -> & ? & ? & ?).
      by exists b.
    + left. by apply post_events_not_created.
  - rewrite delete_event_unfold.
    destruct (new_ObjectId id) as [oid|]; [|by left].
    destruct (driver_up env); [|by left].
    destruct (bool_decide_reflect (oid ∈ ids c)) as [Hin|Hnot]; [|by left].
    right. right. by destruct (remove_first_present oid c Hin) as (_ & _ & ?).
Qed.

Lemma handle_keeps_stored r env c (P : Doc → Prop) :
  (∀ b, truthy (body_date b) = true → truthy (body_title b) = true →
        P (mkDoc (generatedId env) (body_date b) (body_title b)
                 (or_else (body_description b) (VStr EmptyString)) (now env))) →
  Forall P c → Forall P (handle r env c).2.
Proof.
  intros Hnew Hall.
  destruct (handle_events_sub r env c) as [-> | [(b & Hd & Ht & _ & ->) | Hsub]].
  - done.
  - apply Forall_app. split; [done|]. apply Forall_singleton. by apply Hnew.
  - by eapply Forall_of_sublist.
Qed.

Lemma handle_NoDup r env c : NoDup (ids c) → NoDup (ids (handle r env c).2).
Proof.
  intros Hnd.
  destruct (handle_events_sub r env c)
    as [-> | [(b & _ & _ & Hfresh & ->) | Hsub]].
  - done.
  - unfold ids. rewrite fmap_app. cbn.
    apply NoDup_app. split; [done|]. split; [|apply NoDup_singleton].
    intros x Hx ->%list_elem_of_singleton. done.
  - eapply sublist_NoDup; [exact Hnd|]. by apply fmap_sublist.
Qed.

Lemma handle_well_formed r env c :
  well_formed c → well_formed (handle r env c).2.
Proof.
  intros [Hnd Hall]. split; [by apply handle_NoDup|].
  apply handle_keeps_stored; [|done].
  intros b Hd Ht. cbn. split; [done|]. split; [done|]. apply or_else_defined.
Qed.

Lemma reachable_well_formed c : reachable c → well_formed c.
Proof.
  induction 1 as [|r env c _ IH].
  - split; [apply NoDup_nil_2 | apply Forall_nil_2].
  - by apply handle_well_formed.
Qed.

End Store.

(** ** The three requests *)

Section Requests.
Import Server.

(** C5 (amended: the check is JavaScript truthiness, which also refuses
    [false] and [0], and a request without a body does not reach it).
    For a request with a body, POST /events answers 400 with the error
    "date and title are required" exactly when the date or the title is
    falsy, that is absent, null, the empty string, [false] or [0], so in
    particular whenever one is absent or empty.  A request whose body is
    undefined is answered 500 with "Failed to add event".  In both cases
    the collection is unchanged.  Otherwise, when the insert succeeds, it
    answers 201 with the stored event, which carries the generated
    identifier, the time of the request and the date and title of the
    body, and is the one event added to the collection; and the insert
    succeeds when the store is up and the identifier is new.  Whatever is
    not a 201 leaves the collection unchanged. *)
Theorem post_events_validation req_body env c :
  let res := (post_events req_body env c).1 in
  let c' := (post_events req_body env c).2 in
  (∀ b, req_body = Some b →
     (status res = 400
      ↔ truthy (body_date b) = false ∨ truthy (body_title b) = false)
     ∧ (absent_or_empty (body_date b) ∨ absent_or_empty (body_title b) →
        status res = 400)
     ∧ (truthy (body_date b) = true → truthy (body_title b) = true →
        driver_up env = true → generatedId env ∉ ids c → status res = 201))
  ∧ (req_body = None →
     res = mkResponse 500 (JError "Failed to add event") ∧ c' = c)
  ∧ (status res = 400 →
     res = mkResponse 400 (JError "date and title are required") ∧ c' = c)
  ∧ (status res = 201 →
     ∃ b doc, req_body = Some b ∧ body res = JEvent doc ∧ c' = c ++ [doc]
              ∧ _id doc = generatedId env ∧ (_id doc ∉ ids c)
              ∧ createdAt doc = now env
              ∧ date doc = body_date b ∧ title doc = body_title b)
  ∧ (status res ≠ 201 → c' = c).
Proof.
  cbv zeta.
  split; [|split; [by intros ->|split; [|split]]].
  - intros b ->. rewrite post_events_unfold.
    destruct (truthy (body_date b)) eqn:Hd, (truthy (body_title b)) eqn:Ht;
      cbn [negb orb fst snd status];
      [ | repeat split; (done || auto) .. ].
    assert (Habs : ¬ (absent_or_empty (body_date b)
                      ∨ absent_or_empty (body_title b))).
    { intros [H|H]; apply absent_or_empty_falsy in H; congruence. }
    destruct (driver_up env) eqn:Hup; cbn [andb];
      [destruct (bool_decide_reflect (generatedId env ∈ ids c)) as [Hin|Hnew]|];
      cbn [negb fst snd status];
      (split; [split; [done|intros [?|?]; done]|]);
      (split; [intros ?; done|]); intros; done.
  - destruct req_body as [b|]; [|done]. rewrite post_events_unfold.
    destruct (negb (truthy (body_date b)) || negb (truthy (body_title b)));
      [done|].
    by destruct (driver_up env && negb (bool_decide (generatedId env ∈ ids c))).
  - intros H201.
    destruct (post_events_created req_body env c H201)
      as (b & -> & Hpost & Hfresh & _).
    cbv zeta in Hpost. rewrite Hpost. cbn. by eexists _, _.
  - apply post_events_not_created.
Qed.

(** C5 as stated fails in both directions: the body with date [0] and
    title "Standup" is answered 400, though its date and title are
    neither absent nor empty; and a request without a body, whose date
    and title are absent, is answered 500, not 400. *)
Lemma post_events_refuses_zero_date :
  status (post_events (Some body_with_zero_date) env_up []).1 = 400
  ∧ ¬ absent_or_empty (body_date body_with_zero_date)
  ∧ ¬ absent_or_empty (body_title body_with_zero_date)
  ∧ ¬ rejects_exactly_absent_or_empty (Some body_with_zero_date) env_up []
  ∧ status (post_events None env_up []).1 = 500
  ∧ absent_or_empty (req_date None)
  ∧ ¬ rejects_exactly_absent_or_empty None env_up [].
Proof.
  assert (H1 : ¬ absent_or_empty (body_date body_with_zero_date))
    by (intros [H|[H|H]]; discriminate H).
  assert (H2 : ¬ absent_or_empty (body_title body_with_zero_date))
    by (intros [H|[H|H]]; discriminate H).
  assert (H3 : absent_or_empty (req_date None)) by by left.
  split; [reflexivity|]. split; [done|]. split; [done|].
  split; [intros [H _]; destruct H as [H|H]; [reflexivity|done..]|].
  split; [reflexivity|]. split; [done|].
  intros [_ H]. specialize (H (or_introl H3)). discriminate H.
Qed.

(** C6 (amended: an identifier that is not 24 hexadecimal digits is
    answered 500, not 404).  With the store up and identifiers unique:
    DELETE /events/:id answers 500 with "Failed to delete event" when the
    identifier is not a well-formed ObjectId, and 404 with "Event not
    found" when it is well formed and no stored event has it, and leaves
    the collection as it is in both cases; when a stored event has it, it
    answers 200 with the message "Event deleted" and the collection is
    the old one without that event: one event fewer, the others kept in
    order, and the identifier resolving no more. *)
Theorem delete_event_outcomes id env c :
  driver_up env = true → NoDup (ids c) →
  let res := (delete_event id env c).1 in
  let c' := (delete_event id env c).2 in
  (new_ObjectId id = None →
   res = mkResponse 500 (JError "Failed to delete event") ∧ c' = c)
  ∧ (∀ oid, new_ObjectId id = Some oid → oid ∉ ids c →
     res = mkResponse 404 (JError "Event not found") ∧ c' = c)
  ∧ (∀ oid, new_ObjectId id = Some oid → oid ∈ ids c →
     res = mkResponse 200 (JMessage "Event deleted")
     ∧ c' = filter (λ doc, _id doc ≠ oid) c
     ∧ S (length c') = length c
     ∧ ¬ resolves id c').
Proof.
  intros Hup Hnd. cbv zeta. rewrite delete_event_unfold, Hup.
  split; [by intros ->|]. split.
  - intros oid -> Hnot. by rewrite bool_decide_eq_false_2.
  - intros oid Hid Hin. rewrite Hid, bool_decide_eq_true_2 by done.
    cbn [fst snd].
    destruct (remove_first_present oid c Hin) as (_ & Hlen & _).
    split; [done|]. split; [by apply remove_first_filter|].
    split; [done|].
    intros (oid' & Hid' & Hin'). rewrite Hid in Hid'. injection Hid' as <-.
    rewrite remove_first_filter in Hin' by done.
    by apply ids_filter_not in Hin'.
Qed.

Lemma delete_event_outcomes_witness :
  driver_up env_up = true ∧ NoDup (ids [standup])
  ∧ new_ObjectId "0000000000000000000000ff" = Some 255%N
  ∧ delete_event "0000000000000000000000ff" env_up [standup]
    = (mkResponse 200 (JMessage "Event deleted"), []).
Proof.
  assert (Hup : driver_up env_up = true) by reflexivity.
  assert (Hnd : NoDup (ids [standup])) by apply NoDup_singleton.
  assert (Hid : new_ObjectId "0000000000000000000000ff" = Some 255%N)
    by reflexivity.
  assert (Hin : 255%N ∈ ids [standup]) by (apply list_elem_of_singleton; reflexivity).
  destruct (delete_event_outcomes "0000000000000000000000ff" env_up [standup]
              Hup Hnd) as (_ & _ & H).
  destruct (H 255%N Hid Hin) as (Hres & Hc & _).
  split; [exact Hup|]. split; [exact Hnd|]. split; [exact Hid|].
  rewrite (surjective_pairing (delete_event _ _ _)), Hres, Hc. reflexivity.
Defined.

(** C6 as stated fails: the identifier "abc" resolves to no stored event,
    and the answer is 500, not 404. *)
Lemma delete_event_malformed_id :
  ¬ resolves "abc" [standup]
  ∧ (delete_event "abc" env_up [standup]).1
    = mkResponse 500 (JError "Failed to delete event")
  ∧ ¬ reports_not_found "abc" env_up [standup].
Proof.
  assert (H : ¬ resolves "abc" [standup])
    by (intros (oid & Hid & _); discriminate Hid).
  split; [done|]. split; [reflexivity|].
  intros Hc. destruct (Hc H) as [Hres _]. discriminate Hres.
Qed.

(** C8 (amended: an empty date parameter counts as none, and a date
    that is an array matches by its elements).  With the store up, GET
    /events answers 200 with a list of events in ascending order of date
    (the order of the store, which on strings is the order of the
    strings) and leaves the collection alone.  With a date parameter that
    is not empty the list holds exactly the stored events whose date is
    that string or is an array with that string among its elements; with
    no date parameter, or an empty one, it holds all stored events.  An
    empty collection, or a date without events, gives the empty list. *)
Theorem get_events_outcomes (q : option string) env c :
  driver_up env = true →
  ∃ events,
    get_events q env c = (mkResponse 200 (JEvents events), c)
    ∧ StronglySorted date_le events
    ∧ (∀ a b s s', date a = VStr s → date b = VStr s' →
                   date_le a b ↔ String.leb s s' = true)
    ∧ (∀ d, q = Some d → d ≠ EmptyString →
       events ≡ₚ filter (λ doc, matches_string d (date doc) = true) c
       ∧ Forall (λ doc, date doc = VStr d
                        ∨ ∃ elems, date doc = VArr elems ∧ VStr d ∈ elems)
                events
       ∧ ∀ doc, doc ∈ c →
                date doc = VStr d
                ∨ (∃ elems, date doc = VArr elems ∧ VStr d ∈ elems) →
                doc ∈ events)
    ∧ (q = None ∨ q = Some EmptyString → events ≡ₚ c)
    ∧ (c = [] → events = [])
    ∧ (∀ d, q = Some d → d ≠ EmptyString →
       (∀ doc, doc ∈ c → matches_string d (date doc) = false) → events = []).
Proof.
  intros Hup. rewrite get_events_unfold, Hup.
  eexists. split; [reflexivity|].
  split; [by apply StronglySorted_merge_sort; apply _|].
  split; [apply date_le_strings|].
  assert (Hq : ∀ d, d ≠ EmptyString → truthy (VStr d) = true).
  { intros d Hd. cbn. apply negb_true_iff, String.eqb_neq. done. }
  split; [|split; [|split]].
  - intros d [= ->] Hd. rewrite Hq by done.
    pose proof (merge_sort_Permutation date_le
                  (filter (λ doc, matches_string d (date doc) = true) c))
      as Hperm.
    split; [done|]. split.
    + rewrite Hperm. apply Forall_forall.
      intros doc [Hm _]%list_elem_of_filter. by apply matches_string_spec.
    + intros doc Hin Hm. rewrite Hperm. apply list_elem_of_filter.
      split; [by apply matches_string_spec|done].
  - intros [-> | ->]; cbn; apply merge_sort_Permutation.
  - intros ->. by destruct q as [d|]; [destruct (truthy (VStr d))|].
  - intros d [= ->] Hd Hno. rewrite Hq by done.
    replace (filter (λ doc, matches_string d (date doc) = true) c)
      with (@nil Doc); [done|].
    symmetry. induction c as [|doc c IH]; [done|].
    rewrite (filter_cons_False (λ doc, matches_string d (date doc) = true) doc c).
    + apply IH. intros doc' Hin. apply Hno. by right.
    + rewrite (Hno doc); [done|by left].
Qed.

Lemma get_events_outcomes_witness :
  driver_up env_up = true
  ∧ get_events (Some "2025-12-01") env_up [standup]
    = (mkResponse 200 (JEvents [standup]), [standup]).
Proof.
  assert (Hup : driver_up env_up = true) by reflexivity.
  destruct (get_events_outcomes (Some "2025-12-01") env_up [standup] Hup)
    as (events & Hget & _ & _ & Hd & _).
  destruct (Hd "2025-12-01" eq_refl ltac:(discriminate)) as [Hperm _].
  change (filter _ [standup]) with [standup] in Hperm.
  apply Permutation_singleton_r in Hperm. subst events.
  exact (conj Hup Hget).
Defined.

(** C8 as stated fails twice.  On an empty date parameter: it is given,
    no stored event has the empty date, and the answer lists the stored
    event all the same.  And on a stored date that is an array: the event
    stored with the dates 2025-12-01 and 2025-12-02 is listed for
    2025-12-01, though its date is not that string. *)
Lemma get_events_empty_date :
  (get_events (Some EmptyString) env_up [standup]).1
  = mkResponse 200 (JEvents [standup])
  ∧ filter (λ doc, is_string EmptyString (date doc) = true) [standup] = []
  ∧ ¬ restricts_to_date EmptyString env_up [standup]
  ∧ (get_events (Some "2025-12-01") env_up [offsite]).1
    = mkResponse 200 (JEvents [offsite])
  ∧ date offsite ≠ VStr "2025-12-01"
  ∧ ¬ restricts_to_date "2025-12-01" env_up [offsite].
Proof.
  split; [reflexivity|]. split; [reflexivity|].
  split.
  { intros (events & Hres & Hperm).
    change (filter _ [standup]) with (@nil Doc) in Hperm.
    apply Permutation_nil_r in Hperm. subst events. discriminate Hres. }
  split; [reflexivity|]. split; [discriminate|].
  intros (events & Hres & Hperm).
  change (filter _ [offsite]) with (@nil Doc) in Hperm.
  apply Permutation_nil_r in Hperm. subst events. discriminate Hres.
Qed.

(** C10. A successful POST /events whose body has no description stores
    an event whose description is the empty string and answers 201 with
    that event; and every event of a collection that the server can
    reach, before and after the request, has a description field. *)
Theorem created_event_has_description req_body env c :
  reachable c →
  (∀ b, req_body = Some b →
        status (post_events req_body env c).1 = 201 →
        body_description b = VUndefined →
        ∃ doc, body (post_events req_body env c).1 = JEvent doc
               ∧ last (post_events req_body env c).2 = Some doc
               ∧ description doc = VStr EmptyString)
  ∧ Forall has_description c
  ∧ Forall has_description (post_events req_body env c).2.
Proof.
  intros Hreach.
  pose proof (reachable_well_formed c Hreach) as [_ Hall].
  pose proof (reachable_well_formed _
                (reachable_step (POST req_body) env c Hreach)) as [_ Hall'].
  cbn [handle] in Hall'.
  split; [|split].
  - intros b -> H201 Hdesc.
    destruct (post_events_created (Some b) env c H201)
      as (b' & [= <-] & Hpost & _).
    cbv zeta in Hpost. rewrite Hpost, Hdesc. cbn.
    eexists. split; [reflexivity|].
    split; [apply last_snoc|reflexivity].
  - eapply Forall_impl; [exact Hall|]. by intros doc (_ & _ & ?).
  - eapply Forall_impl; [exact Hall'|]. by intros doc (_ & _ & ?).
Qed.

Lemma created_event_has_description_witness :
  reachable []
  ∧ status (post_events (Some standup_body) env_up []).1 = 201
  ∧ body_description standup_body = VUndefined
  ∧ (post_events (Some standup_body) env_up []).2 = [standup]
  ∧ Forall has_description [standup].
Proof.
  assert (Hr : reachable []) by constructor.
  destruct (created_event_has_description (Some standup_body) env_up [] Hr)
    as (_ & _ & Hall).
  split; [exact Hr|]. split; [reflexivity|]. split; [reflexivity|].
  split; [reflexivity|]. exact Hall.
Defined.

End Requests.

(** * Further properties of the page *)

Section Layout.
Import Calendar.
Context {host : JsDate.Host}.

(** The counts on a year of the Date range where no day is skipped,
    with their bounds. *)
Lemma grid_counts_bounds year month :
  JsDate.skips_no_day host →
  0 <= month <= 11 → JsDate.year_in_Date_range year →
  ∃ first dim trailing,
    firstDayOfMonth year month = Some first
    ∧ daysInMonth year month = Some dim
    ∧ nextMonthDaysNeeded year month = Some trailing
    ∧ 0 <= first <= 6 ∧ 28 <= dim <= 31 ∧ 0 <= trailing <= 6
    ∧ (first + dim + trailing) mod 7 = 0.
Proof.
  intros Hskip Hm Hy.
  destruct (grid_counts_two_digit year month Hskip Hm Hy) as (Hl & Hd & Ht).
  eexists _, _, _. split; [exact Hl|]. split; [exact Hd|]. split; [exact Ht|].
  set (y := JsDate.two_digit_rule year).
  pose proof (month_length_range y month Hm).
  pose proof (Z.mod_pos_bound (4 + SpecCalendar.days_since_epoch y month) 7
                ltac:(lia)).
  unfold SpecCalendar.weekday_of_first.
  set (l := (4 + SpecCalendar.days_since_epoch y month) mod 7) in *.
  set (d := SpecCalendar.month_length y month) in *.
  pose proof (Z.mod_pos_bound (42 - (l + d)) 7 ltac:(lia)).
  repeat split; try lia.
  Z.to_euclidean_division_equations. lia.
Qed.

(** X1. On every month 0..11 of a year of the Date range the rendered
    grid is made of whole rows of seven cells, one to six of them,
    wherever the host is; and where the zone skips no day the rows are
    four to six: the grid has 28, 35 or 42 cells. *)
Theorem rendered_grid_four_to_six_rows st :
  0 <= currentMonth st <= 11 → JsDate.year_in_Date_range (currentYear st) →
  let n := Z.of_nat (length (calendarGrid (renderCalendar st))) in
  (7 | n) ∧ 7 <= n <= 42
  ∧ (JsDate.skips_no_day host → n = 28 ∨ n = 35 ∨ n = 42).
Proof.
  intros Hm Hy. cbv zeta.
  destruct (grid_counts_numbers _ _ Hm Hy) as (l & d & Hl & Hd & Ht & ? & ?).
  pose proof (Z.mod_pos_bound (42 - (l + d)) 7 ltac:(lia)).
  rewrite (grid_length st l d _ Hl Hd Ht) by lia.
  split; [|split].
  - apply Z.mod_divide; [lia|]. Z.to_euclidean_division_equations. lia.
  - Z.to_euclidean_division_equations. lia.
  - intros Hskip.
    destruct (grid_counts_bounds _ _ Hskip Hm Hy)
      as (l' & d' & t' & Hl' & Hd' & _ & _ & ? & _).
    rewrite Hd in Hd'. injection Hd' as <-.
    Z.to_euclidean_division_equations. lia.
Qed.

(** The time value of day [d] of a month of a year of the Date range. *)
Lemma MakeDay_day y m d :
  0 <= m <= 11 →
  JsDate.MakeDay y m d
  = JsDate.DayFromYear y + JsDate.DaysBeforeMonth y m + (d - 1).
Proof.
  intros Hm. pose proof (MakeDay_first y m Hm) as H.
  unfold JsDate.MakeDay in *. cbv zeta in *. lia.
Qed.

(** The cell of day [d] comes [d - 1] cells after the leading cells. *)
Lemma day_cell_at st dim d :
  daysInMonth (currentYear st) (currentMonth st) = Some dim →
  1 <= d <= dim →
  calendarGrid (renderCalendar st)
    !! (length (leadingCells st) + Z.to_nat (d - 1))%nat
  = Some (dateCell (currentYear st) (currentMonth st) (Some d) false false
            (isToday st d)
            (eventsOn (formatDate (currentYear st) (currentMonth st) (Some d))
                      (staticEvents st))).
Proof.
  intros Hdim Hd.
  rewrite renderCalendar_calendarGrid.
  rewrite lookup_app_r by lia.
  replace (length (leadingCells st) + Z.to_nat (d - 1)
           - length (leadingCells st))%nat
    with (Z.to_nat (d - 1)) by lia.
  rewrite lookup_app_l.
  - unfold activeCells. rewrite list_lookup_fmap, Hdim. cbn [range_le].
    rewrite (lookup_seqZ_lt _ _ _) by lia.
    cbn [fmap option_fmap option_map].
    rewrite Z2Nat.id by lia. by replace (1 + (d - 1)) with d by lia.
  - unfold activeCells. rewrite length_fmap, Hdim. cbn [range_le].
    rewrite length_seqZ. lia.
Qed.

Lemma firstDayOfMonth_range year month first :
  firstDayOfMonth year month = Some first → 0 <= first <= 6.
Proof.
  unfold firstDayOfMonth, JsDate.getDay.
  destruct (JsDate.new_Date _ _ _) as [t|]; [|done].
  cbn. intros [= <-]. apply WeekDay_range.
Qed.

Lemma day_cell_lookup st first dim d :
  firstDayOfMonth (currentYear st) (currentMonth st) = Some first →
  daysInMonth (currentYear st) (currentMonth st) = Some dim →
  1 <= d <= dim →
  calendarGrid (renderCalendar st) !! Z.to_nat (first + d - 1)
  = Some (dateCell (currentYear st) (currentMonth st) (Some d) false false
            (isToday st d)
            (eventsOn (formatDate (currentYear st) (currentMonth st) (Some d))
                      (staticEvents st))).
Proof.
  intros Hfirst Hdim Hd.
  pose proof (firstDayOfMonth_range _ _ _ Hfirst).
  assert (Hlead : length (leadingCells st) = Z.to_nat first).
  { unfold leadingCells. rewrite length_fmap, Hfirst. cbn [range_lt].
    rewrite length_seqZ. lia. }
  rewrite <- (day_cell_at st dim d Hdim Hd), Hlead. f_equal. lia.
Qed.

Lemma not_inactive_class (isToday : bool) :
  "inactive-month" ∉ ["date-cell"] ++ [] ++ (if isToday then ["current-day"] else []).
Proof.
  destruct isToday; cbn; intros Hin;
    repeat (apply elem_of_cons in Hin as [Hin|Hin]; [discriminate Hin|]);
    by apply elem_of_nil in Hin.
Qed.

(** X2. Every day of the month sits under its weekday.  Where the zone
    skips no day, on a month 0..11 of a year of the Date range, the cell
    of day [d] is the cell number [firstDayOfMonth + d - 1] of the grid,
    counted from 0; it is an active cell that shows [d] and carries the
    date string of that day; and its column, the cell number modulo 7, is
    the weekday that [Date] gives for that day. *)
Theorem day_under_its_weekday st first dim d :
  JsDate.skips_no_day host →
  0 <= currentMonth st <= 11 → JsDate.year_in_Date_range (currentYear st) →
  firstDayOfMonth (currentYear st) (currentMonth st) = Some first →
  daysInMonth (currentYear st) (currentMonth st) = Some dim →
  1 <= d <= dim →
  ∃ cell,
    calendarGrid (renderCalendar st) !! Z.to_nat (first + d - 1) = Some cell
    ∧ dayNumber cell = Some d
    ∧ dataset_date cell
      = Some (formatDate (currentYear st) (currentMonth st) (Some d))
    ∧ ("inactive-month" ∉ classes cell)
    ∧ JsDate.getDay (JsDate.new_Date (currentYear st) (currentMonth st) d)
      = Some ((first + d - 1) mod 7).
Proof.
  intros Hskip Hm Hy Hfirst Hdim Hd.
  destruct (grid_counts_bounds _ _ Hskip Hm Hy)
    as (l & dm & t & Hl & Hdm & Ht & ? & ? & ? & Hmod).
  rewrite Hfirst in Hl. injection Hl as <-.
  rewrite Hdim in Hdm. injection Hdm as <-.
  eexists. split; [by apply (day_cell_lookup st first dim d)|].
  split; [reflexivity|]. split; [reflexivity|].
  split; [apply not_inactive_class|].
  unfold firstDayOfMonth in Hfirst.
  rewrite new_Date_in_range in Hfirst |- * by (done || lia).
  cbv zeta in *. cbn [JsDate.getDay fmap option_fmap option_map] in *.
  injection Hfirst as <-. f_equal.
  destruct (local_midnight_getters
              (JsDate.MakeDay (JsDate.two_digit_rule (currentYear st))
                              (currentMonth st) d) Hskip) as (-> & _).
  destruct (local_midnight_getters
              (JsDate.MakeDay (JsDate.two_digit_rule (currentYear st))
                              (currentMonth st) 1) Hskip) as (-> & _).
  unfold JsDate.WeekDay. rewrite !Day_MakeDate, !MakeDay_day by done.
  Z.to_euclidean_division_equations. lia.
Qed.

End Layout.

Lemma rendered_grid_four_to_six_rows_witness :
  Z.of_nat (length (Calendar.calendarGrid
                      (Calendar.renderCalendar (host:=utc)
                                               prompt_without_title))) = 42.
Proof.
  assert (Hm : 0 <= Calendar.currentMonth prompt_without_title <= 11)
    by (vm_compute; split; discriminate).
  assert (Hy : JsDate.year_in_Date_range
                 (Calendar.currentYear prompt_without_title))
    by (vm_compute; split; discriminate).
  destruct (rendered_grid_four_to_six_rows (host:=utc)
              prompt_without_title Hm Hy) as (_ & _ & H).
  destruct (H utc_skips_no_day) as [H'|[H'|H']];
    [vm_compute in H'; discriminate H' ..|exact H'].
Defined.

Lemma day_under_its_weekday_witness :
  ∃ cell,
    Calendar.calendarGrid
      (Calendar.renderCalendar (host:=utc) prompt_without_title) !! 30%nat
    = Some cell
    ∧ Calendar.dayNumber cell = Some 25
    ∧ JsDate.getDay (host:=utc) (JsDate.new_Date (host:=utc) 2025 10 25)
      = Some 2.
Proof.
  assert (Hm : 0 <= Calendar.currentMonth prompt_without_title <= 11)
    by (vm_compute; split; discriminate).
  assert (Hy : JsDate.year_in_Date_range
                 (Calendar.currentYear prompt_without_title))
    by (vm_compute; split; discriminate).
  assert (Hf : firstDayOfMonth (host:=utc)
                 (Calendar.currentYear prompt_without_title)
                 (Calendar.currentMonth prompt_without_title) = Some 6)
    by (vm_compute; reflexivity).
  assert (Hd : daysInMonth (host:=utc)
                 (Calendar.currentYear prompt_without_title)
                 (Calendar.currentMonth prompt_without_title) = Some 30)
    by (vm_compute; reflexivity).
  assert (H25 : 1 <= 25 <= 30) by lia.
  destruct (day_under_its_weekday (host:=utc) prompt_without_title 6 30 25
              utc_skips_no_day Hm Hy Hf Hd H25)
    as (cell & Hlook & Hnum & _ & _ & Hday).
  exists cell. split; [exact Hlook|]. split; [exact Hnum|]. exact Hday.
Defined.

(** In the Line Islands the grid of December 1994 is one row: four
    leading cells, the first of the month, and two trailing cells. *)
Example grid_of_december_1994_line_islands :
  length (Calendar.calendarGrid
            (Calendar.renderCalendar (host:=line_islands)
               (Calendar.set_view 1994 11 prompt_without_title))) = 7%nat.
Proof. by vm_compute. Qed.

Section Cells.
Import Calendar.
Context {host : JsDate.Host}.

Lemma daysInMonth_at_most_31 year month dim :
  daysInMonth year month = Some dim → 1 <= dim <= 31.
Proof.
  unfold daysInMonth, JsDate.getDate.
  destruct (JsDate.new_Date year (month + 1) 0) as [t|]; [|done].
  cbn. intros [= <-]. apply DateFromTime_range.
Qed.

Lemma filler_cell_bare y m day isPrev :
  let c := dateCell y m day true isPrev false [] in
  ("inactive-month" ∈ classes c) ∧ ("current-day" ∉ classes c)
  ∧ dataset_date c = None ∧ onclick c = None ∧ children c = [].
Proof.
  cbv zeta. unfold dateCell. cbn [classes dataset_date onclick children app].
  split; [rewrite !elem_of_cons; auto|]. split; [|done].
  intros Hin. repeat (apply elem_of_cons in Hin as [Hin|Hin]; [discriminate Hin|]).
  by apply elem_of_nil in Hin.
Qed.

(** A cell of a list of cells made one per value of a range. *)
Lemma lookup_cells (mk : Z → Cell) from bound k cell :
  (mk <$> range_le from bound) !! k = Some cell →
  ∃ b, bound = Some b ∧ from + Z.of_nat k <= b ∧ cell = mk (from + Z.of_nat k).
Proof.
  intros (x & -> & Hx)%list_lookup_fmap_Some.
  destruct bound as [b|]; [|cbn [range_le] in Hx; by rewrite lookup_nil in Hx].
  cbn [range_le] in Hx. apply lookup_seqZ in Hx as [-> Hlt].
  exists b. split; [done|]. split; [lia|done].
Qed.


Lemma leading_lookup st i cell :
  leadingCells st !! i = Some cell →
  ("inactive-month" ∈ classes cell) ∧ ("current-day" ∉ classes cell)
   ∧ dataset_date cell = None ∧ onclick cell = None ∧ children cell = [].
Proof.
  unfold leadingCells.
  intros (x & -> & _)%list_lookup_fmap_Some. apply filler_cell_bare.
Qed.

Lemma trailing_lookup st i cell :
  trailingCells st !! i = Some cell →
  ("inactive-month" ∈ classes cell) ∧ ("current-day" ∉ classes cell)
   ∧ dataset_date cell = None ∧ onclick cell = None ∧ children cell = [].
Proof.
  unfold trailingCells.
  intros (x & -> & _)%list_lookup_fmap_Some. apply filler_cell_bare.
Qed.

Lemma active_lookup st k cell :
  activeCells st !! k = Some cell →
  ∃ dim,
    daysInMonth (currentYear st) (currentMonth st) = Some dim
    ∧ 1 + Z.of_nat k <= dim
    ∧ cell = dateCell (currentYear st) (currentMonth st)
               (Some (1 + Z.of_nat k)) false false
               (isToday st (1 + Z.of_nat k))
               (eventsOn (formatDate (currentYear st) (currentMonth st)
                                     (Some (1 + Z.of_nat k)))
                         (staticEvents st)).
Proof. unfold activeCells. apply lookup_cells. Qed.

(** What the cell number [i] of a rendered grid can be: a filler cell, or
    the cell of a day of the month, which comes [day - 1] cells after the
    leading cells. *)
Lemma grid_lookup st i cell :
  calendarGrid (renderCalendar st) !! i = Some cell →
  (("inactive-month" ∈ classes cell) ∧ ("current-day" ∉ classes cell)
   ∧ dataset_date cell = None ∧ onclick cell = None ∧ children cell = [])
  ∨ ∃ day dim,
      daysInMonth (currentYear st) (currentMonth st) = Some dim
      ∧ 1 <= day <= dim
      ∧ i = (length (leadingCells st) + Z.to_nat (day - 1))%nat
      ∧ cell = dateCell (currentYear st) (currentMonth st) (Some day) false false
                 (isToday st day)
                 (eventsOn (formatDate (currentYear st) (currentMonth st)
                                       (Some day))
                           (staticEvents st)).
Proof.
  rewrite renderCalendar_calendarGrid.
  intros [Hlead | [Hlen Hrest]]%lookup_app_Some.
  - left. by eapply leading_lookup.
  - apply lookup_app_Some in Hrest as [Hact | [_ Htrail]].
    + right. apply active_lookup in Hact as (dim & Hdim & Hle & ->).
      revert Hlen Hle. generalize (length (leadingCells st)). intros n Hlen Hle.
      exists (1 + Z.of_nat (i - n)), dim.
      split; [exact Hdim|]. split; [lia|]. split; [lia|]. reflexivity.
    + left. by eapply trailing_lookup.
Qed.

(** X3. Only the cells of the displayed month can be clicked or show
    events: in a rendered grid a cell either carries the class
    "inactive-month", and then has no date, no click listener and no event
    box, whatever events the list holds, or it carries a date, and then
    its listener opens the prompt on that same date. *)
Theorem filler_cells_inert st cell :
  cell ∈ calendarGrid (renderCalendar st) →
  onclick cell = dataset_date cell
  ∧ (("inactive-month" ∈ classes cell) ↔ dataset_date cell = None)
  ∧ (dataset_date cell = None → children cell = []).
Proof.
  intros (i & Hi)%list_elem_of_lookup.
  destruct (grid_lookup st i cell Hi)
    as [(Hin & _ & Hd & Hc & Hch) | (day & dim & _ & _ & _ & ->)].
  - rewrite Hd, Hc. done.
  - split; [reflexivity|]. split; [|done]. split; [|done].
    cbn. destruct (isToday st day); intros Hin;
      repeat (apply elem_of_cons in Hin as [Hin|Hin]; [discriminate Hin|]);
      by apply elem_of_nil in Hin.
Qed.

(** X4. Today is highlighted at most once, and only in its own month:
    two cells of a rendered grid that carry the class "current-day" are
    the same cell, that cell shows today's day of the month, and the view
    is then on today's month and year, all three as the local time of the
    host has them. *)
Theorem today_highlighted_at_most_once st i j ci cj :
  calendarGrid (renderCalendar st) !! i = Some ci →
  calendarGrid (renderCalendar st) !! j = Some cj →
  "current-day" ∈ classes ci → "current-day" ∈ classes cj →
  i = j
  ∧ dayNumber ci = Some (JsDate.DateFromTime (JsDate.LocalTime (today st)))
  ∧ currentMonth st = JsDate.MonthFromTime (JsDate.LocalTime (today st))
  ∧ currentYear st = JsDate.YearFromTime (JsDate.LocalTime (today st)).
Proof.
  assert (Hcur : ∀ i c,
             calendarGrid (renderCalendar st) !! i = Some c →
             "current-day" ∈ classes c →
             i = (length (leadingCells st)
                  + Z.to_nat (JsDate.DateFromTime
                                (JsDate.LocalTime (today st)) - 1))%nat
             ∧ dayNumber c
               = Some (JsDate.DateFromTime (JsDate.LocalTime (today st)))
             ∧ currentMonth st
               = JsDate.MonthFromTime (JsDate.LocalTime (today st))
             ∧ currentYear st
               = JsDate.YearFromTime (JsDate.LocalTime (today st))).
  { intros i' c Hi Hc.
    destruct (grid_lookup st i' c Hi)
      as [(_ & Hno & _) | (day & dim & _ & Hday & -> & ->)]; [done|].
    cbn in Hc. unfold isToday in Hc.
    destruct (Z.eqb_spec day
                (JsDate.DateFromTime (JsDate.LocalTime (today st))))
      as [Heq|Hne];
      destruct (Z.eqb_spec (currentMonth st)
                  (JsDate.MonthFromTime (JsDate.LocalTime (today st))));
      destruct (Z.eqb_spec (currentYear st)
                  (JsDate.YearFromTime (JsDate.LocalTime (today st))));
      cbn in Hc; try (by subst day);
      repeat (apply elem_of_cons in Hc as [Hc|Hc]; [discriminate Hc|]);
      by apply elem_of_nil in Hc. }
  intros Hi Hj Hci Hcj.
  destruct (Hcur i ci Hi Hci) as (-> & ? & ? & ?).
  destruct (Hcur j cj Hj Hcj) as (-> & _). done.
Qed.

(** X5. The page highlights today when it loads.  Where the zone skips
    no day, when the three readings of the clock at the load fall in one
    local month, of a year that lies in the Date range and is not one of
    0..99, the grid of the loaded page has a cell with the class
    "current-day", and that cell is the active cell of today's day of the
    month. *)
Theorem load_highlights_today now1 now2 now3 mk :
  JsDate.skips_no_day host →
  let year := JsDate.YearFromTime (JsDate.LocalTime now3) in
  let month := JsDate.MonthFromTime (JsDate.LocalTime now3) in
  let day := JsDate.DateFromTime (JsDate.LocalTime now3) in
  JsDate.YearFromTime (JsDate.LocalTime now1) = year →
  JsDate.MonthFromTime (JsDate.LocalTime now2) = month →
  JsDate.year_in_Date_range year → ¬ (0 <= year <= 99) →
  ∃ cell, cell ∈ calendarGrid (load now1 now2 now3 mk)
          ∧ ("current-day" ∈ classes cell)
          ∧ dayNumber cell = Some day
          ∧ dataset_date cell = Some (formatDate year month (Some day)).
Proof.
  intros Hskip year month day Hy1 Hm2 Hrange H99. unfold load.
  rewrite Hy1, Hm2. fold year month.
  set (st := mkState _ _ _ _ _ _ _ _ _).
  pose proof (MonthFromTime_range (JsDate.LocalTime now3)) as Hmr.
  fold month in Hmr.
  pose proof (DateFromTime_in_month (JsDate.LocalTime now3)) as Hdate.
  fold year month day in Hdate.
  destruct (grid_counts_two_digit year month Hskip Hmr Hrange)
    as (Hl & Hd & _).
  rewrite two_digit_rule_outside in Hl, Hd by done.
  pose proof (day_cell_lookup st _ _ day Hl Hd Hdate) as Hlook.
  eexists. split; [by eapply list_elem_of_lookup_2|].
  split; [|split; reflexivity].
  cbn. unfold isToday. cbn [today currentMonth currentYear st].
  fold year month day. rewrite !Z.eqb_refl. cbn. rewrite !elem_of_cons; auto.
Qed.

End Cells.

Lemma filler_cells_inert_witness :
  ∃ cell,
    Calendar.calendarGrid
      (Calendar.renderCalendar (host:=utc) prompt_without_title) !! 5%nat
    = Some cell
    ∧ ("inactive-month" ∈ Calendar.classes cell)
    ∧ Calendar.children cell = [].
Proof.
  set (cell := Calendar.dateCell 2025 10 (Some 31) true true false []).
  assert (Hlook : Calendar.calendarGrid
                    (Calendar.renderCalendar (host:=utc) prompt_without_title)
                    !! 5%nat = Some cell) by (vm_compute; reflexivity).
  assert (Hin : cell ∈ Calendar.calendarGrid
                         (Calendar.renderCalendar (host:=utc)
                                                  prompt_without_title))
    by (apply list_elem_of_lookup; by exists 5%nat).
  destruct (filler_cells_inert (host:=utc) prompt_without_title cell Hin)
    as (_ & Hcls & Hch).
  exists cell. split; [exact Hlook|]. split; [by apply Hcls|]. by apply Hch.
Defined.

Lemma today_highlighted_at_most_once_witness :
  ∃ cell,
    Calendar.calendarGrid
      (Calendar.renderCalendar (host:=utc) prompt_without_title) !! 29%nat
    = Some cell
    ∧ ("current-day" ∈ Calendar.classes cell)
    ∧ Calendar.dayNumber cell
      = Some (JsDate.DateFromTime
                (JsDate.LocalTime (host:=utc)
                   (Calendar.today prompt_without_title)))
    ∧ Calendar.dayNumber cell = Some 24.
Proof.
  set (cell := Calendar.dateCell 2025 10 (Some 24) false false true []).
  assert (Hlook : Calendar.calendarGrid
                    (Calendar.renderCalendar (host:=utc) prompt_without_title)
                    !! 29%nat = Some cell) by (vm_compute; reflexivity).
  assert (Hc : "current-day" ∈ Calendar.classes cell)
    by (cbn; rewrite !elem_of_cons; auto).
  destruct (today_highlighted_at_most_once (host:=utc) prompt_without_title
              29 29 cell cell Hlook Hlook Hc Hc) as (_ & Hn & _).
  exists cell. split; [exact Hlook|]. split; [exact Hc|].
  split; [exact Hn|reflexivity].
Defined.

Lemma load_highlights_today_witness :
  ∃ cell,
    cell ∈ Calendar.calendarGrid
             (Calendar.load (host:=utc) 1764000000000 1764000000001
                            1764000000002 page_markup)
    ∧ ("current-day" ∈ Calendar.classes cell)
    ∧ Calendar.dayNumber cell = Some 24.
Proof.
  assert (Hy1 : JsDate.YearFromTime (JsDate.LocalTime (host:=utc) 1764000000000)
                = JsDate.YearFromTime
                    (JsDate.LocalTime (host:=utc) 1764000000002))
    by (vm_compute; reflexivity).
  assert (Hm2 : JsDate.MonthFromTime (JsDate.LocalTime (host:=utc) 1764000000001)
                = JsDate.MonthFromTime
                    (JsDate.LocalTime (host:=utc) 1764000000002))
    by (vm_compute; reflexivity).
  assert (Hr : JsDate.year_in_Date_range
                 (JsDate.YearFromTime
                    (JsDate.LocalTime (host:=utc) 1764000000002)))
    by (vm_compute; split; discriminate).
  assert (H99 : ¬ (0 <= JsDate.YearFromTime
                          (JsDate.LocalTime (host:=utc) 1764000000002) <= 99))
    by (vm_compute; intros [_ H]; by apply H).
  destruct (load_highlights_today (host:=utc) 1764000000000 1764000000001
              1764000000002 page_markup utc_skips_no_day Hy1 Hm2 Hr H99)
    as (cell & Hin & Hc & Hn & _).
  exists cell. split; [exact Hin|]. split; [exact Hc|]. exact Hn.
Defined.

Section LeadingCells.
Import Calendar.
Context {host : JsDate.Host}.



End LeadingCells.


Section Views.
Import Calendar.
Context {host : JsDate.Host}.

(** X6. Past the range of Date nothing is drawn: for a month 0..11 of a
    year after 275760 or before -271821 the three counts are NaN, no loop
    of [renderCalendar] runs, and the grid is empty, wherever the host
    is. *)
Theorem grid_empty_past_Date_range st :
  0 <= currentMonth st <= 11 →
  currentYear st < -271821 ∨ 275760 < currentYear st →
  firstDayOfMonth (currentYear st) (currentMonth st) = None
  ∧ daysInMonth (currentYear st) (currentMonth st) = None
  ∧ nextMonthDaysNeeded (currentYear st) (currentMonth st) = None
  ∧ calendarGrid (renderCalendar st) = [].
Proof.
  intros Hm Hy.
  destruct (grid_counts_nan _ _ Hm Hy) as (Hfirst & Hdim & Hnext).
  split; [done|]. split; [done|]. split; [done|].
  rewrite renderCalendar_calendarGrid.
  unfold leadingCells, activeCells, trailingCells.
  by rewrite Hfirst, Hdim, Hnext.
Qed.

(** Rendering reads the globals but neither the grid nor the header. *)
Lemma renderCalendar_set_grid g st :
  renderCalendar (set_grid g st) = renderCalendar st.
Proof. rewrite !renderCalendar_grid. state_fields. reflexivity. Qed.

Lemma renderCalendar_set_header text st :
  renderCalendar (set_header text st) = renderCalendar st.
Proof. rewrite !renderCalendar_grid. state_fields. reflexivity. Qed.

(** X7. Rendering starts from an empty grid and writes the header anew:
    the result depends neither on the cells nor on the header text that
    were there, rendering twice gives what rendering once gives, and
    rendering changes nothing but the grid and the header, which it sets
    to the text that the locale gives for the first of the month. *)
Theorem renderCalendar_idempotent st g text :
  renderCalendar (set_grid g st) = renderCalendar st
  ∧ renderCalendar (set_header text st) = renderCalendar st
  ∧ renderCalendar (renderCalendar st) = renderCalendar st
  ∧ set_header text (set_grid g (renderCalendar st))
    = set_header text (set_grid g st)
  ∧ currentMonthYearDisplay (renderCalendar st)
    = JsDate.toLocaleDateString
        (JsDate.new_Date (currentYear st) (currentMonth st) 1).
Proof.
  split; [apply renderCalendar_set_grid|].
  split; [apply renderCalendar_set_header|].
  split; [|split; rewrite renderCalendar_grid; state_fields; reflexivity].
  rewrite (renderCalendar_grid st) at 1.
  by rewrite renderCalendar_set_grid, renderCalendar_set_header.
Qed.

Lemma renderCalendar_set_view y m st :
  y = currentYear st → m = currentMonth st →
  renderCalendar (set_view y m st) = renderCalendar st.
Proof. intros -> ->. destruct st. reflexivity. Qed.

(** Moving the view after a render is moving it before. *)
Lemma renderCalendar_view_after_render y m st :
  renderCalendar (set_view y m (renderCalendar st))
  = renderCalendar (set_view y m st).
Proof. rewrite !renderCalendar_grid. state_fields. reflexivity. Qed.

Lemma set_view_set_view y m y' m' st :
  set_view y m (set_view y' m' st) = set_view y m st.
Proof. reflexivity. Qed.

(** X8. PREV and NEXT undo each other: from a state whose month is in
    0..11, NEXT after PREV, and PREV after NEXT, give the page that
    rendering the state itself gives, so the view, the event list, the
    form and the grid are those of before. *)
Theorem prev_next_round_trip st :
  0 <= currentMonth st <= 11 →
  nextMonth_click (prevMonth_click st) = renderCalendar st
  ∧ prevMonth_click (nextMonth_click st) = renderCalendar st.
Proof.
  intros Hm. split.
  - unfold nextMonth_click. cbv zeta.
    destruct (prevMonth_view st) as [-> ->].
    unfold prevMonth_click. cbv zeta.
    destruct (Z.ltb_spec (currentMonth st - 1) 0).
    + replace (11 <? 11 + 1) with true by reflexivity.
      rewrite renderCalendar_view_after_render, set_view_set_view.
      apply renderCalendar_set_view; lia.
    + destruct (Z.ltb_spec 11 (currentMonth st - 1 + 1)); [lia|].
      rewrite renderCalendar_view_after_render, set_view_set_view.
      apply renderCalendar_set_view; lia.
  - unfold prevMonth_click. cbv zeta.
    destruct (nextMonth_view st) as [-> ->].
    unfold nextMonth_click. cbv zeta.
    destruct (Z.ltb_spec 11 (currentMonth st + 1)).
    + replace (0 - 1 <? 0) with true by reflexivity.
      rewrite renderCalendar_view_after_render, set_view_set_view.
      apply renderCalendar_set_view; lia.
    + destruct (Z.ltb_spec (currentMonth st + 1 - 1) 0); [lia|].
      rewrite renderCalendar_view_after_render, set_view_set_view.
      apply renderCalendar_set_view; lia.
Qed.

(** The months counted from the year 0: the view as one number. *)
Lemma nextMonth_index st :
  0 <= currentMonth st <= 11 →
  12 * currentYear (nextMonth_click st) + currentMonth (nextMonth_click st)
  = 12 * currentYear st + currentMonth st + 1
  ∧ 0 <= currentMonth (nextMonth_click st) <= 11.
Proof.
  intros Hm. destruct (nextMonth_view st) as [-> ->].
  destruct (Z.ltb_spec 11 (currentMonth st + 1)); lia.
Qed.

Lemma prevMonth_index st :
  0 <= currentMonth st <= 11 →
  12 * currentYear (prevMonth_click st) + currentMonth (prevMonth_click st)
  = 12 * currentYear st + currentMonth st - 1
  ∧ 0 <= currentMonth (prevMonth_click st) <= 11.
Proof.
  intros Hm. destruct (prevMonth_view st) as [-> ->].
  destruct (Z.ltb_spec (currentMonth st - 1) 0); lia.
Qed.

Lemma iter_next_index st n :
  0 <= currentMonth st <= 11 →
  12 * currentYear (Nat.iter n nextMonth_click st)
  + currentMonth (Nat.iter n nextMonth_click st)
  = 12 * currentYear st + currentMonth st + Z.of_nat n
  ∧ 0 <= currentMonth (Nat.iter n nextMonth_click st) <= 11.
Proof.
  intros Hm. induction n as [|n [IH1 IH2]]; [cbn; lia|].
  change (Nat.iter (S n) nextMonth_click st)
    with (nextMonth_click (Nat.iter n nextMonth_click st)).
  destruct (nextMonth_index _ IH2). lia.
Qed.

Lemma iter_prev_index st n :
  0 <= currentMonth st <= 11 →
  12 * currentYear (Nat.iter n prevMonth_click st)
  + currentMonth (Nat.iter n prevMonth_click st)
  = 12 * currentYear st + currentMonth st - Z.of_nat n
  ∧ 0 <= currentMonth (Nat.iter n prevMonth_click st) <= 11.
Proof.
  intros Hm. induction n as [|n [IH1 IH2]]; [cbn; lia|].
  change (Nat.iter (S n) prevMonth_click st)
    with (prevMonth_click (Nat.iter n prevMonth_click st)).
  destruct (prevMonth_index _ IH2). lia.
Qed.

(** X9. Navigation counts months: from a state whose month is in 0..11,
    [n] clicks on NEXT lead to the month that lies [n] months later, and
    [n] clicks on PREV to the month [n] months earlier, the year being
    the quotient and the month the remainder of the month count by 12; in
    particular twelve clicks change the year by one and keep the month. *)
Theorem navigation_counts_months st n :
  0 <= currentMonth st <= 11 →
  let idx := 12 * currentYear st + currentMonth st in
  let fwd := Nat.iter n nextMonth_click st in
  let bwd := Nat.iter n prevMonth_click st in
  currentYear fwd = (idx + Z.of_nat n) / 12
  ∧ currentMonth fwd = (idx + Z.of_nat n) mod 12
  ∧ currentYear bwd = (idx - Z.of_nat n) / 12
  ∧ currentMonth bwd = (idx - Z.of_nat n) mod 12
  ∧ (n = 12%nat → currentYear fwd = currentYear st + 1
                  ∧ currentMonth fwd = currentMonth st).
Proof.
  intros Hm. cbv zeta.
  destruct (iter_next_index st n Hm) as [Hf1 Hf2].
  destruct (iter_prev_index st n Hm) as [Hb1 Hb2].
  split; [Z.to_euclidean_division_equations; lia|].
  split; [Z.to_euclidean_division_equations; lia|].
  split; [Z.to_euclidean_division_equations; lia|].
  split; [Z.to_euclidean_division_equations; lia|].
  intros ->. change (Z.of_nat 12) with 12 in Hf1. lia.
Qed.

(** X10. The page never loses an event: whatever the user does, the
    event list of before is the beginning of the event list of after, in
    the same order; only a submission that reaches the handler makes it
    longer, by the one event of the form. *)
Theorem events_only_grow acts st :
  staticEvents st `prefix_of` staticEvents (run acts st)
  ∧ (length (staticEvents (run acts st))
     ≤ length (staticEvents st)
       + length (filter (λ a, is_submit a = true) acts))%nat.
Proof.
  induction acts as [|a acts [IH1 IH2]] using rev_ind;
    [split; [reflexivity | cbn; lia]|].
  rewrite run_snoc, filter_app, length_app.
  set (st1 := run acts st) in *.
  destruct (step_events a st1) as [-> | (Hs & _ & ->)].
  - split; [done|]. lia.
  - split; [by apply prefix_app_r|].
    rewrite (filter_cons_True (λ a, is_submit a = true) a []) by done.
    rewrite length_app. cbn. lia.
Qed.

End Views.

Lemma grid_empty_past_Date_range_witness :
  Calendar.calendarGrid
    (Calendar.renderCalendar (host:=line_islands)
       (Calendar.set_view 275761 0 prompt_without_title)) = [].
Proof.
  assert (Hm : 0 <= Calendar.currentMonth
                      (Calendar.set_view 275761 0 prompt_without_title) <= 11)
    by (cbn; lia).
  assert (Hy : Calendar.currentYear
                 (Calendar.set_view 275761 0 prompt_without_title) < -271821
               ∨ 275760 < Calendar.currentYear
                            (Calendar.set_view 275761 0 prompt_without_title))
    by (right; cbn; lia).
  exact (proj2 (proj2 (proj2
           (grid_empty_past_Date_range (host:=line_islands) _ Hm Hy)))).
Defined.

Lemma prev_next_round_trip_witness :
  0 <= Calendar.currentMonth prompt_without_title <= 11
  ∧ Calendar.nextMonth_click (host:=utc)
      (Calendar.prevMonth_click (host:=utc) prompt_without_title)
    = Calendar.renderCalendar (host:=utc) prompt_without_title.
Proof.
  assert (Hm : 0 <= Calendar.currentMonth prompt_without_title <= 11)
    by (vm_compute; split; discriminate).
  exact (conj Hm (proj1 (prev_next_round_trip (host:=utc)
                           prompt_without_title Hm))).
Defined.

Lemma navigation_counts_months_witness :
  Calendar.currentYear
    (Nat.iter 3 (Calendar.nextMonth_click (host:=utc)) prompt_without_title)
  = 2026
  ∧ Calendar.currentMonth
      (Nat.iter 3 (Calendar.nextMonth_click (host:=utc)) prompt_without_title)
    = 1.
Proof.
  assert (Hm : 0 <= Calendar.currentMonth prompt_without_title <= 11)
    by (vm_compute; split; discriminate).
  destruct (navigation_counts_months (host:=utc) prompt_without_title 3 Hm)
    as (Hy & Hmo & _).
  split; [exact Hy | exact Hmo].
Defined.

Section DateStrings.
Import Calendar.
Context {host : JsDate.Host}.

Lemma string_app_length (s t : string) :
  String.length (s +:+ t) = (String.length s + String.length t)%nat.
Proof.
  induction s as [|c s IH]; [done|].
  change (String c s +:+ t) with (String c (s +:+ t)).
  cbn [String.length]. by rewrite IH.
Qed.

Lemma string_app_inj_l (s t1 t2 : string) : s +:+ t1 = s +:+ t2 → t1 = t2.
Proof.
  induction s as [|c s IH]; [done|].
  change (String c s +:+ ?t) with (String c (s +:+ t)).
  intros [= H]. by apply IH.
Qed.

(** Two strings with tails of one length are equal part by part. *)
Lemma string_app_inj_length (s1 s2 t1 t2 : string) :
  s1 +:+ t1 = s2 +:+ t2 → String.length t1 = String.length t2 →
  s1 = s2 ∧ t1 = t2.
Proof.
  revert s2. induction s1 as [|c s1 IH]; intros [|c' s2];
    change (String ?a ?s +:+ ?t) with (String a (s +:+ t));
    change (EmptyString +:+ ?t) with t.
  - done.
  - intros -> Hlen. cbn [String.length] in Hlen.
    rewrite string_app_length in Hlen. lia.
  - intros <- Hlen. cbn [String.length] in Hlen.
    rewrite string_app_length in Hlen. lia.
  - intros [= -> H] Hlen. destruct (IH _ H Hlen) as [-> ->]. done.
Qed.

(** The two-character fields of a date string, on the numbers 0..99:
    they have two characters, and they read back as the number. *)
Lemma two_digit_field x :
  0 <= x <= 99 →
  String.length (padStart 2 "0" (toString (Some x))) = 2%nat
  ∧ ∀ x', 0 <= x' <= 99 →
          padStart 2 "0" (toString (Some x))
          = padStart 2 "0" (toString (Some x')) → x = x'.
Proof.
  set (field := λ x : Z, padStart 2 "0" (toString (Some x))).
  set (read := λ s : string,
         match s with
         | String a (String b EmptyString) =>
             (Z.of_N (Ascii.N_of_ascii a) - 48) * 10
             + (Z.of_N (Ascii.N_of_ascii b) - 48)
         | _ => -1
         end).
  assert (Hall : forallb (λ x, (String.length (field x) =? 2)%nat
                               && (read (field x) =? x))
                         (seqZ 0 100) = true) by (vm_compute; reflexivity).
  assert (Hread : ∀ x, 0 <= x <= 99 →
                       String.length (field x) = 2%nat ∧ read (field x) = x).
  { intros z Hz. rewrite forallb_forall in Hall.
    specialize (Hall z). rewrite andb_true_iff, Nat.eqb_eq, Z.eqb_eq in Hall.
    apply Hall, list_elem_of_In, elem_of_seqZ. lia. }
  intros Hx. split; [by apply Hread|].
  intros x' Hx' Heq. fold (field x) (field x') in Heq.
  destruct (Hread x Hx) as [_ <-], (Hread x' Hx') as [_ <-]. by rewrite Heq.
Qed.

Lemma formatDate_fields y m d y' m' d' :
  0 <= m <= 11 → 1 <= d <= 31 → 0 <= m' <= 11 → 1 <= d' <= 31 →
  formatDate y m (Some d) = formatDate y' m' (Some d') →
  y = y' ∧ m = m' ∧ d = d'.
Proof.
  intros Hm Hd Hm' Hd'. unfold formatDate. cbv zeta.
  destruct (two_digit_field (m + 1) ltac:(lia)) as [Hlm Him].
  destruct (two_digit_field d ltac:(lia)) as [Hld Hid].
  destruct (two_digit_field (m' + 1) ltac:(lia)) as [Hlm' _].
  destruct (two_digit_field d' ltac:(lia)) as [Hld' _].
  intros Heq.
  apply string_app_inj_length in Heq as [Hy Heq];
    [|rewrite !string_app_length, Hlm, Hld, Hlm', Hld'; reflexivity].
  unfold toString in Hy. apply pretty_Z_inj in Hy.
  apply string_app_inj_l in Heq.
  apply string_app_inj_length in Heq as [Hmm Heq];
    [|rewrite !string_app_length, Hld, Hld'; reflexivity].
  apply string_app_inj_l in Heq.
  apply Him in Hmm; [|lia]. apply Hid in Heq; [|lia].
  split; [done|]. split; [lia|done].
Qed.

(** X11. A date string names one day only: for months 0..11 and days
    1..31, [formatDate] gives the decimal year, a dash, the month number
    in two characters, a dash and the day in two characters, six
    characters after the year, and two calls that give the same string
    were given the same year, month and day. *)
Theorem formatDate_injective y m d y' m' d' :
  0 <= m <= 11 → 1 <= d <= 31 → 0 <= m' <= 11 → 1 <= d' <= 31 →
  (String.length (formatDate y m (Some d))
   = String.length (toString (Some y)) + 6)%nat
  ∧ (formatDate y m (Some d) = formatDate y' m' (Some d') →
     y = y' ∧ m = m' ∧ d = d').
Proof.
  intros Hm Hd Hm' Hd'. split; [|by apply formatDate_fields].
  destruct (two_digit_field (m + 1) ltac:(lia)) as [Hlm _].
  destruct (two_digit_field d ltac:(lia)) as [Hld _].
  unfold formatDate. cbv zeta.
  rewrite !string_app_length, Hlm, Hld. cbn. lia.
Qed.

Lemma formatDate_nonempty y m d : formatDate y m d ≠ EmptyString.
Proof.
  intros H. apply (f_equal String.length) in H.
  unfold formatDate in H. cbv zeta in H.
  rewrite !string_app_length in H. cbn in H. lia.
Qed.

(** X12. No event is drawn twice.  In a rendered grid, a cell that
    carries the date of an event of the list holds a box for that event;
    no other cell carries that date; and every other cell holds boxes of
    events of other dates only. *)
Theorem event_drawn_in_its_cell_only st i j ci cj e :
  calendarGrid (renderCalendar st) !! i = Some ci →
  calendarGrid (renderCalendar st) !! j = Some cj →
  e ∈ staticEvents st →
  dataset_date ci = Some (date e) →
  let dayEvents := eventsOn (date e) (staticEvents st) in
  eventDiv (hasConflict dayEvents) e ∈ children ci
  ∧ (dataset_date cj = Some (date e) → i = j)
  ∧ (i ≠ j →
     ∃ others n, children cj = eventDiv n <$> others
                 ∧ Forall (λ e', date e' ≠ date e) others).
Proof.
  intros Hi Hj He Hdate. cbv zeta.
  assert (Hci : ci ∈ calendarGrid (renderCalendar st))
    by by eapply list_elem_of_lookup_2.
  assert (Hsame : dataset_date cj = Some (date e) → i = j).
  { intros Hdate'.
    destruct (grid_lookup st i ci Hi)
      as [(_ & _ & Hnone & _) | (d & dim & Hdim & Hd & -> & ->)];
      [congruence|].
    destruct (grid_lookup st j cj Hj)
      as [(_ & _ & Hnone & _) | (d' & dim' & Hdim' & Hd' & -> & ->)];
      [congruence|].
    rewrite Hdim in Hdim'. injection Hdim' as <-.
    pose proof (daysInMonth_at_most_31 _ _ _ Hdim).
    cbn in Hdate, Hdate'. rewrite <- Hdate' in Hdate. injection Hdate as Heq.
    unfold formatDate in Heq. cbv zeta in Heq.
    do 4 apply string_app_inj_l in Heq.
    destruct (two_digit_field d ltac:(lia)) as [_ Hinj].
    apply Hinj in Heq; [|lia]. by subst d'. }
  split; [|split; [done|]].
  - rewrite (dated_cell_children st ci (date e) Hci Hdate). cbv zeta.
    apply list_elem_of_fmap_2. unfold eventsOn.
    by apply list_elem_of_filter.
  - intros Hne.
    destruct (grid_lookup st j cj Hj)
      as [(_ & _ & _ & _ & ->) | (d' & dim' & _ & _ & _ & ->)].
    + exists [], 0. done.
    + eexists _, _. split; [apply dateCell_children|].
      apply Forall_forall. intros e' [He' _]%list_elem_of_filter Heq.
      apply Hne, Hsame. cbn. by rewrite <- Heq, He'.
Qed.

(** X13. An event added through the prompt lands in the cell that was
    clicked.  Take a rendered page and click a cell that has a listener,
    on a page whose date input keeps the date string of the cell; type a
    title that is not empty and any time and duration, without touching
    the date, and submit: the submission is carried out, the event list
    gains one event of the date of the clicked cell, the view is the
    same, and in the new grid the cell of the same number carries that
    date and holds the boxes of the events that were already on that date
    followed by the box of the new one, all flagged by the new count. *)
Theorem clicked_cell_gets_the_event st i cell ds t tm du :
  calendarGrid (renderCalendar st) !! i = Some cell →
  onclick cell = Some ds →
  event_date_assign (markup st) ds = ds →
  t ≠ EmptyString →
  let st1 := step (OPEN_PROMPT ds) (renderCalendar st) in
  let st2 := step (TYPE (mkForm t (event_date (form st1)) tm du)) st1 in
  let st3 := step SUBMIT st2 in
  let new := mkEvent t ds tm du in
  let dayEvents := eventsOn ds (staticEvents st) ++ [new] in
  modal_display st1 = "block"
  ∧ event_date (form st1) = ds
  ∧ staticEvents st3 = staticEvents st ++ [new]
  ∧ currentYear st3 = currentYear st ∧ currentMonth st3 = currentMonth st
  ∧ modal_display st3 = "none"
  ∧ form st3 = input_values (markup st)
  ∧ ∃ cell', calendarGrid st3 !! i = Some cell'
             ∧ dataset_date cell' = Some ds
             ∧ dayNumber cell' = dayNumber cell
             ∧ children cell' = eventDiv (hasConflict dayEvents) <$> dayEvents.
Proof.
  intros Hi Hclick Hkeep Ht. cbv zeta.
  destruct (grid_lookup st i cell Hi)
    as [(_ & _ & _ & Hnone & _) | (d & dim & Hdim & Hd & Hidx & ->)];
    [congruence|].
  cbn [onclick dateCell] in Hclick. injection Hclick as <-.
  set (ds := formatDate (currentYear st) (currentMonth st) (Some d)) in *.
  destruct (renderCalendar_fields st) as (He & Hy & Hm & Hto & _ & _ & Hmk).
  destruct (prompt_then_type ds (mkForm t ds tm du) (renderCalendar st))
    as (Hblock & Hdate1 & He2 & Hy2 & Hm2 & Hto2 & Hmk2 & Hf2).
  rewrite Hmk, Hkeep in Hdate1.
  rewrite He in He2. rewrite Hy in Hy2. rewrite Hm in Hm2.
  rewrite Hto in Hto2. rewrite Hmk in Hmk2.
  split; [exact Hblock|]. split; [exact Hdate1|].
  rewrite Hdate1. clear Hblock Hdate1.
  set (st2 := step (TYPE (mkForm t ds tm du))
                   (step (OPEN_PROMPT ds) (renderCalendar st))) in *.
  clearbody st2.
  rewrite (submit_valid st2)
    by (rewrite Hf2; cbn [event_date event_title];
        first [apply formatDate_nonempty | exact Ht]).
  destruct (addEventForm_submit_adds st2)
    as (He3 & Hf3 & Hmod3 & Hy3 & Hm3 & Hgrid).
  destruct (addEventForm_submit_keeps st2) as (Hto3 & _).
  cbv zeta in He3. rewrite Hf2 in He3.
  cbn [event_title event_date event_time event_duration] in He3.
  set (st3 := addEventForm_submit st2) in *. clearbody st3.
  set (new := mkEvent t ds tm du) in *.
  rewrite He2 in He3. rewrite Hy2 in Hy3. rewrite Hm2 in Hm3.
  rewrite Hto2 in Hto3. rewrite Hmk2 in Hf3.
  split; [exact He3|]. split; [exact Hy3|]. split; [exact Hm3|].
  split; [exact Hmod3|]. split; [exact Hf3|].
  set (st' := set_events (staticEvents st ++ [new]) st).
  destruct (cells_same st' st3 He3 Hy3 Hm3 Hto3) as (Hlead & Hact & Htrail & _).
  rewrite Hgrid, Hlead, Hact, Htrail, <- renderCalendar_calendarGrid.
  pose proof (day_cell_at st' dim d Hdim Hd) as Hlook.
  rewrite (leadingCells_view st st' eq_refl eq_refl), <- Hidx in Hlook.
  eexists. split; [exact Hlook|].
  split; [reflexivity|]. split; [reflexivity|].
  rewrite dateCell_children. cbn [staticEvents st' set_events currentYear currentMonth].
  rewrite eventsOn_app.
  assert (eventsOn (formatDate (currentYear st) (currentMonth st) (Some d)) [new]
          = [new]) as ->; [|done].
  unfold eventsOn. by rewrite filter_cons_True.
Qed.

End DateStrings.

Lemma formatDate_injective_witness :
  String.length (Calendar.formatDate 2025 10 (Some 5)) = 10%nat
  ∧ (Calendar.formatDate 2025 10 (Some 5) = Calendar.formatDate 2025 10 (Some 5) →
     2025 = 2025 ∧ 10 = 10 ∧ 5 = 5).
Proof.
  assert (Hm : 0 <= 10 <= 11) by lia.
  assert (Hd : 1 <= 5 <= 31) by lia.
  exact (formatDate_injective 2025 10 5 2025 10 5 Hm Hd Hm Hd).
Defined.

Lemma event_drawn_in_its_cell_only_witness :
  ∃ cell,
    Calendar.calendarGrid
      (Calendar.renderCalendar (host:=utc) prompt_without_title) !! 6%nat
    = Some cell
    ∧ Calendar.dataset_date cell = Some "2025-11-01"
    ∧ Calendar.eventDiv 1 (Calendar.mkEvent "Bug Bash" "2025-11-01" "09:00" "3h")
      ∈ Calendar.children cell.
Proof.
  set (e := Calendar.mkEvent "Bug Bash" "2025-11-01" "09:00" "3h").
  set (cell := Calendar.dateCell 2025 10 (Some 1) false false false [e]).
  assert (Hlook : Calendar.calendarGrid
                    (Calendar.renderCalendar (host:=utc) prompt_without_title)
                    !! 6%nat = Some cell) by (vm_compute; reflexivity).
  assert (He : e ∈ Calendar.staticEvents prompt_without_title).
  { apply list_elem_of_lookup. by exists 5%nat. }
  assert (Hd : Calendar.dataset_date cell = Some (Calendar.date e))
    by reflexivity.
  destruct (event_drawn_in_its_cell_only (host:=utc) prompt_without_title
              6 6 cell cell e Hlook Hlook He Hd) as (Hin & _).
  exists cell. split; [exact Hlook|]. split; [exact Hd|]. exact Hin.
Defined.

Lemma clicked_cell_gets_the_event_witness :
  ∃ cell',
    Calendar.calendarGrid
      (Calendar.step (host:=utc) Calendar.SUBMIT
         (Calendar.step (host:=utc)
            (Calendar.TYPE (Calendar.mkForm "Retro" "2025-11-25" "16:00" "1h"))
            (Calendar.step (host:=utc) (Calendar.OPEN_PROMPT "2025-11-25")
               (Calendar.renderCalendar (host:=utc) prompt_without_title))))
      !! 30%nat = Some cell'
    ∧ Calendar.dataset_date cell' = Some "2025-11-25"
    ∧ length (Calendar.children cell') = 4%nat.
Proof.
  set (cell := Calendar.dateCell 2025 10 (Some 25) false false false
                 (Calendar.eventsOn "2025-11-25" Calendar.sampleEvents)).
  assert (Hlook : Calendar.calendarGrid
                    (Calendar.renderCalendar (host:=utc) prompt_without_title)
                    !! 30%nat = Some cell) by (vm_compute; reflexivity).
  assert (Hc : Calendar.onclick cell = Some "2025-11-25") by reflexivity.
  assert (Hk : Calendar.event_date_assign
                 (Calendar.markup prompt_without_title) "2025-11-25"
               = "2025-11-25") by reflexivity.
  assert (Ht : "Retro" ≠ EmptyString) by discriminate.
  destruct (clicked_cell_gets_the_event (host:=utc) prompt_without_title 30
              cell "2025-11-25" "Retro" "16:00" "1h" Hlook Hc Hk Ht)
    as (_ & _ & _ & _ & _ & _ & _ & cell' & Hl & Hd & _ & Hch).
  exists cell'. split; [exact Hl|]. split; [exact Hd|].
  rewrite Hch. reflexivity.
Defined.

(** * Further properties of the server *)

Section Routes.
Import Server.

(** X14. A request changes the collection only when it succeeds, and
    then by one event.  Every answer has one of the statuses 200, 201,
    400, 404 and 500; an answer of 400 or more, and every GET, leaves the
    collection as it was; a 201 is the answer to a POST with a body, which
    added one event at the end; a DELETE answered 200 leaves the
    collection one event shorter, the remaining events in their order. *)
Theorem handle_accounting r env c :
  let res := (handle r env c).1 in
  let c' := (handle r env c).2 in
  status res ∈ [200; 201; 400; 404; 500]
  ∧ (400 <= status res → c' = c)
  ∧ (∀ q, r = GET q → c' = c)
  ∧ (status res = 201 → ∃ b doc, r = POST (Some b) ∧ c' = c ++ [doc])
  ∧ (∀ id, r = DELETE id → status res = 200 →
     S (length c') = length c ∧ c' `sublist_of` c).
Proof.
  cbv zeta.
  assert (Hst : ∀ s : Z, s ∈ [200; 201; 400; 404; 500]
                         ↔ s = 200 ∨ s = 201 ∨ s = 400 ∨ s = 404 ∨ s = 500).
  { intros s. rewrite !elem_of_cons, elem_of_nil. tauto. }
  destruct r as [q|[b|]|id]; cbn [handle].
  - rewrite get_events_unfold. destruct (driver_up env); cbn [fst snd status];
      (split; [apply Hst; auto 10|]);
      (split; [done|]); (split; [done|]); (split; [done|]); done.
  - rewrite post_events_unfold.
    destruct (negb (truthy (body_date b)) || negb (truthy (body_title b)));
      [|destruct (driver_up env && negb (bool_decide (generatedId env ∈ ids c)))];
      cbn [fst snd status];
      (split; [apply Hst; auto 10|]);
      (split; [first [done | intros; lia]|]); (split; [done|]);
      (split; [|done]); first [done | intros _; by eexists _, _].
  - cbn [post_events fst snd status].
    split; [apply Hst; auto 10|]. by repeat split.
  - rewrite delete_event_unfold.
    destruct (new_ObjectId id) as [oid|];
      [destruct (driver_up env);
       [destruct (bool_decide_reflect (oid ∈ ids c)) as [Hin|Hnot]|]|];
      cbn [fst snd status];
      (split; [apply Hst; auto 10|]);
      (split; [first [done | intros; lia]|]); (split; [done|]);
      (split; [done|]); try done.
    intros id' _ _.
    by destruct (remove_first_present oid c Hin) as (_ & ? & ?).
Qed.

(** X15. With the store down every request that reaches it is answered
    500 with the message of its route, and nothing is stored or removed:
    GET with "Failed to fetch events", a POST with a truthy date and
    title with "Failed to add event", DELETE with "Failed to delete
    event".  A POST with a body but without a truthy date or title is
    still answered 400, since the check comes before the store; and a
    POST without a body is answered 500 with "Failed to add event",
    since reading its fields throws before the check. *)
Theorem store_down_answers env c :
  driver_up env = false →
  (∀ q, get_events q env c
        = (mkResponse 500 (JError "Failed to fetch events"), c))
  ∧ (∀ b, truthy (body_date b) = true → truthy (body_title b) = true →
          post_events (Some b) env c
          = (mkResponse 500 (JError "Failed to add event"), c))
  ∧ (∀ b, truthy (body_date b) = false ∨ truthy (body_title b) = false →
          post_events (Some b) env c
          = (mkResponse 400 (JError "date and title are required"), c))
  ∧ post_events None env c
    = (mkResponse 500 (JError "Failed to add event"), c)
  ∧ (∀ id, delete_event id env c
           = (mkResponse 500 (JError "Failed to delete event"), c)).
Proof.
  intros Hdown. split; [|split; [|split; [|split; [done|]]]].
  - intros q. by rewrite get_events_unfold, Hdown.
  - intros b Hd Ht. by rewrite post_events_unfold, Hd, Ht, Hdown.
  - intros b [H|H]; rewrite post_events_unfold, H; cbn; [done|].
    by rewrite orb_true_r.
  - intros id. rewrite delete_event_unfold, Hdown.
    by destruct (new_ObjectId id).
Qed.

Lemma store_down_answers_witness :
  driver_up env_down = false
  ∧ post_events (Some standup_body) env_down [standup]
    = (mkResponse 500 (JError "Failed to add event"), [standup]).
Proof.
  assert (Hdown : driver_up env_down = false) by reflexivity.
  destruct (store_down_answers env_down [standup] Hdown) as (_ & Hpost & _).
  exact (conj Hdown (Hpost standup_body eq_refl eq_refl)).
Defined.

Lemma filter_other_ids oid (c : list Doc) :
  oid ∉ ids c → filter (λ doc, _id doc ≠ oid) c = c.
Proof.
  intros Hnot. apply filter_keeps_all, Forall_forall.
  intros doc Hin Heq. apply Hnot. rewrite <- Heq. by apply list_elem_of_fmap_2.
Qed.

(** X16. Creating an event and deleting it by its identifier gives back
    the collection of before.  When identifiers are unique and a POST is
    answered 201, a DELETE, with the store up, on an identifier string
    that denotes the identifier of the created event is answered 200 and
    leaves exactly the events that were there before the POST, in their
    order. *)
Theorem post_then_delete req_body env env' c id :
  NoDup (ids c) →
  status (post_events req_body env c).1 = 201 →
  driver_up env' = true →
  new_ObjectId id = Some (generatedId env) →
  delete_event id env' (post_events req_body env c).2
  = (mkResponse 200 (JMessage "Event deleted"), c).
Proof.
  intros Hnd H201 Hup Hid.
  destruct (post_events_created req_body env c H201)
    as (b & _ & -> & Hfresh & _).
  cbn [snd]. rewrite delete_event_unfold, Hid, Hup.
  rewrite bool_decide_eq_true_2.
  2:{ unfold ids. rewrite fmap_app, elem_of_app. right. cbn.
      by apply list_elem_of_singleton. }
  f_equal. rewrite remove_first_filter.
  - rewrite (filter_app (λ doc : Doc, _id doc ≠ generatedId env) c).
    rewrite (filter_other_ids (generatedId env) c) by done.
    rewrite (filter_cons_False (λ doc : Doc, _id doc ≠ generatedId env) _ [])
      by (intros H; by apply H).
    by rewrite app_nil_r.
  - unfold ids. rewrite fmap_app. apply NoDup_app.
    split; [done|]. split; [|apply NoDup_singleton].
    intros x Hx ->%list_elem_of_singleton. done.
Qed.

Lemma post_then_delete_witness :
  NoDup (ids []) ∧ status (post_events (Some standup_body) env_up []).1 = 201
  ∧ delete_event "0000000000000000000000FF" env_up
      (post_events (Some standup_body) env_up []).2
    = (mkResponse 200 (JMessage "Event deleted"), []).
Proof.
  assert (Hnd : NoDup (ids [])) by apply NoDup_nil_2.
  assert (H201 : status (post_events (Some standup_body) env_up []).1 = 201)
    by reflexivity.
  assert (Hup : driver_up env_up = true) by reflexivity.
  assert (Hid : new_ObjectId "0000000000000000000000FF"
                = Some (generatedId env_up)) by reflexivity.
  exact (conj Hnd (conj H201
           (post_then_delete (Some standup_body) env_up env_up []
              "0000000000000000000000FF" Hnd H201 Hup Hid))).
Defined.

(** X17. Deleting twice finds nothing the second time.  When identifiers
    are unique, after a DELETE answered 200 the same DELETE, with the
    store up, is answered 404 with "Event not found" and changes
    nothing. *)
Theorem delete_twice id env env' c :
  NoDup (ids c) →
  status (delete_event id env c).1 = 200 →
  driver_up env' = true →
  let c1 := (delete_event id env c).2 in
  delete_event id env' c1 = (mkResponse 404 (JError "Event not found"), c1).
Proof.
  intros Hnd H200 Hup. cbv zeta. revert H200.
  rewrite (delete_event_unfold id env c).
  destruct (new_ObjectId id) as [oid|] eqn:Hid; [|done].
  destruct (driver_up env); [|done].
  destruct (bool_decide_reflect (oid ∈ ids c)) as [Hin|Hnot]; [|done].
  intros _. cbn [snd]. rewrite delete_event_unfold, Hid, Hup.
  rewrite bool_decide_eq_false_2; [done|].
  rewrite remove_first_filter by done. apply ids_filter_not.
Qed.

Lemma delete_twice_witness :
  NoDup (ids [standup])
  ∧ status (delete_event "0000000000000000000000ff" env_up [standup]).1 = 200
  ∧ delete_event "0000000000000000000000ff" env_up
      (delete_event "0000000000000000000000ff" env_up [standup]).2
    = (mkResponse 404 (JError "Event not found"), []).
Proof.
  assert (Hnd : NoDup (ids [standup])) by apply NoDup_singleton.
  assert (H200 : status (delete_event "0000000000000000000000ff" env_up
                           [standup]).1 = 200) by reflexivity.
  assert (Hup : driver_up env_up = true) by reflexivity.
  exact (conj Hnd (conj H200
           (delete_twice "0000000000000000000000ff" env_up env_up [standup]
              Hnd H200 Hup))).
Defined.

(** X18. A created event is listed under its date.  After a POST
    answered 201 whose date is the string [d], a GET for the date [d],
    with the store up, is answered 200 with the events that the date [d]
    selected before (those whose date is [d] or an array that holds [d])
    and the created event: one event more, the created one among them,
    each of them selected by [d]. *)
Theorem post_then_get req_body b env env' c d :
  req_body = Some b →
  status (post_events req_body env c).1 = 201 →
  body_date b = VStr d →
  driver_up env' = true →
  let c' := (post_events req_body env c).2 in
  let selected := filter (λ doc, matches_string d (date doc) = true) c in
  ∃ doc events,
    (post_events req_body env c).1 = mkResponse 201 (JEvent doc)
    ∧ date doc = VStr d
    ∧ get_events (Some d) env' c' = (mkResponse 200 (JEvents events), c')
    ∧ doc ∈ events
    ∧ events ≡ₚ selected ++ [doc]
    ∧ length events = S (length selected)
    ∧ Forall (λ doc, date doc = VStr d
                     ∨ ∃ elems, date doc = VArr elems ∧ VStr d ∈ elems) events.
Proof.
  intros -> H201 Hdate Hup. cbv zeta.
  destruct (post_events_created (Some b) env c H201)
    as (b' & [= <-] & Hpost & _ & Htruthy & _).
  cbv zeta in Hpost. rewrite Hpost. cbn [fst snd].
  rewrite Hdate in Htruthy.
  eexists _, _. split; [reflexivity|]. split; [exact Hdate|].
  rewrite get_events_unfold, Hup, Htruthy. split; [reflexivity|].
  set (doc := mkDoc _ _ _ _ _).
  assert (Hdoc : matches_string d (date doc) = true)
    by (apply matches_string_spec; left; exact Hdate).
  pose proof (merge_sort_Permutation date_le
                (filter (λ doc, matches_string d (date doc) = true)
                        (c ++ [doc]))) as Hperm.
  remember (merge_sort date_le _) as events eqn:Hev in Hperm |- *. clear Hev.
  rewrite (filter_app (λ doc : Doc, matches_string d (date doc) = true) c)
    in Hperm.
  rewrite (filter_cons_True (λ doc : Doc, matches_string d (date doc) = true)
             _ []) in Hperm by done.
  change (filter _ []) with (@nil Doc) in Hperm.
  split; [|split; [exact Hperm|split]].
  - rewrite Hperm, elem_of_app. right. by apply list_elem_of_singleton.
  - rewrite Hperm, length_app, Nat.add_comm. reflexivity.
  - rewrite Hperm. apply Forall_app. split.
    + apply Forall_forall. intros x [Hx _]%list_elem_of_filter.
      by apply matches_string_spec.
    + apply Forall_singleton. by left.
Qed.

Lemma post_then_get_witness :
  status (post_events (Some standup_body) env_up [offsite]).1 = 201
  ∧ ∃ events,
      get_events (Some "2025-12-01") env_up
                 (post_events (Some standup_body) env_up [offsite]).2
      = (mkResponse 200 (JEvents events),
         (post_events (Some standup_body) env_up [offsite]).2)
      ∧ length events = 2%nat.
Proof.
  assert (H201 : status (post_events (Some standup_body) env_up [offsite]).1
                 = 201) by reflexivity.
  assert (Hd : body_date standup_body = VStr "2025-12-01") by reflexivity.
  assert (Hup : driver_up env_up = true) by reflexivity.
  destruct (post_then_get (Some standup_body) standup_body env_up env_up
              [offsite] "2025-12-01" eq_refl H201 Hd Hup)
    as (doc & events & _ & _ & Hget & _ & _ & Hlen & _).
  split; [exact H201|]. exists events. split; [exact Hget|exact Hlen].
Defined.

Lemma or_else_settled a :
  or_else a (VStr EmptyString) = VStr EmptyString
  ∨ truthy (or_else a (VStr EmptyString)) = true.
Proof. unfold or_else. destruct (truthy a) eqn:H; auto. Qed.

(** X19. What is stored stays valid.  In every collection that the
    server can reach from the empty one, identifiers are unique and every
    event has a truthy date, a truthy title, and a description that is
    the empty string or a truthy value: no request stores an event that
    the check of POST would refuse, and no description is null, false, 0
    or missing. *)
Theorem stored_events_settled c :
  reachable c →
  NoDup (ids c)
  ∧ Forall (λ doc, truthy (date doc) = true ∧ truthy (title doc) = true
                   ∧ description_settled doc) c.
Proof.
  intros Hreach. split; [by apply reachable_well_formed|].
  induction Hreach as [|r env c _ IH]; [apply Forall_nil_2|].
  apply handle_keeps_stored; [|done].
  intros b Hd Ht. cbn. split; [done|]. split; [done|]. apply or_else_settled.
Qed.

Lemma stored_events_settled_witness :
  reachable [standup] ∧ NoDup (ids [standup]) ∧ description_settled standup.
Proof.
  assert (Hr : reachable [standup])
    by exact (reachable_step (POST (Some standup_body)) env_up []
                             reachable_empty).
  destruct (stored_events_settled [standup] Hr) as [Hnd Hall].
  split; [exact Hr|]. split; [exact Hnd|].
  apply Forall_inv in Hall. exact (proj2 (proj2 Hall)).
Defined.

End Routes.
